(** * Expense-app: the expense lifecycle and its access control

    A shallow embedding of the Express route handlers of
    [routes/expenses.js], of the middleware of [middleware/auth.js] and of
    the Mongoose schema of the Expense model, together with the properties
    of the expense lifecycle that the specification states.

    Conventions.
    - JavaScript strings are [string]; a request field that may be
      [undefined] is an [option string].  Request fields are strings, as
      multipart forms and query strings deliver them.
    - ObjectIds are the strings [toString()] prints; dates are epoch
      milliseconds in [Z].
    - The document store, the clock, the id generator and the third-party
      parsers are collaborators: the store is an explicit [World] threaded
      through a small error monad, clock and fresh id are arguments of the
      handlers, and the parsers are the fields of the class [Libraries]. *)

From Stdlib Require Import String Ascii List ZArith QArith Bool Lia.
From Stdlib Require Import Sorting.Sorted Sorting.Permutation.
From Stdlib Require DecimalString DecimalN.
Import ListNotations.

Local Open Scope string_scope.
Local Open Scope Z_scope.

(** ** JavaScript and validator.js helpers *)

Module Js.

(** The white space that [String.prototype.trim] and validator.js's [trim]
    strip, among the code points below 256. *)
Definition is_space (c : ascii) : bool :=
  let n := nat_of_ascii c in
  existsb (Nat.eqb n) [9; 10; 11; 12; 13; 32; 160]%nat.

Fixpoint trim_left (s : string) : string :=
  match s with
  | EmptyString => EmptyString
  | String c r => if is_space c then trim_left r else s
  end.

Fixpoint trim_right (s : string) : string :=
  match s with
  | EmptyString => EmptyString
  | String c r =>
      match trim_right r with
      | EmptyString => if is_space c then EmptyString else String c EmptyString
      | r' => String c r'
      end
  end.

Definition trim (s : string) : string := trim_right (trim_left s).

(** A string that does not begin with white space. *)
Definition clean_start (s : string) : Prop :=
  match s with
  | EmptyString => True
  | String c _ => is_space c = false
  end.

(** express-validator's [toString] on a field: [undefined] reads as the
    empty string. *)
Definition toString (v : option string) : string :=
  match v with Some s => s | None => EmptyString end.

(** [isLength({min, max})]. *)
Definition isLength (min max : nat) (s : string) : bool :=
  (min <=? String.length s)%nat && (String.length s <=? max)%nat.

(** [isLength({max})]. *)
Definition isLengthMax (max : nat) (s : string) : bool :=
  (String.length s <=? max)%nat.

(** [isIn(values)] and [Array.prototype.includes]. *)
Definition isIn (values : list string) (s : string) : bool :=
  existsb (String.eqb s) values.

(** [notEmpty()]. *)
Definition notEmpty (s : string) : bool := negb (String.eqb s EmptyString).

(** Truthiness of a string-or-undefined value. *)
Definition truthy (v : option string) : bool :=
  match v with Some s => negb (String.eqb s EmptyString) | None => false end.

(** A JavaScript number as far as [Math.ceil(total / limit)] needs it. *)
Inductive number := Num (z : Z) | Infinity | NaN.

(** [Math.ceil(a / b)] on integers [a >= 0] and [b]. *)
Definition ceil_div (a b : Z) : number :=
  if b =? 0 then (if a =? 0 then NaN else Infinity)
  else Num (- ((- a) / b)).

End Js.

(** ** Third-party parsers

    What the handlers take from validator.js, from the JavaScript runtime
    and from the JSON parser, without their implementation. *)

(** The value [JSON.parse] yields, read the way the schema's [vendor]
    sub-document reads it. *)
Inductive VendorData :=
| VendorObj (name contact address : option string)
| VendorOther.

Class Libraries := {
  (** the regular expression of validator.js's [isFloat] *)
  float_syntax : string -> bool;
  (** [parseFloat]; [None] is NaN *)
  parseFloat : string -> option Q;
  (** validator.js's [isISO8601] *)
  isISO8601 : string -> bool;
  (** [new Date(s)]; [None] is Invalid Date *)
  newDate : string -> option Z;
  (** [JSON.parse]; [None] when it throws *)
  JSON_parse : string -> option VendorData;
  (** neither validator accepts the empty string *)
  float_syntax_empty : float_syntax EmptyString = false;
  isISO8601_empty : isISO8601 EmptyString = false
}.

(** ** The Expense model (models/Expense.js) *)

Module Model.

Definition categories : list string :=
  ["Travel"; "Meals"; "Office Supplies"; "Transportation"; "Accommodation";
   "Entertainment"; "Training"; "Software"; "Equipment"; "Other"].

Definition currencies : list string :=
  ["USD"; "EUR"; "GBP"; "INR"; "CAD"; "AUD"].

Definition statuses : list string :=
  ["Pending"; "Approved"; "Rejected"; "Under Review"].

(** The literal [0.01] of [min: [0.01, ...]]. *)
Definition min_amount : Q := 1 # 100.

Record Vendor := {
  name : string;
  contact : option string;
  address : option string
}.

Record Invoice := {
  filename : string;
  originalName : string;
  path : string;
  size : Z;
  mimetype : string
}.

Record Expense := {
  _id : string;
  title : string;
  category : string;
  amount : Q;
  currency : string;
  description : string;
  vendor : Vendor;
  invoice : Invoice;
  submittedBy : string;
  status : string;
  reviewedBy : option string;
  reviewComments : option string;
  submittedDate : Z;
  reviewedDate : option Z;
  expenseDate : Z;
  createdAt : Z;
  updatedAt : Z
}.

(** Two documents agree on everything a review does not assign. *)
Definition same_submission (a b : Expense) : Prop :=
  _id a = _id b /\ title a = title b /\ category a = category b /\
  amount a = amount b /\ currency a = currency b /\
  description a = description b /\ vendor a = vendor b /\
  invoice a = invoice b /\ submittedBy a = submittedBy b /\
  submittedDate a = submittedDate b /\ expenseDate a = expenseDate b /\
  createdAt a = createdAt b.

(** A document is Pending exactly when it has no reviewer, and has a
    reviewer exactly when it has a review date. *)
Definition review_fields_paired (e : Expense) : Prop :=
  (status e = "Pending" <-> reviewedBy e = None) /\
  (reviewedBy e = None <-> reviewedDate e = None).

(** The paths of a document that fail the schema's validators: [required]
    (a required string must be non-empty), [maxlength], [enum] and [min]. *)
Definition schema_errors (e : Expense) : list string :=
  (if Js.notEmpty (title e) && Js.isLengthMax 100 (title e)
   then [] else ["title"]) ++
  (if Js.isIn categories (category e) then [] else ["category"]) ++
  (if Qle_bool min_amount (amount e) then [] else ["amount"]) ++
  (if Js.isIn currencies (currency e) then [] else ["currency"]) ++
  (if Js.notEmpty (description e) && Js.isLengthMax 500 (description e)
   then [] else ["description"]) ++
  (if Js.notEmpty (name (vendor e)) then [] else ["vendor.name"]) ++
  (if Js.notEmpty (filename (invoice e)) then [] else ["invoice.filename"]) ++
  (if Js.notEmpty (originalName (invoice e))
   then [] else ["invoice.originalName"]) ++
  (if Js.notEmpty (path (invoice e)) then [] else ["invoice.path"]) ++
  (if Js.notEmpty (mimetype (invoice e)) then [] else ["invoice.mimetype"]) ++
  (if Js.isIn statuses (status e) then [] else ["status"]).

(** The object handed to [Expense.create]. *)
Record NewExpense := {
  n_title : option string;
  n_category : option string;
  n_amount : option Q;
  n_currency : string;
  n_description : option string;
  n_vendor : VendorData;
  n_invoice : Invoice;
  n_submittedBy : string;
  n_expenseDate : option Z
}.

(** Paths that cannot be cast to the schema's types. *)
Definition cast_errors (n : NewExpense) : list string :=
  (match n_amount n with Some _ => [] | None => ["amount"] end) ++
  (match n_vendor n with VendorObj _ _ _ => [] | VendorOther => ["vendor"] end) ++
  (match n_expenseDate n with Some _ => [] | None => ["expenseDate"] end).

Definition trimmed (v : option string) : option string :=
  option_map Js.trim v.

(** The document Mongoose builds: setters ([trim]) and defaults ([status],
    [submittedDate], the timestamps) applied; [reviewedBy], [reviewComments]
    and [reviewedDate] have no default. *)
Definition build (n : NewExpense) (id : string) (now : Z) : Expense :=
  {| _id := id;
     title := Js.trim (Js.toString (n_title n));
     category := Js.toString (n_category n);
     amount := match n_amount n with Some q => q | None => 0%Q end;
     currency := n_currency n;
     description := Js.trim (Js.toString (n_description n));
     vendor :=
       match n_vendor n with
       | VendorObj nm c a =>
           {| name := Js.trim (Js.toString nm);
              contact := trimmed c; address := trimmed a |}
       | VendorOther => {| name := EmptyString; contact := None; address := None |}
       end;
     invoice := n_invoice n;
     submittedBy := n_submittedBy n;
     status := "Pending";
     reviewedBy := None;
     reviewComments := None;
     submittedDate := now;
     reviewedDate := None;
     expenseDate := match n_expenseDate n with Some d => d | None => 0 end;
     createdAt := now;
     updatedAt := now |}.

End Model.

(** ** The document store

    [Expense.findById], [find], [countDocuments], [create] and [save] over
    the collection.  A call may throw: the id of a query is not an
    ObjectId or the schema rejects the document, before anything is sent,
    or the round trip to the database fails.  The run of round trips that
    fail is an input ([faults], one flag a call), and every call on the
    Expense model that reaches the database is recorded ([calls]). *)

Module Store.
Import Model.

Inductive Call :=
| FindById (id : string)
| Find
| CountDocuments
| Create
| Save (id : string).

Inductive Error :=
| ValidationError (paths : list string)
| CastError (path : string)
| Fault.

Record World := {
  docs : list Expense;      (* the collection, in insertion order *)
  files : list string;      (* the paths present under uploads/ *)
  faults : list bool;       (* whether the next round trips fail *)
  calls : list Call         (* the round trips made so far *)
}.

(** Every document of the collection passes the schema's validators. *)
Definition valid_docs (w : World) : Prop :=
  Forall (fun e => schema_errors e = []) (docs w).

(** No round trip to come fails. *)
Definition healthy (w : World) : bool := forallb negb (faults w).

Definition M (A : Type) : Type := World -> (Error + A) * World.

Definition ret {A : Type} (a : A) : M A := fun w => (inr a, w).

Definition throw {A : Type} (e : Error) : M A := fun w => (inl e, w).

Definition bind {A B : Type} (m : M A) (k : A -> M B) : M B :=
  fun w =>
    match m w with
    | (inl e, w') => (inl e, w')
    | (inr a, w') => k a w'
    end.

(** A store computation that leaves the collection as it is. *)
Definition reads {A : Type} (m : M A) : Prop :=
  forall w, docs (snd (m w)) = docs w.

(** A store computation that leaves the files as they are. *)
Definition keeps_files {A : Type} (m : M A) : Prop :=
  forall w, files (snd (m w)) = files w.

Definition get_docs : M (list Expense) := fun w => (inr (docs w), w).

Definition get_files : M (list string) := fun w => (inr (files w), w).

Definition put_docs (l : list Expense) : M unit :=
  fun w =>
    (inr tt,
     {| docs := l; files := files w; faults := faults w; calls := calls w |}).

(** The world after one round trip [c] that did not fail. *)
Definition after_call (c : Call) (w : World) : World :=
  {| docs := docs w; files := files w;
     faults := tl (faults w); calls := (calls w ++ [c])%list |}.

(** One round trip to the database. *)
Definition round_trip (c : Call) : M unit :=
  fun w =>
    let w' := {| docs := docs w; files := files w;
                 faults := tl (faults w); calls := calls w ++ [c] |} in
    match faults w with
    | true :: _ => (inl Fault, w')
    | _ => (inr tt, w')
    end.

Declare Scope store_scope.
Delimit Scope store_scope with store.
Notation "x <- m ;; k" := (bind m (fun x => k))
  (at level 61, m at next level, right associativity) : store_scope.
Notation "m ;; k" := (bind m (fun _ => k))
  (at level 61, right associativity) : store_scope.
Local Open Scope store_scope.

(** A hexadecimal digit, of either case. *)
Definition is_hex_digit (c : ascii) : bool :=
  let n := nat_of_ascii c in
  ((48 <=? n) && (n <=? 57) || (65 <=? n) && (n <=? 70)
   || (97 <=? n) && (n <=? 102))%nat.

Fixpoint all_hex (s : string) : bool :=
  match s with
  | EmptyString => true
  | String c r => is_hex_digit c && all_hex r
  end.

(** The texts an ObjectId prints as: 24 hexadecimal digits. *)
Definition is_hex24 (s : string) : bool :=
  (String.length s =? 24)%nat && all_hex s.

(** Whether Mongoose casts the text [id] of a query to an ObjectId.  A
    text of 24 hexadecimal digits is cast.  The [_id] of a stored document
    is an ObjectId, whichever string stands for it here, so its text is
    cast too.  No other text is (the ObjectId constructor of the current
    driver; older ones also took a text of 12 bytes). *)
Definition casts (stored : list Expense) (id : string) : bool :=
  existsb (fun e => String.eqb (_id e) id) stored || is_hex24 id.

(** [Expense.findById(id)]: a text that is not cast makes the query throw
    a CastError, and nothing is sent. *)
Definition findById (id : string) : M (option Expense) :=
  stored <- get_docs ;;
  if casts stored id
  then
    round_trip (FindById id) ;;
    l <- get_docs ;;
    ret (find (fun e => String.eqb (_id e) id) l)
  else throw (CastError "_id").

(** A query filter: [{}], [{ status }] or [{ submittedBy }]. *)
Record Filter := {
  by_status : option string;
  by_submittedBy : option string
}.

Definition matches (f : Filter) (e : Expense) : bool :=
  match by_status f with Some s => String.eqb (status e) s | None => true end
  && match by_submittedBy f with
     | Some u => String.eqb (submittedBy e) u
     | None => true
     end.

(** [sort({ submittedDate: -1 })]: newest first, documents of one date in
    insertion order. *)
Fixpoint insert_desc (e : Expense) (l : list Expense) : list Expense :=
  match l with
  | [] => [e]
  | x :: r =>
      if submittedDate e <? submittedDate x
      then x :: insert_desc e r
      else e :: l
  end.

Fixpoint sort_desc (l : list Expense) : list Expense :=
  match l with
  | [] => []
  | e :: r => insert_desc e (sort_desc r)
  end.

(** A cursor's [limit(n)]: [0] is no limit, a negative [n] is [-n]. *)
(** Newest first: [a] is not older than [b]. *)
Definition newest_first (a b : Expense) : Prop :=
  submittedDate b <= submittedDate a.

Definition take_limit (n : Z) (l : list Expense) : list Expense :=
  if n =? 0 then l else firstn (Z.to_nat (Z.abs n)) l.

(** [find(f).sort({ submittedDate: -1 }).limit(n).skip(k)]; [None] where
    the chain sets no limit or no skip.  The server sorts, skips, then
    limits; it refuses a negative skip. *)
Definition find_sorted (f : Filter) (n k : option Z) : M (list Expense) :=
  round_trip Find ;;
  l <- get_docs ;;
  let sorted := sort_desc (filter (matches f) l) in
  match k with
  | Some k' =>
      if k' <? 0 then throw Fault
      else
        let rest := skipn (Z.to_nat k') sorted in
        ret (match n with Some n' => take_limit n' rest | None => rest end)
  | None =>
      ret (match n with Some n' => take_limit n' sorted | None => sorted end)
  end.

Definition countDocuments (f : Filter) : M Z :=
  round_trip CountDocuments ;;
  l <- get_docs ;;
  ret (Z.of_nat (length (filter (matches f) l))).

(** [Expense.create]: cast, apply setters and defaults, validate, insert. *)
Definition create (n : NewExpense) (id : string) (now : Z) : M Expense :=
  let e := build n id now in
  match (cast_errors n ++ schema_errors e)%list with
  | [] =>
      round_trip Create ;;
      l <- get_docs ;;
      put_docs (l ++ [e]) ;;
      ret e
  | paths => throw (ValidationError paths)
  end.

(** The write of [save]: the document of that [_id] is replaced. *)
Fixpoint replace (e : Expense) (l : list Expense) : list Expense :=
  match l with
  | [] => []
  | x :: r =>
      if String.eqb (_id x) (_id e) then e :: r else x :: replace e r
  end.

(** [expense.save()]: validate, write, with [updatedAt] refreshed by the
    schema's [timestamps] option. *)
Definition save (e : Expense) : M unit :=
  match schema_errors e with
  | [] =>
      round_trip (Save (_id e)) ;;
      l <- get_docs ;;
      put_docs (replace e l)
  | paths => throw (ValidationError paths)
  end.

End Store.

(** ** Responses *)

Module Http.
Import Model.

(** One entry of [errors.array()]. *)
Record FieldError := {
  param : string;
  msg : string
}.

Inductive Body :=
| Message (message : string)                  (* { message } *)
| Errors (errors : list FieldError)           (* { errors } *)
| Doc (e : Expense)
| Null
| Docs (l : list Expense)
| Page (expenses : list Expense) (totalPages : Js.number)
       (currentPage : Z) (total : Z)
| File (location : string) (downloadName : string).   (* res.download *)

(** [res.status(code).json(body)]; [res.json] answers 200. *)
Record Response := {
  code : Z;
  body : Body
}.

Definition json (c : Z) (b : Body) : Response := {| code := c; body := b |}.

(** The expenses a listing answers with. *)
Definition expenses_of (r : Response) : list Expense :=
  match body r with
  | Page l _ _ _ => l
  | Docs l => l
  | _ => []
  end.

End Http.

(** ** middleware/auth.js *)

Module Auth.
Import Model Store Http.
Local Open Scope store_scope.

Record User := {
  u_id : string;        (* [_id] *)
  role : string;
  isActive : bool
}.

(** What the authorization header amounts to: no bearer token, a token
    that [jwt.verify] or the user lookup rejects by throwing, or a verified
    token with the result of [User.findById].  The Users collection is not
    part of the world: what the lookup finds is an input, and the lookup is
    not one of the recorded calls, which are those on the Expense model. *)
Inductive Credential :=
| NoToken
| BadToken
| Token (found : option User).

Definition protect (c : Credential) : Response + User :=
  match c with
  | Token (Some u) =>
      if isActive u then inr u
      else inl (json 401 (Message "Not authorized, account is deactivated"))
  | Token None => inl (json 401 (Message "Not authorized, user not found"))
  | BadToken => inl (json 401 (Message "Not authorized, token failed"))
  | NoToken => inl (json 401 (Message "Not authorized, no token"))
  end.

(** [authorize(...roles)]: [None] is [next()]. *)
Definition authorize (roles : list string) (u : option User)
  : option Response :=
  match u with
  | None => Some (json 401 (Message "Not authorized"))
  | Some u' =>
      if negb (Js.isIn roles (role u'))
      then Some (json 403 (Message
             ("User role " ++ role u' ++
              " is not authorized to access this resource")))
      else None
  end.

(** What a middleware does: pass on, or answer. *)
Inductive Outcome :=
| Next
| Respond (r : Response).

(** [try { ... } catch (error) { ... 500 ... }] around a middleware. *)
Definition guarded (m : M Outcome) : World -> Outcome * World :=
  fun w =>
    match m w with
    | (inr o, w') => (o, w')
    | (inl _, w') => (Respond (json 500 (Message "Server error")), w')
    end.

Definition canAccessExpense (u : User) (expenseId : string)
  : World -> Outcome * World :=
  guarded (
    let userId := u_id u in
    let userRole := role u in
    if String.eqb userRole "Manager" || String.eqb userRole "Finance"
    then ret Next
    else
      expense <- findById expenseId ;;
      match expense with
      | None => ret (Respond (json 404 (Message "Expense not found")))
      | Some e =>
          if negb (String.eqb (submittedBy e) userId)
          then ret (Respond (json 403
                 (Message "Not authorized to access this expense")))
          else ret Next
      end).

End Auth.

(** ** routes/expenses.js *)

Module Routes.
Import Model Store Http Auth.
Local Open Scope store_scope.

(** The [vendor] field of a multipart body: one text field, or the object
    the bracketed fields [vendor[name]], ... build. *)
Inductive VendorField :=
| VendorString (s : string)
| VendorFields (name contact address : option string).

Record SubmitBody := {
  b_title : option string;
  b_category : option string;
  b_amount : option string;
  b_currency : option string;
  b_description : option string;
  b_vendor : option VendorField;
  b_expenseDate : option string
}.

(** [req.file] as multer's [upload.single('invoice')] leaves it. *)
Record Upload := {
  f_filename : string;
  f_originalname : string;
  f_path : string;
  f_size : Z;
  f_mimetype : string
}.

Record ReviewBody := {
  r_status : option string;
  r_reviewComments : option string
}.

Record ListQuery := {
  q_status : option string;
  q_page : option Z;
  q_limit : option Z
}.

(** The value the chain [body('vendor.name')] validates: the one at the
    path [vendor.name] of [req.body].  When [vendor] is a string that value
    is [undefined], a string having no property [name]. *)
Definition vendor_name (v : option VendorField) : option string :=
  match v with
  | Some (VendorFields n _ _) => n
  | Some (VendorString _) => None
  | None => None
  end.

(** [try { ... } catch (error) { res.status(500).json({ message }) }]. *)
Definition catch500 (message : string) (m : M Response)
  : World -> Response * World :=
  fun w =>
    match m w with
    | (inr r, w') => (r, w')
    | (inl _, w') => (json 500 (Message message), w')
    end.

Definition review_statuses : list string :=
  ["Approved"; "Rejected"; "Under Review"].

Definition status_rule : FieldError :=
  {| param := "status"; msg := "Invalid status" |}.

(** The validation chains of [PUT /:id/status], in order. *)
Definition review_errors (b : ReviewBody) : list FieldError :=
  ((if Js.isIn review_statuses (Js.toString (r_status b)) then []
    else [status_rule]) ++
   (match r_reviewComments b with
    | None => []
    | Some c =>
        if Js.isLengthMax 500 (Js.trim c) then []
        else [{| param := "reviewComments";
                 msg := "Review comments must be less than 500 characters" |}]
    end))%list.

(** The body once the chains' sanitizers have run. *)
Definition review_sanitized (b : ReviewBody) : ReviewBody :=
  {| r_status := r_status b;
     r_reviewComments := option_map Js.trim (r_reviewComments b) |}.

Definition set_review (e : Expense) (st by_ : string) (now : Z) : Expense :=
  {| _id := _id e; title := title e; category := category e;
     amount := amount e; currency := currency e;
     description := description e; vendor := vendor e;
     invoice := invoice e; submittedBy := submittedBy e;
     status := st;
     reviewedBy := Some by_;
     reviewComments := reviewComments e;
     submittedDate := submittedDate e;
     reviewedDate := Some now;
     expenseDate := expenseDate e;
     createdAt := createdAt e; updatedAt := now |}.

Definition set_reviewComments (e : Expense) (c : string) : Expense :=
  {| _id := _id e; title := title e; category := category e;
     amount := amount e; currency := currency e;
     description := description e; vendor := vendor e;
     invoice := invoice e; submittedBy := submittedBy e;
     status := status e;
     reviewedBy := reviewedBy e;
     reviewComments := Some (Js.trim c);
     submittedDate := submittedDate e;
     reviewedDate := reviewedDate e;
     expenseDate := expenseDate e;
     createdAt := createdAt e; updatedAt := updatedAt e |}.

(** The assignments of the handler of [PUT /:id/status] to the loaded
    document, [b'] being the sanitized body. *)
Definition reviewed (e : Expense) (user : User) (b' : ReviewBody) (now : Z)
  : Expense :=
  let e1 := set_review e (Js.toString (r_status b')) (u_id user) now in
  if Js.truthy (r_reviewComments b')
  then set_reviewComments e1 (Js.toString (r_reviewComments b'))
  else e1.

(** The handler of [PUT /:id/status]. *)
Definition update_status (user : User) (id : string) (b : ReviewBody)
    (now : Z) : World -> Response * World :=
  catch500 "Server error" (
    match review_errors b with
    | (_ :: _) as errors => ret (json 400 (Errors errors))
    | [] =>
        let b' := review_sanitized b in
        expense <- findById id ;;
        match expense with
        | None => ret (json 404 (Message "Expense not found"))
        | Some e =>
            save (reviewed e user b' now) ;;
            updatedExpense <- findById id ;;
            ret (json 200
                   (match updatedExpense with Some u => Doc u | None => Null end))
        end
    end).

(** The handler of [GET /] (the listing of managers and finance). *)
Definition list_all (q : ListQuery) : World -> Response * World :=
  catch500 "Server error" (
    let page := match q_page q with Some p => p | None => 1 end in
    let limit := match q_limit q with Some l => l | None => 10 end in
    let query :=
      {| by_status := if Js.truthy (q_status q) then q_status q else None;
         by_submittedBy := None |} in
    expenses <- find_sorted query (Some (limit * 1)) (Some ((page - 1) * limit)) ;;
    total <- countDocuments query ;;
    ret (json 200 (Page expenses (Js.ceil_div total limit) page total))).

(** The query [q] asked for page [p]. *)
Definition at_page (q : ListQuery) (p : Z) : ListQuery :=
  {| q_status := q_status q; q_page := Some p; q_limit := q_limit q |}.

(** The handler of [GET /my]. *)
Definition list_my (user : User) : World -> Response * World :=
  catch500 "Server error" (
    expenses <- find_sorted
      {| by_status := None; by_submittedBy := Some (u_id user) |} None None ;;
    ret (json 200 (Docs expenses))).

(** The handler of [GET /:id]. *)
Definition get_one (id : string) : World -> Response * World :=
  catch500 "Server error" (
    expense <- findById id ;;
    match expense with
    | None => ret (json 404 (Message "Expense not found"))
    | Some e => ret (json 200 (Doc e))
    end).

(** The handler of [GET /:id/invoice]. *)
Definition download_invoice (id : string) : World -> Response * World :=
  catch500 "Server error" (
    expense <- findById id ;;
    match expense with
    | None => ret (json 404 (Message "Expense not found"))
    | Some e =>
        let filePath := path (invoice e) in
        present <- get_files ;;
        if negb (existsb (String.eqb filePath) present)
        then ret (json 404 (Message "Invoice file not found"))
        else ret (json 200 (File filePath (originalName (invoice e))))
    end).

Section Submission.
Context {L : Libraries}.

(** [isFloat({ min: 0.01 })]. *)
Definition isFloat_min (s : string) : bool :=
  float_syntax s &&
  match parseFloat s with
  | Some q => Qle_bool min_amount q
  | None => false
  end.

Definition title_rule : FieldError :=
  {| param := "title";
     msg := "Title is required and must be less than 100 characters" |}.
Definition category_rule : FieldError :=
  {| param := "category"; msg := "Invalid category" |}.
Definition amount_rule : FieldError :=
  {| param := "amount"; msg := "Amount must be greater than 0" |}.
Definition description_rule : FieldError :=
  {| param := "description";
     msg := "Description is required and must be less than 500 characters" |}.
Definition vendor_rule : FieldError :=
  {| param := "vendor.name"; msg := "Vendor name is required" |}.
Definition date_rule : FieldError :=
  {| param := "expenseDate"; msg := "Valid expense date is required" |}.

(** Each validation chain of [POST /] with the error it reports. *)
Definition submit_rules : list ((SubmitBody -> bool) * FieldError) :=
  [ (fun b => Js.isLength 1 100 (Js.trim (Js.toString (b_title b))),
     title_rule);
    (fun b => Js.isIn categories (Js.toString (b_category b)),
     category_rule);
    (fun b => isFloat_min (Js.toString (b_amount b)),
     amount_rule);
    (fun b => Js.isLength 1 500 (Js.trim (Js.toString (b_description b))),
     description_rule);
    (fun b => Js.notEmpty (Js.trim (Js.toString (vendor_name (b_vendor b)))),
     vendor_rule);
    (fun b => isISO8601 (Js.toString (b_expenseDate b)),
     date_rule) ].

(** [validationResult(req).array()]: every chain runs, and each one that
    fails contributes its error. *)
Definition submit_errors (b : SubmitBody) : list FieldError :=
  map snd (filter (fun r => negb (fst r b)) submit_rules).

(** The body once the chains' sanitizers ([trim]) have run.  The handler
    reads it only when no chain failed. *)
Definition submit_sanitized (b : SubmitBody) : SubmitBody :=
  {| b_title := Some (Js.trim (Js.toString (b_title b)));
     b_category := b_category b;
     b_amount := b_amount b;
     b_currency := b_currency b;
     b_description := Some (Js.trim (Js.toString (b_description b)));
     b_vendor :=
       match b_vendor b with
       | Some (VendorFields n c a) =>
           Some (VendorFields (Some (Js.trim (Js.toString n))) c a)
       | v => v
       end;
     b_expenseDate := b_expenseDate b |}.

(** [typeof vendor === 'string' ? JSON.parse(vendor) : vendor]; [None]
    when [JSON.parse] throws. *)
Definition parse_vendor (v : option VendorField) : option VendorData :=
  match v with
  | Some (VendorString s) => JSON_parse s
  | Some (VendorFields n c a) => Some (VendorObj n c a)
  | None => Some VendorOther
  end.

Definition invoice_of (f : Upload) : Invoice :=
  {| filename := f_filename f;
     originalName := f_originalname f;
     path := f_path f;
     size := f_size f;
     mimetype := f_mimetype f |}.

(** The body with [currency] set to [c]. *)
Definition with_currency (b : SubmitBody) (c : option string) : SubmitBody :=
  {| b_title := b_title b;
     b_category := b_category b;
     b_amount := b_amount b;
     b_currency := c;
     b_description := b_description b;
     b_vendor := b_vendor b;
     b_expenseDate := b_expenseDate b |}.

(** The object literal handed to [Expense.create]. *)
Definition new_expense (user : User) (b' : SubmitBody) (f : Upload)
    (vendorData : VendorData) : NewExpense :=
  {| n_title := b_title b';
     n_category := b_category b';
     n_amount :=
       match b_amount b' with Some a => parseFloat a | None => None end;
     n_currency := match b_currency b' with Some c => c | None => "USD" end;
     n_description := b_description b';
     n_vendor := vendorData;
     n_invoice := invoice_of f;
     n_submittedBy := u_id user;
     n_expenseDate :=
       match b_expenseDate b' with Some d => newDate d | None => None end |}.

(** What the schema and the casts ask of a submission beyond its
    validation chains: a currency of the enumeration when one is given, an
    expense date that [new Date] can read, and the four strings of the
    uploaded file's metadata present. *)
Definition storable (b : SubmitBody) (f : Upload) : Prop :=
  (forall c, b_currency b = Some c -> In c currencies) /\
  (forall d, b_expenseDate b = Some d -> newDate d <> None) /\
  f_filename f <> EmptyString /\ f_originalname f <> EmptyString /\
  f_path f <> EmptyString /\ f_mimetype f <> EmptyString.

(** The handler of [POST /]. *)
Definition submit (user : User) (b : SubmitBody) (file : option Upload)
    (now : Z) (fresh : string) : World -> Response * World :=
  catch500 "Server error during expense submission" (
    match submit_errors b with
    | (_ :: _) as errors => ret (json 400 (Errors errors))
    | [] =>
        match file with
        | None => ret (json 400 (Message "Invoice file is required"))
        | Some f =>
            let b' := submit_sanitized b in
            match parse_vendor (b_vendor b') with
            | None => ret (json 400 (Message "Invalid vendor data format"))
            | Some vendorData =>
                expense <- create (new_expense user b' f vendorData) fresh now ;;
                ret (json 201 (Doc expense))
            end
        end
    end).

End Submission.

End Routes.

(** ** The six endpoints behind their middleware *)

Module Api.
Import Model Store Http Auth Routes.

Inductive Request :=
| PostExpense (c : Credential) (b : SubmitBody) (file : option Upload)
| GetMy (c : Credential)
| GetAll (c : Credential) (q : ListQuery)
| GetOne (c : Credential) (id : string)
| PutStatus (c : Credential) (id : string) (b : ReviewBody)
| GetInvoice (c : Credential) (id : string).

(** The requests for [PUT /:id/status]. *)
Definition is_review (r : Request) : Prop :=
  exists c id b, r = PutStatus c id b.

(** [protect, authorize(...roles), handler]. *)
Definition for_roles (roles : list string) (c : Credential)
    (handler : User -> World -> Response * World)
  : World -> Response * World :=
  fun w =>
    match protect c with
    | inl r => (r, w)
    | inr u =>
        match authorize roles (Some u) with
        | Some r => (r, w)
        | None => handler u w
        end
    end.

(** [protect, canAccessExpense, handler]. *)
Definition for_owner (id : string) (c : Credential)
    (handler : World -> Response * World)
  : World -> Response * World :=
  fun w =>
    match protect c with
    | inl r => (r, w)
    | inr u =>
        match canAccessExpense u id w with
        | (Respond r, w') => (r, w')
        | (Next, w') => handler w'
        end
    end.

(** One request served at time [now]; [fresh] is the ObjectId the driver
    would give a new document.  A submission is taken where
    [upload.single('invoice')] hands it on: [file] is [req.file] and [b]
    the text fields of the form.  A request that multer itself refuses (a
    file the filter rejects, a file over the size limit) does not reach the
    validation chains or the handler, and is not a [Request]. *)
Definition handle {L : Libraries} (r : Request) (now : Z) (fresh : string)
  : World -> Response * World :=
  match r with
  | PostExpense c b file =>
      for_roles ["Employee"] c (fun u => submit u b file now fresh)
  | GetMy c => for_roles ["Employee"] c list_my
  | GetAll c q => for_roles ["Manager"; "Finance"] c (fun _ => list_all q)
  | GetOne c id => for_owner id c (get_one id)
  | PutStatus c id b =>
      for_roles ["Manager"; "Finance"] c (fun u => update_status u id b now)
  | GetInvoice c id => for_owner id c (download_invoice id)
  end.

(** The credential a request comes with. *)
Definition credential_of (r : Request) : Credential :=
  match r with
  | PostExpense c _ _ => c
  | GetMy c => c
  | GetAll c _ => c
  | GetOne c _ => c
  | PutStatus c _ _ => c
  | GetInvoice c _ => c
  end.

(** The roles the route of a request names in [authorize(...)]; [None] for
    the two routes behind [canAccessExpense]. *)
Definition roles_of (r : Request) : option (list string) :=
  match r with
  | PostExpense _ _ _ => Some ["Employee"]
  | GetMy _ => Some ["Employee"]
  | GetAll _ _ => Some ["Manager"; "Finance"]
  | PutStatus _ _ _ => Some ["Manager"; "Finance"]
  | GetOne _ _ => None
  | GetInvoice _ _ => None
  end.

(** A history of the service: requests with their times and fresh ids. *)
Fixpoint run {L : Libraries} (h : list (Request * Z * string)) (w : World)
  : World :=
  match h with
  | [] => w
  | (r, now, fresh) :: h' => run h' (snd (handle r now fresh w))
  end.

End Api.

(** ** The names of stored files

    The [filename] function of the multer disk storage.  The decimal
    rendering of a number is JavaScript's for the integers [Date.now()] and
    [Math.round(Math.random() * 1E9)] yield. *)

Module Uploads.

(** What the storage takes from Node's [path] module: [extname] gives the
    empty string or an extension that begins with a dot. *)
Class Node := {
  extname : string -> string;
  extname_shape :
    forall s, extname s = EmptyString \/ exists r, extname s = String "." r
}.

(** [String(n)] for a natural number. *)
Definition decimal (n : N) : string :=
  DecimalString.NilEmpty.string_of_uint (N.to_uint n).

(** [filename]: [now] is [Date.now()], [rnd] is
    [Math.round(Math.random() * 1E9)]. *)
Definition filename {P : Node} (fieldname : string) (now rnd : N)
    (originalname : string) : string :=
  let uniqueSuffix := (decimal now ++ "-" ++ decimal rnd)%string in
  (fieldname ++ "-" ++ uniqueSuffix ++ extname originalname)%string.

Definition is_digit (c : ascii) : bool :=
  (48 <=? nat_of_ascii c)%nat && (nat_of_ascii c <=? 57)%nat.

Fixpoint all_digits (s : string) : bool :=
  match s with
  | EmptyString => true
  | String c r => is_digit c && all_digits r
  end.

End Uploads.

(** ** Sample data

    A table of values of the third-party parsers, and a small world, to
    run the handlers on. *)

Module Sample.
Import Model Store Http Auth Routes Api.

Definition quote : string := String (ascii_of_nat 34) EmptyString.

(** The text [{"name":"Acme"}]. *)
Definition acme_json : string :=
  ("{" ++ quote ++ "name" ++ quote ++ ":" ++ quote ++ "Acme" ++ quote ++ "}")%string.

Definition libs : Libraries :=
  {| float_syntax := fun s => String.eqb s "42.50";
     parseFloat := fun s => if String.eqb s "42.50" then Some (85 # 2)%Q else None;
     isISO8601 := fun s => String.eqb s "2024-03-15";
     newDate := fun s =>
       if String.eqb s "2024-03-15" then Some 1710460800000 else None;
     JSON_parse := fun s =>
       if String.eqb s acme_json then Some (VendorObj (Some "Acme") None None)
       else None;
     float_syntax_empty := eq_refl;
     isISO8601_empty := eq_refl |}.

(** [path.extname] on the names the examples use. *)
Definition node : Uploads.Node :=
  {| Uploads.extname := fun s =>
       if String.eqb s "receipt.pdf" then ".pdf" else EmptyString;
     Uploads.extname_shape := fun s =>
       match String.eqb s "receipt.pdf" as b
         return ((if b then ".pdf" else EmptyString) = EmptyString \/
                 exists r, (if b then ".pdf" else EmptyString) = String "." r)
       with
       | true => or_intror (ex_intro _ "pdf" eq_refl)
       | false => or_introl eq_refl
       end |}.

Definition employee : User :=
  {| u_id := "u1"; role := "Employee"; isActive := true |}.
Definition colleague : User :=
  {| u_id := "u2"; role := "Employee"; isActive := true |}.
Definition manager : User :=
  {| u_id := "m1"; role := "Manager"; isActive := true |}.
Definition finance : User :=
  {| u_id := "f1"; role := "Finance"; isActive := true |}.

Definition receipt : Upload :=
  {| f_filename := "invoice-1710460800000-123456789.pdf";
     f_originalname := "receipt.pdf";
     f_path := "uploads/invoices/invoice-1710460800000-123456789.pdf";
     f_size := 2097152;
     f_mimetype := "application/pdf" |}.

Definition trip : SubmitBody :=
  {| b_title := Some " Taxi to airport ";
     b_category := Some "Travel";
     b_amount := Some "42.50";
     b_currency := None;
     b_description := Some "Client visit";
     b_vendor := Some (VendorFields (Some "Acme") None None);
     b_expenseDate := Some "2024-03-15" |}.

(** [trip] with its vendor as the text [{"name":"Acme"}]. *)
Definition trip_text : SubmitBody :=
  {| b_title := Some " Taxi to airport ";
     b_category := Some "Travel";
     b_amount := Some "42.50";
     b_currency := None;
     b_description := Some "Client visit";
     b_vendor := Some (VendorString acme_json);
     b_expenseDate := Some "2024-03-15" |}.


Definition empty : World :=
  {| docs := []; files := [f_path receipt]; faults := []; calls := [] |}.

(** The document the submission of [trip] creates. *)
Definition e1 : Expense :=
  {| _id := "e1"; title := "Taxi to airport"; category := "Travel";
     amount := (85 # 2)%Q; currency := "USD"; description := "Client visit";
     vendor := {| name := "Acme"; contact := None; address := None |};
     invoice := invoice_of receipt; submittedBy := "u1";
     status := "Pending"; reviewedBy := None; reviewComments := None;
     submittedDate := 1000; reviewedDate := None;
     expenseDate := 1710460800000; createdAt := 1000; updatedAt := 1000 |}.

Definition with_status (e : Expense) (id st : string) (at_ : Z) : Expense :=
  {| _id := id; title := title e; category := category e;
     amount := amount e; currency := currency e;
     description := description e; vendor := vendor e;
     invoice := invoice e; submittedBy := submittedBy e;
     status := st; reviewedBy := Some "m1";
     reviewComments := Some "seen";
     submittedDate := at_; reviewedDate := Some at_;
     expenseDate := expenseDate e;
     createdAt := at_; updatedAt := at_ |}.

Definition e2 : Expense := with_status e1 "e2" "Approved" 2000.
Definition e3 : Expense := with_status e1 "e3" "Under Review" 3000.

Definition world : World :=
  {| docs := [e1; e2; e3]; files := [f_path receipt];
     faults := []; calls := [] |}.

End Sample.

(** * Properties *)

Import Model Store Http Auth Routes Api.
Local Open Scope store_scope.

(** ** Strings *)

Lemma isIn_In (values : list string) (s : string) :
  Js.isIn values s = true <-> In s values.
Proof.
  unfold Js.isIn. rewrite existsb_exists. split.
  - intros [x [Hx Heq]]. apply String.eqb_eq in Heq. now subst.
  - intros H. exists s. split; [assumption | apply String.eqb_refl].
Qed.

Lemma isIn_not_In (values : list string) (s : string) :
  Js.isIn values s = false <-> ~ In s values.
Proof.
  rewrite <- isIn_In. destruct (Js.isIn values s); split; congruence.
Qed.

Lemma notEmpty_length (s : string) :
  Js.notEmpty s = true <-> (1 <= String.length s)%nat.
Proof.
  destruct s; simpl; split; intros H; try reflexivity; try discriminate; lia.
Qed.

Lemma trim_right_idem (s : string) :
  Js.trim_right (Js.trim_right s) = Js.trim_right s.
Proof.
  induction s as [| c r IH]; simpl; [reflexivity |].
  destruct (Js.trim_right r) as [| c' r'] eqn:E.
  - destruct (Js.is_space c) eqn:Hc; simpl; [reflexivity | now rewrite Hc].
  - simpl in IH |- *. now rewrite IH.
Qed.

Lemma trim_left_clean (s : string) : Js.clean_start (Js.trim_left s).
Proof.
  induction s as [| c r IH]; simpl; [exact I |].
  destruct (Js.is_space c) eqn:Hc; [exact IH | exact Hc].
Qed.

Lemma trim_left_of_clean (s : string) :
  Js.clean_start s -> Js.trim_left s = s.
Proof.
  destruct s as [| c r]; simpl; [reflexivity |]. now intros ->.
Qed.

Lemma trim_right_clean (s : string) :
  Js.clean_start s -> Js.clean_start (Js.trim_right s).
Proof.
  destruct s as [| c r]; simpl; [trivial |].
  intros Hc. destruct (Js.trim_right r); [rewrite Hc |]; exact Hc.
Qed.

Lemma trim_idem (s : string) : Js.trim (Js.trim s) = Js.trim s.
Proof.
  unfold Js.trim.
  rewrite (trim_left_of_clean (Js.trim_right (Js.trim_left s))).
  - apply trim_right_idem.
  - apply trim_right_clean, trim_left_clean.
Qed.

(** ** The store monad *)

Lemma round_trip_healthy (c : Call) (w : World) :
  healthy w = true ->
  round_trip c w =
    (inr tt, {| docs := docs w; files := files w;
                faults := tl (faults w); calls := (calls w ++ [c])%list |})
  /\ healthy (snd (round_trip c w)) = true.
Proof.
  unfold healthy, round_trip. destruct (faults w) as [| [|] fs]; simpl.
  - auto.
  - discriminate.
  - auto.
Qed.

Lemma healthy_tl (w : World) (l : list Expense) (fs : list string)
    (cs : list Call) :
  healthy w = true ->
  healthy {| docs := l; files := fs; faults := tl (faults w); calls := cs |}
    = true.
Proof.
  unfold healthy. simpl. destruct (faults w) as [| f r]; simpl; [auto |].
  intros H. now apply andb_prop in H.
Qed.

Lemma healthy_after_call (c : Call) (w : World) :
  healthy w = true -> healthy (after_call c w) = true.
Proof. apply healthy_tl. Qed.

Lemma find_casts (id : string) (l : list Expense) (e : Expense) :
  find (fun x => String.eqb (_id x) id) l = Some e -> casts l id = true.
Proof.
  intros H. unfold casts. apply orb_true_iff. left.
  apply existsb_exists. exists e. now apply find_some in H.
Qed.



Lemma findById_healthy (id : string) (w : World) :
  healthy w = true -> casts (docs w) id = true ->
  findById id w =
    (inr (find (fun e => String.eqb (_id e) id) (docs w)),
     after_call (FindById id) w).
Proof.
  intros H C. unfold findById. unfold bind at 1. cbn [get_docs].
  rewrite C. unfold bind.
  destruct (round_trip_healthy (FindById id) w H) as [-> _]. reflexivity.
Qed.


Lemma reads_ret {A : Type} (a : A) : reads (ret a).
Proof. intros w. reflexivity. Qed.

Lemma reads_throw {A : Type} (e : Error) : reads (@throw A e).
Proof. intros w. reflexivity. Qed.

Lemma reads_bind {A B : Type} (m : M A) (k : A -> M B) :
  reads m -> (forall a, reads (k a)) -> reads (bind m k).
Proof.
  intros Hm Hk w. unfold bind. specialize (Hm w).
  destruct (m w) as [[e | a] w']; simpl in *; [assumption |].
  now rewrite Hk.
Qed.

Lemma reads_round_trip (c : Call) : reads (round_trip c).
Proof.
  intros w. unfold round_trip. now destruct (faults w) as [| [|] fs].
Qed.

Lemma reads_get_docs : reads get_docs.
Proof. intros w. reflexivity. Qed.

Lemma reads_get_files : reads get_files.
Proof. intros w. reflexivity. Qed.

Create HintDb reads.
#[local] Hint Resolve reads_ret reads_throw reads_round_trip reads_get_docs
  reads_get_files : reads.

Ltac reads_step :=
  first [ solve [auto with reads]
        | apply reads_bind; [| intros ?]
        | match goal with |- reads (match ?x with _ => _ end) => destruct x end
        | match goal with |- reads (if ?x then _ else _) => destruct x end ].

Lemma reads_findById (id : string) : reads (findById id).
Proof. unfold findById. repeat reads_step. Qed.

Lemma reads_find_sorted (f : Filter) (n k : option Z) :
  reads (find_sorted f n k).
Proof. unfold find_sorted. repeat reads_step. Qed.

Lemma reads_countDocuments (f : Filter) : reads (countDocuments f).
Proof. unfold countDocuments. repeat reads_step. Qed.

#[local] Hint Resolve reads_findById reads_find_sorted reads_countDocuments
  : reads.

Lemma catch500_reads (message : string) (m : M Response) (w : World) :
  reads m -> docs (snd (catch500 message m w)) = docs w.
Proof.
  intros H. unfold catch500. specialize (H w).
  now destruct (m w) as [[e | r] w'].
Qed.

Lemma guarded_reads (m : M Outcome) (w : World) :
  reads m -> docs (snd (guarded m w)) = docs w.
Proof.
  intros H. unfold guarded. specialize (H w).
  now destruct (m w) as [[e | r] w'].
Qed.

Lemma canAccessExpense_reads (u : User) (id : string) (w : World) :
  docs (snd (canAccessExpense u id w)) = docs w.
Proof.
  unfold canAccessExpense. apply guarded_reads. repeat reads_step.
Qed.

(** ** Access to one expense *)

Lemma healthy_hd (w : World) : healthy w = true -> hd false (faults w) = false.
Proof.
  unfold healthy. destruct (faults w) as [| [|] fs]; simpl; auto.
Qed.

Lemma round_trip_next (c : Call) (w : World) :
  round_trip c w =
    (if hd false (faults w) then inl Fault else inr tt, after_call c w).
Proof.
  unfold round_trip, after_call. now destruct (faults w) as [| [|] fs].
Qed.

(** [findById] in full: the cast, then the round trip, then the answer. *)
Lemma findById_compute (id : string) (w : World) :
  findById id w =
    if casts (docs w) id
    then
      (if hd false (faults w) then inl Fault
       else inr (find (fun e => String.eqb (_id e) id) (docs w)),
       after_call (FindById id) w)
    else (inl (CastError "_id"), w).
Proof.
  unfold findById. unfold bind at 1. cbn [get_docs].
  destruct (casts (docs w) id); [| reflexivity].
  unfold bind. rewrite round_trip_next.
  now destruct (hd false (faults w)).
Qed.

(** The check for a user who is neither Manager nor Finance, in full. *)
Lemma canAccessExpense_compute (u : User) (id : string) (w : World) :
  role u <> "Manager" -> role u <> "Finance" ->
  canAccessExpense u id w =
    if casts (docs w) id
    then
      (if hd false (faults w)
       then Respond (json 500 (Message "Server error"))
       else
         match find (fun e => String.eqb (_id e) id) (docs w) with
         | None => Respond (json 404 (Message "Expense not found"))
         | Some e =>
             if negb (String.eqb (submittedBy e) (u_id u))
             then Respond (json 403
                    (Message "Not authorized to access this expense"))
             else Next
         end, after_call (FindById id) w)
    else (Respond (json 500 (Message "Server error")), w).
Proof.
  intros HM HF. apply String.eqb_neq in HM, HF.
  unfold canAccessExpense, guarded. cbv zeta.
  rewrite HM, HF. change (false || false) with false. cbv iota. unfold bind.
  rewrite findById_compute.
  destruct (casts (docs w) id); [| reflexivity].
  destruct (hd false (faults w)); [reflexivity |].
  destruct (find _ (docs w)) as [e |]; [| reflexivity].
  now destruct (negb _).
Qed.

Lemma canAccessExpense_other (u : User) (id : string) (w : World) :
  role u <> "Manager" -> role u <> "Finance" -> healthy w = true ->
  casts (docs w) id = true ->
  canAccessExpense u id w =
    (match find (fun e => String.eqb (_id e) id) (docs w) with
     | None => Respond (json 404 (Message "Expense not found"))
     | Some e =>
         if negb (String.eqb (submittedBy e) (u_id u))
         then Respond (json 403
                (Message "Not authorized to access this expense"))
         else Next
     end, after_call (FindById id) w).
Proof.
  intros HM HF Hw C. rewrite (canAccessExpense_compute u id w HM HF), C.
  now rewrite (healthy_hd w Hw).
Qed.




(** ** Status review *)

Lemma findById_inr (id : string) (w w1 : World) (found : option Expense) :
  findById id w = (inr found, w1) ->
  found = find (fun e => String.eqb (_id e) id) (docs w) /\ docs w1 = docs w.
Proof.
  rewrite findById_compute.
  destruct (casts (docs w) id); [| discriminate].
  destruct (hd false (faults w)); intros H; inversion H; subst; auto.
Qed.

Lemma save_inr (e : Expense) (w w1 : World) (r : unit) :
  save e w = (inr r, w1) ->
  schema_errors e = [] /\ docs w1 = replace e (docs w).
Proof.
  unfold save. destruct (schema_errors e); [| discriminate].
  unfold bind, round_trip, get_docs, put_docs.
  destruct (faults w) as [| [|] fs]; intros H; inversion H; subst; auto.
Qed.

Lemma save_healthy (e : Expense) (w : World) :
  schema_errors e = [] -> healthy w = true ->
  save e w =
    (inr tt,
     {| docs := replace e (docs w); files := files w;
        faults := tl (faults w);
        calls := (calls w ++ [Save (_id e)])%list |}).
Proof.
  intros He Hw. unfold save. rewrite He. unfold bind.
  destruct (round_trip_healthy (Save (_id e)) w Hw) as [-> _]. reflexivity.
Qed.

Lemma find_replace (id : string) (e e2 : Expense) (l : list Expense) :
  find (fun x => String.eqb (_id x) id) l = Some e ->
  _id e2 = id ->
  find (fun x => String.eqb (_id x) id) (replace e2 l) = Some e2.
Proof.
  intros Hf Hid. induction l as [| x r IH]; simpl in *; [discriminate |].
  rewrite Hid. destruct (String.eqb (_id x) id) eqn:E.
  - simpl. now rewrite Hid, String.eqb_refl.
  - simpl. rewrite E. auto.
Qed.

Lemma find_id (id : string) (e : Expense) (l : list Expense) :
  find (fun x => String.eqb (_id x) id) l = Some e -> _id e = id.
Proof.
  intros H. apply find_some in H. now apply String.eqb_eq.
Qed.

Lemma reviewed_id (e : Expense) (u : User) (b : ReviewBody) (now : Z) :
  _id (reviewed e u b now) = _id e.
Proof. unfold reviewed. now destruct (Js.truthy _). Qed.

Lemma update_status_invalid (u : User) (id : string) (b : ReviewBody)
    (now : Z) (w : World) :
  review_errors b <> [] ->
  update_status u id b now w = (json 400 (Errors (review_errors b)), w).
Proof.
  intros H. unfold update_status, catch500.
  destruct (review_errors b); [congruence | reflexivity].
Qed.

Lemma update_status_200_inv (u : User) (id : string) (b : ReviewBody)
    (now : Z) (w w' : World) (r : Response) :
  update_status u id b now w = (r, w') ->
  code r = 200 ->
  exists e,
    review_errors b = [] /\
    find (fun x => String.eqb (_id x) id) (docs w) = Some e /\
    r = json 200 (Doc (reviewed e u (review_sanitized b) now)) /\
    docs w' = replace (reviewed e u (review_sanitized b) now) (docs w).
Proof.
  unfold update_status, catch500.
  destruct (review_errors b) eqn:Hb;
    [| intros H; inversion H; subst; discriminate].
  cbv zeta. unfold bind at 1.
  destruct (findById id w) as [[err | found] w1] eqn:F1;
    [intros H; inversion H; subst; discriminate |].
  apply findById_inr in F1 as [-> D1].
  destruct (find _ (docs w)) as [e |] eqn:Hf;
    [| intros H; inversion H; subst; discriminate].
  unfold bind at 1.
  destruct (save _ w1) as [[err | []] w2] eqn:S;
    [intros H; inversion H; subst; discriminate |].
  apply save_inr in S as [_ D2].
  unfold bind.
  destruct (findById id w2) as [[err | found] w3] eqn:F2;
    [intros H; inversion H; subst; discriminate |].
  apply findById_inr in F2 as [-> D3]. intros H _. exists e.
  unfold ret in H. inversion H; subst r w'; clear H.
  rewrite D3, D2, D1.
  rewrite (find_replace id e _ (docs w) Hf)
    by (rewrite reviewed_id; eapply find_id; eassumption).
  auto.
Qed.

(** What a 200 of the review handler tells. *)
Lemma update_status_200 (u : User) (id : string) (b : ReviewBody) (now : Z)
    (w : World) :
  code (fst (update_status u id b now w)) = 200 ->
  exists e,
    review_errors b = [] /\
    find (fun x => String.eqb (_id x) id) (docs w) = Some e /\
    fst (update_status u id b now w) =
      json 200 (Doc (reviewed e u (review_sanitized b) now)) /\
    docs (snd (update_status u id b now w)) =
      replace (reviewed e u (review_sanitized b) now) (docs w).
Proof.
  destruct (update_status u id b now w) as [r w'] eqn:E. simpl.
  apply (update_status_200_inv u id b now w w' r E).
Qed.

(** The review of a stored, valid document over a healthy store. *)
Lemma update_status_ok (u : User) (id : string) (b : ReviewBody) (now : Z)
    (w : World) (e : Expense) :
  review_errors b = [] ->
  find (fun x => String.eqb (_id x) id) (docs w) = Some e ->
  schema_errors (reviewed e u (review_sanitized b) now) = [] ->
  healthy w = true ->
  exists w',
    update_status u id b now w =
      (json 200 (Doc (reviewed e u (review_sanitized b) now)), w') /\
    docs w' = replace (reviewed e u (review_sanitized b) now) (docs w).
Proof.
  intros Hb Hf Hs Hw.
  pose proof (healthy_after_call (FindById id) w Hw) as Hw1.
  assert (Hf2 : find (fun x => String.eqb (_id x) id)
                  (replace (reviewed e u (review_sanitized b) now) (docs w))
                = Some (reviewed e u (review_sanitized b) now))
    by (apply (find_replace id e); [exact Hf |];
        rewrite reviewed_id; eapply find_id; eassumption).
  unfold update_status, catch500. rewrite Hb. cbv zeta. unfold bind at 1.
  rewrite (findById_healthy id w Hw (find_casts _ _ _ Hf)), Hf.
  unfold bind at 1.
  rewrite (save_healthy _ _ Hs Hw1). unfold bind.
  rewrite findById_healthy;
    [| apply healthy_tl; exact Hw1
     | cbn [docs after_call]; eapply find_casts; exact Hf2].
  cbn [docs fst snd ret after_call]. rewrite Hf2.
  eexists. split; reflexivity.
Qed.

Lemma review_errors_status (b : ReviewBody) :
  ~ In (Js.toString (r_status b)) review_statuses ->
  In status_rule (review_errors b).
Proof.
  intros H. apply isIn_not_In in H. unfold review_errors. rewrite H.
  now left.
Qed.

(** C3. A review request whose target status is not one of Approved,
    Rejected and Under Review (Pending is not one of them) is answered 400
    with the error of the status rule, and the world is the one before the
    request: no document is loaded (no call reaches the store) and none is
    changed. *)
Theorem invalid_status_is_refused {L : Libraries} (c : Credential)
    (id : string) (b : ReviewBody) (now : Z) (fresh : string) (w : World) :
  ~ In (Js.toString (r_status b)) review_statuses ->
  snd (handle (PutStatus c id b) now fresh w) = w /\
  (forall u, protect c = inr u -> In (role u) ["Manager"; "Finance"] ->
     exists errors,
       handle (PutStatus c id b) now fresh w = (json 400 (Errors errors), w)
       /\ In status_rule errors) /\
  ~ In "Pending" review_statuses.
Proof.
  intros H. pose proof (review_errors_status b H) as Hin.
  assert (Hne : review_errors b <> []) by (intros E; now rewrite E in Hin).
  split; [| split].
  - simpl. unfold for_roles. destruct (protect c) as [r | u]; [reflexivity |].
    destruct (authorize _ _); [reflexivity |].
    now rewrite update_status_invalid.
  - intros u Hp Hr. apply isIn_In in Hr.
    exists (review_errors b). split; [| assumption].
    simpl. unfold for_roles, authorize. rewrite Hp, Hr. simpl.
    now apply update_status_invalid.
  - simpl. intros [E | [E | [E | []]]]; discriminate.
Qed.

Lemma invalid_status_is_refused_witness :
  let request :=
    PutStatus (Token (Some Sample.manager)) "e1"
      {| r_status := Some "Pending"; r_reviewComments := Some "back" |} in
  snd (handle (L := Sample.libs) request 5000 "fresh" Sample.world)
    = Sample.world /\
  exists errors,
    handle (L := Sample.libs) request 5000 "fresh" Sample.world
      = (json 400 (Errors errors), Sample.world) /\
    In status_rule errors.
Proof.
  assert (H : ~ In (Js.toString (Some "Pending")) review_statuses)
    by (simpl; intros [E | [E | [E | []]]]; discriminate).
  destruct (invalid_status_is_refused (L := Sample.libs)
              (Token (Some Sample.manager)) "e1"
              {| r_status := Some "Pending"; r_reviewComments := Some "back" |}
              5000 "fresh" Sample.world H) as [A [B _]].
  split; [exact A |].
  apply (B Sample.manager eq_refl). simpl. auto.
Defined.

Lemma schema_errors_reviewed (e : Expense) (u : User) (b : ReviewBody)
    (now : Z) :
  schema_errors e = [] ->
  In (Js.toString (r_status b)) review_statuses ->
  schema_errors (reviewed e u b now) = [].
Proof.
  intros He Hin.
  assert (Hs : Js.isIn statuses (Js.toString (r_status b)) = true).
  { apply isIn_In. simpl in Hin |- *. tauto. }
  unfold schema_errors in *.
  repeat match type of He with
  | ((if ?c then _ else _) ++ _)%list = [] =>
      destruct c eqn:?; [cbn [app] in He | discriminate He]
  end.
  unfold reviewed. destruct (Js.truthy _); cbn -[Js.isIn Js.isLengthMax Js.notEmpty Qle_bool];
    repeat match goal with H : _ = true |- _ => rewrite H; clear H end;
    reflexivity.
Qed.

Lemma review_errors_nil (b : ReviewBody) :
  In (Js.toString (r_status b)) review_statuses ->
  (forall c, r_reviewComments b = Some c ->
             (String.length (Js.trim c) <= 500)%nat) ->
  review_errors b = [].
Proof.
  intros Hin Hc. apply isIn_In in Hin. unfold review_errors. rewrite Hin.
  destruct (r_reviewComments b) as [c |]; [| reflexivity].
  unfold Js.isLengthMax. specialize (Hc c eq_refl).
  apply Nat.leb_le in Hc. now rewrite Hc.
Qed.

Lemma reviewed_status (e : Expense) (u : User) (b : ReviewBody) (now : Z) :
  status (reviewed e u b now) = Js.toString (r_status b).
Proof. unfold reviewed. now destruct (Js.truthy _). Qed.

(** C1, as the code has it.  The review handler does not look at the
    current status.  Take an expense that is stored and satisfies the
    schema, whatever its status, Approved and Rejected included; a review
    whose target is Approved, Rejected or Under Review and whose comments,
    if there are any, have at most 500 characters once trimmed; and a store
    that answers.  Then the handler answers 200 with the expense, and the
    expense is stored with the target as its status. *)
Theorem review_from_any_status (u : User) (id : string) (b : ReviewBody)
    (now : Z) (w : World) (e : Expense) :
  In (Js.toString (r_status b)) review_statuses ->
  (forall c, r_reviewComments b = Some c ->
             (String.length (Js.trim c) <= 500)%nat) ->
  find (fun x => String.eqb (_id x) id) (docs w) = Some e ->
  schema_errors e = [] ->
  healthy w = true ->
  exists e' w',
    update_status u id b now w = (json 200 (Doc e'), w') /\
    find (fun x => String.eqb (_id x) id) (docs w') = Some e' /\
    status e' = Js.toString (r_status b).
Proof.
  intros Hin Hc Hf He Hw.
  destruct (update_status_ok u id b now w e) as [w' [R D]]; auto.
  - now apply review_errors_nil.
  - now apply schema_errors_reviewed.
  - exists (reviewed e u (review_sanitized b) now), w'. split; [exact R |].
    split.
    + rewrite D. apply (find_replace id e); [assumption |].
      rewrite reviewed_id. eapply find_id; eassumption.
    + now rewrite reviewed_status.
Qed.

Lemma review_from_any_status_witness :
  exists e' w',
    update_status Sample.finance "e2"
      {| r_status := Some "Under Review"; r_reviewComments := None |}
      5000 Sample.world = (json 200 (Doc e'), w') /\
    find (fun x => String.eqb (_id x) "e2") (docs w') = Some e' /\
    status e' = "Under Review".
Proof.
  apply (review_from_any_status Sample.finance "e2"
           {| r_status := Some "Under Review"; r_reviewComments := None |}
           5000 Sample.world Sample.e2).
  - simpl. auto.
  - intros c H. discriminate H.
  - reflexivity.
  - reflexivity.
  - reflexivity.
Defined.

(** C1, as the specification states it, fails: the expense [e2] of the
    sample world is Approved, and a manager's review with target Rejected
    is answered 200 and leaves it Rejected. *)
Lemma approved_expense_is_rejected :
  let request :=
    PutStatus (Token (Some Sample.manager)) "e2"
      {| r_status := Some "Rejected"; r_reviewComments := None |} in
  let before := Sample.world in
  let after := snd (handle (L := Sample.libs) request 5000 "fresh" before) in
  option_map status (find (fun x => String.eqb (_id x) "e2") (docs before))
    = Some "Approved" /\
  code (fst (handle (L := Sample.libs) request 5000 "fresh" before)) = 200 /\
  option_map status (find (fun x => String.eqb (_id x) "e2") (docs after))
    = Some "Rejected" /\
  ~ (option_map status (find (fun x => String.eqb (_id x) "e2") (docs after))
     = option_map status
         (find (fun x => String.eqb (_id x) "e2") (docs before))).
Proof.
  cbv zeta. repeat split; try reflexivity.
  vm_compute. discriminate.
Qed.

(** C6. A review answered 200 has loaded an expense [e] and stored and
    returned [e'] in its place, where [status] is the target, [reviewedBy]
    the caller and [reviewedDate] the time of the request; [reviewComments]
    differs from before only if the request carried comments, is the
    trimmed comments of the request when these are not empty, and is as
    before when the request has none (a comment is never cleared); title,
    category, amount, currency, description, vendor, invoice, submittedBy,
    submittedDate and expenseDate are as before. *)
Theorem review_sets_and_keeps (u : User) (id : string) (b : ReviewBody)
    (now : Z) (w : World) :
  code (fst (update_status u id b now w)) = 200 ->
  exists e e',
    find (fun x => String.eqb (_id x) id) (docs w) = Some e /\
    fst (update_status u id b now w) = json 200 (Doc e') /\
    docs (snd (update_status u id b now w)) = replace e' (docs w) /\
    (status e' = Js.toString (r_status b) /\
     In (status e') review_statuses /\
     reviewedBy e' = Some (u_id u) /\
     reviewedDate e' = Some now) /\
    ((reviewComments e' <> reviewComments e ->
      exists c, r_reviewComments b = Some c) /\
     (forall c, r_reviewComments b = Some c -> Js.trim c <> EmptyString ->
      reviewComments e' = Some (Js.trim c)) /\
     (r_reviewComments b = None -> reviewComments e' = reviewComments e) /\
     (reviewComments e <> None -> reviewComments e' <> None)) /\
    (_id e' = _id e /\ title e' = title e /\ category e' = category e /\
     amount e' = amount e /\ currency e' = currency e /\
     description e' = description e /\ vendor e' = vendor e /\
     invoice e' = invoice e /\ submittedBy e' = submittedBy e /\
     submittedDate e' = submittedDate e /\ expenseDate e' = expenseDate e).
Proof.
  intros C.
  destruct (update_status_200 u id b now w C) as [e [Hb [Hf [R D]]]].
  exists e, (reviewed e u (review_sanitized b) now).
  split; [exact Hf |]. split; [exact R |]. split; [exact D |].
  assert (Hst : In (Js.toString (r_status b)) review_statuses).
  { apply isIn_In. unfold review_errors in Hb.
    destruct (Js.isIn review_statuses (Js.toString (r_status b)));
      [reflexivity | discriminate Hb]. }
  unfold reviewed, review_sanitized. cbn [r_status r_reviewComments].
  destruct (r_reviewComments b) as [c |]; cbn [option_map Js.truthy Js.toString].
  - destruct (String.eqb (Js.trim c) EmptyString) eqn:Ec; cbn [negb].
    + apply String.eqb_eq in Ec. cbn.
      repeat split; auto; try congruence; eauto.
    + cbn. rewrite trim_idem.
      repeat split; auto; try congruence; try discriminate; eauto.
  - cbn. repeat split; auto; try congruence; try discriminate.
Qed.

Lemma review_sets_and_keeps_witness :
  exists e',
    fst (update_status Sample.finance "e1"
           {| r_status := Some "Approved"; r_reviewComments := Some " ok " |}
           5000 Sample.world) = json 200 (Doc e') /\
    status e' = "Approved" /\ reviewedBy e' = Some "f1" /\
    reviewedDate e' = Some 5000 /\ reviewComments e' = Some "ok" /\
    title e' = "Taxi to airport".
Proof.
  destruct (review_sets_and_keeps Sample.finance "e1"
              {| r_status := Some "Approved"; r_reviewComments := Some " ok " |}
              5000 Sample.world eq_refl)
    as [e [e' [Hf [R [_ [[S [_ [B T]]] [[_ [K _]] [_ [Ti _]]]]]]]]].
  exists e'. split; [exact R |].
  assert (He : e = Sample.e1)
    by (change (Some Sample.e1 = Some e) in Hf; congruence).
  subst e.
  repeat split; try assumption.
  apply (K " ok " eq_refl). vm_compute. discriminate.
Defined.

(** ** Submission *)

Section SubmissionFacts.
Context {L : Libraries}.

Lemma submit_errors_In (b : SubmitBody) (err : FieldError) :
  In err (submit_errors b) <->
  exists rule, In (rule, err) submit_rules /\ rule b = false.
Proof.
  unfold submit_errors. rewrite in_map_iff. split.
  - intros [[rule err'] [E H]]. simpl in E. subst err'.
    apply filter_In in H as [H1 H2]. simpl in H2.
    exists rule. split; [assumption |]. now destruct (rule b).
  - intros [rule [H1 H2]]. exists (rule, err). split; [reflexivity |].
    apply filter_In. split; [assumption |]. simpl. now rewrite H2.
Qed.

Lemma submit_invalid (u : User) (b : SubmitBody) (file : option Upload)
    (now : Z) (fresh : string) (w : World) :
  submit_errors b <> [] ->
  submit u b file now fresh w = (json 400 (Errors (submit_errors b)), w).
Proof.
  intros H. unfold submit, catch500.
  destruct (submit_errors b); [congruence | reflexivity].
Qed.

(** What passing every chain means. *)
Lemma submit_errors_nil (b : SubmitBody) :
  submit_errors b = [] ->
  Js.isLength 1 100 (Js.trim (Js.toString (b_title b))) = true /\
  Js.isIn categories (Js.toString (b_category b)) = true /\
  isFloat_min (Js.toString (b_amount b)) = true /\
  Js.isLength 1 500 (Js.trim (Js.toString (b_description b))) = true /\
  Js.notEmpty (Js.trim (Js.toString (vendor_name (b_vendor b)))) = true /\
  isISO8601 (Js.toString (b_expenseDate b)) = true.
Proof.
  intros H.
  assert (P : forall rule err, In (rule, err) submit_rules -> rule b = true).
  { intros rule err Hin. destruct (rule b) eqn:E; [reflexivity |].
    assert (Hx : In err (submit_errors b))
      by (apply submit_errors_In; eauto).
    rewrite H in Hx. destruct Hx. }
  unfold submit_rules in P.
  repeat split.
  - apply (P (fun b => Js.isLength 1 100 (Js.trim (Js.toString (b_title b))))
             title_rule). simpl. auto.
  - apply (P (fun b => Js.isIn categories (Js.toString (b_category b)))
             category_rule). simpl. auto.
  - apply (P (fun b => isFloat_min (Js.toString (b_amount b))) amount_rule).
    simpl. auto.
  - apply (P (fun b =>
                Js.isLength 1 500 (Js.trim (Js.toString (b_description b))))
             description_rule). simpl. auto 6.
  - apply (P (fun b =>
                Js.notEmpty (Js.trim (Js.toString (vendor_name (b_vendor b)))))
             vendor_rule). simpl. auto 6.
  - apply (P (fun b => isISO8601 (Js.toString (b_expenseDate b))) date_rule).
    simpl. auto 7.
Qed.

Lemma create_inr (n : NewExpense) (id : string) (now : Z) (w w' : World)
    (e : Expense) :
  create n id now w = (inr e, w') ->
  e = build n id now /\ docs w' = (docs w ++ [e])%list.
Proof.
  unfold create.
  destruct (cast_errors n ++ schema_errors (build n id now))%list;
    [| discriminate].
  unfold bind, round_trip, get_docs, put_docs, ret.
  destruct (faults w) as [| [|] fs]; intros H; inversion H; subst; auto.
Qed.

Lemma create_healthy (n : NewExpense) (id : string) (now : Z) (w : World) :
  cast_errors n = [] -> schema_errors (build n id now) = [] ->
  healthy w = true ->
  create n id now w =
    (inr (build n id now),
     {| docs := (docs w ++ [build n id now])%list; files := files w;
        faults := tl (faults w); calls := (calls w ++ [Create])%list |}).
Proof.
  intros Hc Hs Hw. unfold create. rewrite Hc, Hs.
  change ([] ++ [])%list with (@nil string). cbv iota. unfold bind.
  destruct (round_trip_healthy Create w Hw) as [-> _]. reflexivity.
Qed.

(** What a 201 tells. *)
Lemma submit_201_inv (u : User) (b : SubmitBody) (file : option Upload)
    (now : Z) (fresh : string) (w w' : World) (r : Response) :
  submit u b file now fresh w = (r, w') ->
  code r = 201 ->
  exists f vendorData,
    file = Some f /\ submit_errors b = [] /\
    parse_vendor (b_vendor (submit_sanitized b)) = Some vendorData /\
    r = json 201 (Doc (build (new_expense u (submit_sanitized b) f vendorData)
                         fresh now)) /\
    docs w' =
      (docs w ++
       [build (new_expense u (submit_sanitized b) f vendorData) fresh now])%list.
Proof.
  unfold submit, catch500.
  destruct (submit_errors b) eqn:Hb;
    [| intros H; inversion H; subst; discriminate].
  destruct file as [f |]; [| intros H; inversion H; subst; discriminate].
  cbv zeta.
  destruct (parse_vendor _) as [vd |] eqn:Hv;
    [| intros H; inversion H; subst; discriminate].
  unfold bind.
  destruct (create _ fresh now w) as [[err | e] w1] eqn:C;
    [intros H; inversion H; subst; discriminate |].
  apply create_inr in C as [-> D].
  unfold ret. intros H _. inversion H; subst r w'; clear H.
  exists f, vd. auto.
Qed.

Lemma isLength_1 (n : nat) (s : string) :
  Js.isLength 1 n s = true ->
  Js.notEmpty s = true /\ Js.isLengthMax n s = true.
Proof.
  unfold Js.isLength. intros H. apply andb_prop in H as [H1 H2].
  split; [| exact H2]. apply notEmpty_length. now apply Nat.leb_le.
Qed.

Lemma notEmpty_neq (s : string) :
  s <> EmptyString -> Js.notEmpty s = true.
Proof.
  intros H. unfold Js.notEmpty. apply String.eqb_neq in H. now rewrite H.
Qed.

Lemma schema_errors_build (n : NewExpense) (id : string) (now : Z)
    (q : Q) (nm c a : option string) :
  Js.isLength 1 100 (Js.trim (Js.toString (n_title n))) = true ->
  Js.isIn categories (Js.toString (n_category n)) = true ->
  n_amount n = Some q -> Qle_bool min_amount q = true ->
  Js.isIn currencies (n_currency n) = true ->
  Js.isLength 1 500 (Js.trim (Js.toString (n_description n))) = true ->
  n_vendor n = VendorObj nm c a ->
  Js.notEmpty (Js.trim (Js.toString nm)) = true ->
  Js.notEmpty (filename (n_invoice n)) = true ->
  Js.notEmpty (originalName (n_invoice n)) = true ->
  Js.notEmpty (path (n_invoice n)) = true ->
  Js.notEmpty (mimetype (n_invoice n)) = true ->
  schema_errors (build n id now) = [].
Proof.
  intros Ht Hc Ha Hq Hcur Hd Hv Hn H1 H2 H3 H4.
  apply isLength_1 in Ht as [Ht1 Ht2]. apply isLength_1 in Hd as [Hd1 Hd2].
  unfold schema_errors, build.
  cbn [_id title category amount currency description vendor invoice
       submittedBy status name].
  rewrite Ht1, Ht2, Hc, Ha, Hq, Hcur, Hd1, Hd2, Hv.
  cbn [name]. rewrite Hn, H1, H2, H3, H4. reflexivity.
Qed.

(** A submission that passes its chains and is [storable] is created. *)
Lemma submit_creates (u : User) (b : SubmitBody) (f : Upload) (now : Z)
    (fresh : string) (w : World) :
  submit_errors b = [] -> storable b f -> healthy w = true ->
  exists vendorData w',
    parse_vendor (b_vendor (submit_sanitized b)) = Some vendorData /\
    submit u b (Some f) now fresh w =
      (json 201
         (Doc (build (new_expense u (submit_sanitized b) f vendorData)
                 fresh now)), w') /\
    docs w' =
      (docs w ++
       [build (new_expense u (submit_sanitized b) f vendorData) fresh now])%list.
Proof.
  intros Hb (Hcur & Hdate & F1 & F2 & F3 & F4) Hw.
  destruct (submit_errors_nil b Hb) as (Ht & Hc & Ha & Hd & Hv & Hi).
  destruct (b_vendor b) as [[s | nm ct ad] |] eqn:Ev;
    try (cbv in Hv; discriminate Hv).
  destruct (b_amount b) as [am |] eqn:Ea;
    [| unfold isFloat_min in Ha; simpl in Ha;
       rewrite float_syntax_empty in Ha; discriminate Ha].
  unfold isFloat_min in Ha. simpl in Ha. apply andb_prop in Ha as [_ Ha].
  destruct (parseFloat am) as [q |] eqn:Eq; [| discriminate Ha].
  destruct (b_expenseDate b) as [d |] eqn:Ed;
    [| simpl in Hi; rewrite isISO8601_empty in Hi; discriminate Hi].
  destruct (newDate d) as [t |] eqn:Et; [| now destruct (Hdate d eq_refl)].
  set (b' := submit_sanitized b).
  set (vd := VendorObj (Some (Js.trim (Js.toString nm))) ct ad).
  assert (Pv : parse_vendor (b_vendor b') = Some vd)
    by (unfold b', submit_sanitized; cbn; now rewrite Ev).
  set (n := new_expense u b' f vd).
  assert (Hcast : cast_errors n = []).
  { unfold cast_errors, n, new_expense, b', submit_sanitized. cbn.
    now rewrite Ea, Eq, Ed, Et. }
  assert (Hschema : schema_errors (build n fresh now) = []).
  { apply (schema_errors_build n fresh now q
             (Some (Js.trim (Js.toString nm))) ct ad);
      unfold n, new_expense, b', submit_sanitized;
      cbn -[Js.trim Js.isLength Js.isIn Js.notEmpty Qle_bool currencies];
      rewrite ?trim_idem; try assumption.
    - now rewrite Ea.
    - apply isIn_In. destruct (b_currency b) as [c |].
      + now apply Hcur.
      + simpl. auto.
    - reflexivity.
    - now apply notEmpty_neq.
    - now apply notEmpty_neq.
    - now apply notEmpty_neq.
    - now apply notEmpty_neq. }
  exists vd. eexists. split; [exact Pv |].
  unfold submit, catch500. rewrite Hb. cbv zeta. fold b'. rewrite Pv.
  fold n. unfold bind. rewrite (create_healthy n fresh now w Hcast Hschema Hw).
  split; reflexivity.
Qed.

End SubmissionFacts.

(** C4. A submission that passes its validation chains, comes with a file
    and is [storable] is answered 201 with a new expense, appended to the
    collection; and whenever a submission is answered 201, the expense
    created has status Pending, the caller as [submittedBy], the time of
    the request as [submittedDate], no [reviewedBy] and no [reviewedDate],
    and for invoice the five values of the uploaded file as they are. *)
Theorem submission_creates_pending {L : Libraries} (u : User)
    (b : SubmitBody) (now : Z) (fresh : string) (w : World) :
  (forall f, submit_errors b = [] -> storable b f -> healthy w = true ->
     exists e w', submit u b (Some f) now fresh w = (json 201 (Doc e), w')) /\
  (forall file r w', submit u b file now fresh w = (r, w') -> code r = 201 ->
     exists e f,
       r = json 201 (Doc e) /\ file = Some f /\
       docs w' = (docs w ++ [e])%list /\
       status e = "Pending" /\
       submittedBy e = u_id u /\
       submittedDate e = now /\
       reviewedBy e = None /\ reviewedDate e = None /\
       filename (invoice e) = f_filename f /\
       originalName (invoice e) = f_originalname f /\
       path (invoice e) = f_path f /\
       size (invoice e) = f_size f /\
       mimetype (invoice e) = f_mimetype f).
Proof.
  split.
  - intros f Hb Hs Hw.
    destruct (submit_creates u b f now fresh w Hb Hs Hw)
      as [vd [w' [_ [R _]]]].
    eauto.
  - intros file r w' R C.
    destruct (submit_201_inv u b file now fresh w w' r R C)
      as [f [vd [Hf [_ [_ [Hr D]]]]]].
    exists (build (new_expense u (submit_sanitized b) f vd) fresh now), f.
    repeat split; assumption || reflexivity.
Qed.

Lemma submission_creates_pending_witness :
  exists e w',
    submit (L := Sample.libs) Sample.employee Sample.trip
      (Some Sample.receipt) 1000 "e1" Sample.empty = (json 201 (Doc e), w').
Proof.
  apply (proj1 (submission_creates_pending (L := Sample.libs)
                  Sample.employee Sample.trip 1000 "e1" Sample.empty)).
  - reflexivity.
  - unfold storable. repeat split; try discriminate.
    intros d H. inversion H; subst d. discriminate.
  - reflexivity.
Defined.



Lemma serialized_vendor_fails {L : Libraries} (u : User) (b : SubmitBody)
    (file : option Upload) (now : Z) (fresh : string) (w : World)
    (s : string) :
  b_vendor b = Some (VendorString s) ->
  submit u b file now fresh w = (json 400 (Errors (submit_errors b)), w) /\
  In vendor_rule (submit_errors b).
Proof.
  intros Hv.
  assert (Hx : In vendor_rule (submit_errors b)).
  { apply submit_errors_In.
    exists (fun b =>
              Js.notEmpty (Js.trim (Js.toString (vendor_name (b_vendor b))))).
    split; [simpl; auto 6 | now rewrite Hv]. }
  split; [| exact Hx]. apply submit_invalid. intros E.
  rewrite E in Hx. destruct Hx.
Qed.

(** C8, on the code.  The submission [trip] is created when its vendor
    comes as fields; the same submission with the vendor as the text
    [{"name":"Acme"}], which [JSON.parse] decodes, is answered 400 with
    the error of the vendor rule: the chain on [vendor.name] reads the
    body before the handler decodes the text. *)
Theorem serialized_vendor_is_refused :
  JSON_parse (Libraries := Sample.libs) Sample.acme_json
    = Some (VendorObj (Some "Acme") None None) /\
  code (fst (submit (L := Sample.libs) Sample.employee Sample.trip
               (Some Sample.receipt) 1000 "e1" Sample.empty)) = 201 /\
  submit (L := Sample.libs) Sample.employee Sample.trip_text
    (Some Sample.receipt) 1000 "e1" Sample.empty
  = (json 400 (Errors [vendor_rule]), Sample.empty).
Proof.
  split; [reflexivity |]. split; [reflexivity |].
  exact (proj1 (serialized_vendor_fails (L := Sample.libs) Sample.employee
                  Sample.trip_text (Some Sample.receipt) 1000 "e1"
                  Sample.empty Sample.acme_json eq_refl)).
Qed.

Lemma schema_errors_currency (e : Expense) :
  Js.isIn currencies (currency e) = false -> In "currency" (schema_errors e).
Proof.
  intros H. unfold schema_errors. rewrite H.
  do 3 (apply in_or_app; right). apply in_or_app. left. now left.
Qed.

Lemma create_rejects (n : NewExpense) (id : string) (now : Z) (w : World)
    (p : string) :
  In p (schema_errors (build n id now)) ->
  exists paths,
    In p paths /\ create n id now w = (inl (ValidationError paths), w).
Proof.
  intros H. unfold create.
  assert (Hin : In p (cast_errors n ++ schema_errors (build n id now))%list)
    by (apply in_or_app; now right).
  destruct (cast_errors n ++ schema_errors (build n id now))%list
    as [| x l]; [destruct Hin |].
  exists (x :: l). split; [exact Hin | reflexivity].
Qed.

(** C10. No validation chain of the submission is on [currency]: the
    errors of a body do not depend on its currency, and none of them names
    that field.  A submission that passes the chains with a currency
    outside USD, EUR, GBP, INR, CAD and AUD reaches [Expense.create], which
    rejects the path [currency], and the answer is the 500 of the
    handler's [catch]; nothing is stored.  With no currency in the body,
    the expense created has currency USD. *)
Theorem currency_is_left_to_the_schema {L : Libraries} (u : User)
    (b : SubmitBody) (f : Upload) (now : Z) (fresh : string) (w : World) :
  (forall c, submit_errors (with_currency b c) = submit_errors b) /\
  (forall err, In err (submit_errors b) -> param err <> "currency") /\
  (forall c, b_currency b = Some c -> ~ In c currencies ->
     submit_errors b = [] ->
     (exists vendorData paths,
        parse_vendor (b_vendor (submit_sanitized b)) = Some vendorData /\
        In "currency" paths /\
        create (new_expense u (submit_sanitized b) f vendorData) fresh now w
          = (inl (ValidationError paths), w)) /\
     submit u b (Some f) now fresh w =
       (json 500 (Message "Server error during expense submission"), w)) /\
  (b_currency b = None -> submit_errors b = [] -> storable b f ->
   healthy w = true ->
   exists e w',
     submit u b (Some f) now fresh w = (json 201 (Doc e), w') /\
     currency e = "USD").
Proof.
  split; [| split; [| split]].
  - intros c. reflexivity.
  - intros err H. apply submit_errors_In in H as [rule [Hin _]].
    simpl in Hin.
    repeat (destruct Hin as [Hin | Hin];
            [inversion Hin; subst; simpl; discriminate |]).
    destruct Hin.
  - intros c Hc Hout Hb.
    destruct (submit_errors_nil b Hb) as (_ & _ & _ & _ & Hv & _).
    destruct (b_vendor b) as [[s | nm ct ad] |] eqn:Ev;
      try (cbv in Hv; discriminate Hv).
    set (vd := VendorObj (Some (Js.trim (Js.toString nm))) ct ad).
    assert (Pv : parse_vendor (b_vendor (submit_sanitized b)) = Some vd)
      by (unfold submit_sanitized; cbn; now rewrite Ev).
    destruct (create_rejects (new_expense u (submit_sanitized b) f vd)
                fresh now w "currency") as [paths [Hp Hcr]].
    { apply schema_errors_currency. apply isIn_not_In.
      unfold build, new_expense, submit_sanitized. cbn. now rewrite Hc. }
    split.
    + exists vd, paths. auto.
    + unfold submit, catch500. rewrite Hb. cbv zeta. rewrite Pv.
      unfold bind. now rewrite Hcr.
  - intros Hc Hb Hs Hw.
    destruct (submit_creates u b f now fresh w Hb Hs Hw)
      as [vd [w' [_ [R _]]]].
    eexists. exists w'. split; [exact R |].
    unfold build, new_expense, submit_sanitized. cbn. now rewrite Hc.
Qed.

Lemma currency_is_left_to_the_schema_witness :
  submit (L := Sample.libs) Sample.employee
    (with_currency Sample.trip (Some "JPY")) (Some Sample.receipt) 1000 "e1"
    Sample.empty
  = (json 500 (Message "Server error during expense submission"),
     Sample.empty)
  /\ exists e w',
       submit (L := Sample.libs) Sample.employee Sample.trip
         (Some Sample.receipt) 1000 "e1" Sample.empty
       = (json 201 (Doc e), w') /\ currency e = "USD".
Proof.
  split.
  - apply (proj1 (proj2 (proj2 (currency_is_left_to_the_schema
             (L := Sample.libs) Sample.employee
             (with_currency Sample.trip (Some "JPY")) Sample.receipt 1000
             "e1" Sample.empty))) "JPY").
    + reflexivity.
    + simpl. intros H. repeat (destruct H as [H | H]; [discriminate H |]).
      exact H.
    + reflexivity.
  - apply (proj2 (proj2 (proj2 (currency_is_left_to_the_schema
             (L := Sample.libs) Sample.employee Sample.trip Sample.receipt
             1000 "e1" Sample.empty)))).
    + reflexivity.
    + reflexivity.
    + unfold storable. repeat split; try discriminate.
      intros d H. inversion H; subst d. discriminate.
    + reflexivity.
Defined.

(** ** The status along a history *)

Lemma create_inl (n : NewExpense) (id : string) (now : Z) (w w' : World)
    (err : Error) :
  create n id now w = (inl err, w') -> docs w' = docs w.
Proof.
  unfold create.
  destruct (cast_errors n ++ schema_errors (build n id now))%list.
  - unfold bind, round_trip, get_docs, put_docs, ret.
    destruct (faults w) as [| [|] fs]; intros H; inversion H; reflexivity.
  - unfold throw. intros H. now inversion H.
Qed.

Lemma save_inl (e : Expense) (w w' : World) (err : Error) :
  save e w = (inl err, w') -> docs w' = docs w.
Proof.
  unfold save. destruct (schema_errors e).
  - unfold bind, round_trip, get_docs, put_docs.
    destruct (faults w) as [| [|] fs]; intros H; inversion H; reflexivity.
  - unfold throw. intros H. now inversion H.
Qed.

(** A submission leaves the collection as it is or appends one Pending
    expense. *)
Lemma submit_docs {L : Libraries} (u : User) (b : SubmitBody)
    (file : option Upload) (now : Z) (fresh : string) (w : World) :
  docs (snd (submit u b file now fresh w)) = docs w \/
  exists e,
    docs (snd (submit u b file now fresh w)) = (docs w ++ [e])%list /\
    status e = "Pending".
Proof.
  unfold submit, catch500.
  destruct (submit_errors b); [| now left].
  destruct file as [f |]; [| now left]. cbv zeta.
  destruct (parse_vendor _) as [vd |]; [| now left].
  unfold bind.
  destruct (create _ fresh now w) as [[err | e] w1] eqn:C.
  - left. simpl. eapply create_inl; eassumption.
  - right. apply create_inr in C as [-> D]. exists (build
      (new_expense u (submit_sanitized b) f vd) fresh now).
    split; [exact D | reflexivity].
Qed.

Lemma update_status_docs_inv (u : User) (id : string) (b : ReviewBody)
    (now : Z) (w w' : World) (r : Response) :
  update_status u id b now w = (r, w') ->
  docs w' = docs w \/
  exists e2, docs w' = replace e2 (docs w) /\ In (status e2) review_statuses.
Proof.
  unfold update_status, catch500.
  destruct (review_errors b) eqn:Hb;
    [| intros H; inversion H; now left].
  assert (Hst : In (Js.toString (r_status b)) review_statuses).
  { apply isIn_In. unfold review_errors in Hb.
    destruct (Js.isIn review_statuses (Js.toString (r_status b)));
      [reflexivity | discriminate Hb]. }
  cbv zeta. unfold bind at 1.
  pose proof (reads_findById id w) as D1.
  destruct (findById id w) as [[err | found] w1]; simpl in D1;
    [intros H; inversion H; subst; now left |].
  destruct found as [e |]; [| intros H; inversion H; subst; now left].
  unfold bind at 1.
  destruct (save _ w1) as [[err | []] w2] eqn:S.
  - apply save_inl in S. intros H; inversion H; subst. left. congruence.
  - apply save_inr in S as [_ D2]. unfold bind.
    pose proof (reads_findById id w2) as D3.
    destruct (findById id w2) as [[err | found] w3]; simpl in D3;
      intros H; inversion H; subst; right;
      exists (reviewed e u (review_sanitized b) now);
      (split; [congruence | now rewrite reviewed_status]).
Qed.

Lemma update_status_valid (u : User) (id : string) (b : ReviewBody)
    (now : Z) (w w' : World) (r : Response) :
  update_status u id b now w = (r, w') ->
  docs w' = docs w \/
  exists e2, docs w' = replace e2 (docs w) /\ schema_errors e2 = [].
Proof.
  unfold update_status, catch500.
  destruct (review_errors b) eqn:Hb;
    [| intros H; inversion H; now left].
  cbv zeta. unfold bind at 1.
  pose proof (reads_findById id w) as D1.
  destruct (findById id w) as [[err | found] w1]; simpl in D1;
    [intros H; inversion H; subst; now left |].
  destruct found as [e |]; [| intros H; inversion H; subst; now left].
  unfold bind at 1.
  destruct (save _ w1) as [[err | []] w2] eqn:S.
  - apply save_inl in S. intros H; inversion H; subst. left. congruence.
  - apply save_inr in S as [V D2]. unfold bind.
    pose proof (reads_findById id w2) as D3.
    destruct (findById id w2) as [[err | found] w3]; simpl in D3;
      intros H; inversion H; subst; right;
      exists (reviewed e u (review_sanitized b) now);
      (split; [congruence | exact V]).
Qed.

Lemma Forall_replace (P : Expense -> Prop) (e : Expense) (l : list Expense) :
  Forall P l -> P e -> Forall P (replace e l).
Proof.
  intros H He. induction H as [| x r Hx Hr IH]; simpl; [constructor |].
  destruct (String.eqb (_id x) (_id e)); constructor; assumption.
Qed.

(** A review leaves the collection as it is or replaces one expense by
    one whose status is a review status. *)
Lemma update_status_docs (u : User) (id : string) (b : ReviewBody) (now : Z)
    (w : World) :
  docs (snd (update_status u id b now w)) = docs w \/
  exists e2,
    docs (snd (update_status u id b now w)) = replace e2 (docs w) /\
    In (status e2) review_statuses.
Proof.
  destruct (update_status u id b now w) as [r w'] eqn:E. simpl.
  eapply update_status_docs_inv; eassumption.
Qed.

Lemma nth_error_replace (e : Expense) (l : list Expense) (i : nat)
    (x : Expense) :
  nth_error l i = Some x ->
  exists x',
    nth_error (replace e l) i = Some x' /\ _id x' = _id x /\
    (x' = x \/ x' = e).
Proof.
  revert i. induction l as [| y r IH]; intros i H.
  - destruct i; discriminate H.
  - simpl. destruct (String.eqb (_id y) (_id e)) eqn:E.
    + destruct i as [| i]; simpl in *.
      * inversion H; subst y. exists e. apply String.eqb_eq in E. auto.
      * exists x. auto.
    + destruct i as [| i]; simpl in *.
      * exists x. auto.
      * apply IH. exact H.
Qed.

(** One request and the document at a position of the collection. *)
Lemma handle_keeps {L : Libraries} (r : Request) (now : Z) (fresh : string)
    (w : World) (i : nat) (e : Expense) :
  nth_error (docs w) i = Some e ->
  exists e',
    nth_error (docs (snd (handle r now fresh w))) i = Some e' /\
    _id e' = _id e /\
    (status e' = status e \/
     (is_review r /\ In (status e') review_statuses)).
Proof.
  intros H.
  assert (Same : forall w', docs w' = docs w ->
            exists e', nth_error (docs w') i = Some e' /\ _id e' = _id e /\
              (status e' = status e \/
               (is_review r /\ In (status e') review_statuses))).
  { intros w' D. exists e. rewrite D. auto. }
  destruct r as [c b file | c | c q | c id | c id b | c id]; simpl;
    unfold for_roles, for_owner;
    (destruct (protect c) as [resp | u]; [now apply Same |]).
  - destruct (authorize _ _); [now apply Same |].
    destruct (submit_docs u b file now fresh w) as [D | [e0 [D _]]].
    + now apply Same.
    + exists e. rewrite D. split; [| auto].
      rewrite nth_error_app1; [exact H |].
      apply nth_error_Some. congruence.
  - destruct (authorize _ _); [now apply Same |].
    apply Same. unfold list_my. apply catch500_reads. repeat reads_step.
  - destruct (authorize _ _); [now apply Same |].
    apply Same. unfold list_all. apply catch500_reads. repeat reads_step.
  - pose proof (canAccessExpense_reads u id w) as D.
    destruct (canAccessExpense u id w) as [[| resp] w1]; simpl in D;
      [| now apply Same].
    apply Same. unfold get_one. rewrite catch500_reads; [exact D |].
    repeat reads_step.
  - destruct (authorize _ _); [now apply Same |].
    destruct (update_status_docs u id b now w) as [D | [e2 [D Hst]]].
    + now apply Same.
    + destruct (nth_error_replace e2 (docs w) i e H)
        as [x' [Hn [Hid [-> | ->]]]].
      * exists e. rewrite D. auto.
      * exists e2. rewrite D. split; [exact Hn |]. split; [exact Hid |].
        right. split; [| exact Hst]. exists c, id, b. reflexivity.
  - pose proof (canAccessExpense_reads u id w) as D.
    destruct (canAccessExpense u id w) as [[| resp] w1]; simpl in D;
      [| now apply Same].
    apply Same. unfold download_invoice. rewrite catch500_reads; [exact D |].
    repeat reads_step.
Qed.

(** C5. Pending is not a review status.  Serving one request keeps every
    stored expense in its place with its status, unless the request is a
    status review, in which case the status is the same or a review status
    (Approved, Rejected, Under Review).  Hence along any history of
    requests an expense whose status is not Pending never has status
    Pending again. *)
Theorem status_never_back_to_pending {L : Libraries} :
  ~ In "Pending" review_statuses /\
  (forall r now fresh w i e,
     nth_error (docs w) i = Some e ->
     exists e',
       nth_error (docs (snd (handle r now fresh w))) i = Some e' /\
       _id e' = _id e /\
       (status e' = status e \/
        (is_review r /\ In (status e') review_statuses))) /\
  (forall h w i e,
     nth_error (docs w) i = Some e -> status e <> "Pending" ->
     exists e',
       nth_error (docs (run h w)) i = Some e' /\
       _id e' = _id e /\ status e' <> "Pending").
Proof.
  assert (NP : ~ In "Pending" review_statuses)
    by (simpl; intros [E | [E | [E | []]]]; discriminate).
  split; [exact NP |]. split; [intros; now apply handle_keeps |].
  induction h as [| [[r now] fresh] h IH]; intros w i e H Hs; simpl.
  - exists e. auto.
  - destruct (handle_keeps r now fresh w i e H) as [e1 [H1 [Hid Hst]]].
    destruct (IH _ i e1 H1) as [e' [H' [Hid' Hs']]].
    + destruct Hst as [E | [_ Hin]]; [congruence |].
      intros E. rewrite E in Hin. exact (NP Hin).
    + exists e'. split; [exact H' |]. split; [congruence | exact Hs'].
Qed.

Lemma create_inr_valid (n : NewExpense) (id : string) (now : Z)
    (w w' : World) (e : Expense) :
  create n id now w = (inr e, w') -> schema_errors e = [].
Proof.
  intros H. pose proof (create_inr _ _ _ _ _ _ H) as [-> _].
  revert H. unfold create.
  destruct (cast_errors n ++ schema_errors (build n id now))%list eqn:E;
    [| discriminate].
  intros _. now apply app_eq_nil in E.
Qed.

Lemma submit_valid {L : Libraries} (u : User) (b : SubmitBody)
    (file : option Upload) (now : Z) (fresh : string) (w w' : World)
    (r : Response) :
  submit u b file now fresh w = (r, w') ->
  docs w' = docs w \/
  exists e, docs w' = (docs w ++ [e])%list /\ schema_errors e = [].
Proof.
  unfold submit, catch500.
  destruct (submit_errors b); [| intros H; inversion H; now left].
  destruct file as [f |]; [| intros H; inversion H; now left]. cbv zeta.
  destruct (parse_vendor _) as [vd |]; [| intros H; inversion H; now left].
  unfold bind.
  destruct (create _ fresh now w) as [[err | e] w1] eqn:C;
    intros H; inversion H; subst.
  - left. eapply create_inl; eassumption.
  - right. exists e. split.
    + now apply create_inr in C.
    + eapply create_inr_valid; eassumption.
Qed.

(** Every stored document is valid, from a valid collection on: [create]
    and [save] validate what they write. *)
Lemma handle_valid {L : Libraries} (r : Request) (now : Z) (fresh : string)
    (w : World) :
  valid_docs w -> valid_docs (snd (handle r now fresh w)).
Proof.
  unfold valid_docs. intros V.
  assert (Same : forall w', docs w' = docs w ->
            Forall (fun e => schema_errors e = []) (docs w'))
    by (intros w' D; now rewrite D).
  destruct r as [c b file | c | c q | c id | c id b | c id]; simpl;
    unfold for_roles, for_owner;
    (destruct (protect c) as [resp | u]; [exact V |]).
  - destruct (authorize _ _); [exact V |].
    destruct (submit u b file now fresh w) as [resp w'] eqn:R. simpl.
    destruct (submit_valid u b file now fresh w w' resp R) as [D | [e [D E]]].
    + now apply Same.
    + rewrite D. apply Forall_app. split; [exact V |].
      constructor; [exact E | constructor].
  - destruct (authorize _ _); [exact V |].
    apply Same. unfold list_my. apply catch500_reads. repeat reads_step.
  - destruct (authorize _ _); [exact V |].
    apply Same. unfold list_all. apply catch500_reads. repeat reads_step.
  - pose proof (canAccessExpense_reads u id w) as D.
    destruct (canAccessExpense u id w) as [[| resp] w1]; simpl in D;
      [| now apply Same].
    apply Same. unfold get_one. rewrite catch500_reads; [exact D |].
    repeat reads_step.
  - destruct (authorize _ _); [exact V |].
    destruct (update_status u id b now w) as [resp w'] eqn:R. simpl.
    destruct (update_status_valid u id b now w w' resp R) as [D | [e2 [D E]]].
    + now apply Same.
    + rewrite D. now apply Forall_replace.
  - pose proof (canAccessExpense_reads u id w) as D.
    destruct (canAccessExpense u id w) as [[| resp] w1]; simpl in D;
      [| now apply Same].
    apply Same. unfold download_invoice. rewrite catch500_reads; [exact D |].
    repeat reads_step.
Qed.

Lemma run_valid {L : Libraries} (h : list (Request * Z * string))
    (w : World) :
  valid_docs w -> valid_docs (run h w).
Proof.
  revert w. induction h as [| [[r now] fresh] h IH]; intros w V; simpl.
  - exact V.
  - apply IH. now apply handle_valid.
Qed.

Lemma status_never_back_to_pending_witness :
  let h :=
    [(PutStatus (Token (Some Sample.manager)) "e2"
        {| r_status := Some "Pending"; r_reviewComments := None |},
      4000, "x");
     (PutStatus (Token (Some Sample.finance)) "e2"
        {| r_status := Some "Under Review"; r_reviewComments := None |},
      5000, "y")] in
  exists e',
    nth_error (docs (run (L := Sample.libs) h Sample.world)) 1 = Some e' /\
    _id e' = "e2" /\ status e' <> "Pending".
Proof.
  intros h.
  apply (proj2 (proj2 (status_never_back_to_pending (L := Sample.libs)))
           h Sample.world 1%nat Sample.e2).
  - reflexivity.
  - discriminate.
Defined.

(** ** The listing of managers and finance *)

Lemma insert_desc_perm (e : Expense) (l : list Expense) :
  Permutation (e :: l) (insert_desc e l).
Proof.
  induction l as [| x r IH]; simpl; [apply Permutation_refl |].
  destruct (submittedDate e <? submittedDate x).
  - eapply perm_trans; [apply perm_swap |]. now apply perm_skip.
  - apply Permutation_refl.
Qed.

Lemma sort_desc_perm (l : list Expense) : Permutation (sort_desc l) l.
Proof.
  induction l as [| e r IH]; simpl; [apply perm_nil |].
  eapply perm_trans; [apply Permutation_sym, insert_desc_perm |].
  now apply perm_skip.
Qed.

Lemma insert_desc_sorted (e : Expense) (l : list Expense) :
  StronglySorted newest_first l ->
  StronglySorted newest_first (insert_desc e l).
Proof.
  induction 1 as [| x r Hr IH Hx]; simpl.
  - constructor; constructor.
  - destruct (submittedDate e <? submittedDate x) eqn:E.
    + apply Z.ltb_lt in E. constructor; [exact IH |].
      eapply Permutation_Forall; [apply insert_desc_perm |].
      constructor; [unfold newest_first; lia | exact Hx].
    + apply Z.ltb_ge in E. constructor; [now constructor |].
      constructor; [exact E |].
      eapply Forall_impl; [| exact Hx].
      unfold newest_first. intros y Hy. lia.
Qed.

Lemma sort_desc_sorted (l : list Expense) :
  StronglySorted newest_first (sort_desc l).
Proof.
  induction l as [| e r IH]; simpl; [constructor |].
  now apply insert_desc_sorted.
Qed.

Lemma In_firstn {A : Type} (n : nat) (l : list A) (x : A) :
  In x (firstn n l) -> In x l.
Proof.
  intros H. rewrite <- (firstn_skipn n l). apply in_or_app. now left.
Qed.

Lemma In_skipn {A : Type} (n : nat) (l : list A) (x : A) :
  In x (skipn n l) -> In x l.
Proof.
  intros H. rewrite <- (firstn_skipn n l). apply in_or_app. now right.
Qed.

Lemma sorted_skipn (n : nat) (l : list Expense) :
  StronglySorted newest_first l -> StronglySorted newest_first (skipn n l).
Proof.
  revert l. induction n as [| n IH]; intros l H; simpl; [exact H |].
  destruct l as [| x r]; [constructor |].
  apply IH. now inversion H.
Qed.

Lemma sorted_firstn (n : nat) (l : list Expense) :
  StronglySorted newest_first l -> StronglySorted newest_first (firstn n l).
Proof.
  revert l. induction n as [| n IH]; intros l H; simpl; [constructor |].
  destruct l as [| x r]; [constructor |].
  inversion H as [| ? ? Hr Hx]; subst. constructor; [now apply IH |].
  apply Forall_forall. intros y Hy. apply In_firstn in Hy.
  rewrite Forall_forall in Hx. now apply Hx.
Qed.

Lemma ceil_div_bounds (total limit : Z) :
  1 <= limit ->
  Js.ceil_div total limit = Js.Num (- (- total / limit)) /\
  (- (- total / limit) - 1) * limit < total <= - (- total / limit) * limit.
Proof.
  intros H. unfold Js.ceil_div.
  destruct (limit =? 0) eqn:E; [apply Z.eqb_eq in E; lia |].
  split; [reflexivity |].
  pose proof (Z.div_mod (- total) limit ltac:(lia)) as Hd.
  pose proof (Z.mod_pos_bound (- total) limit ltac:(lia)) as Hm.
  nia.
Qed.

(** The listing over a healthy store, for a page and a limit from 1 on. *)
Lemma list_all_healthy (q : ListQuery) (w : World) :
  let page := match q_page q with Some p => p | None => 1 end in
  let limit := match q_limit q with Some l => l | None => 10 end in
  let query :=
    {| by_status := if Js.truthy (q_status q) then q_status q else None;
       by_submittedBy := None |} in
  let matching := filter (matches query) (docs w) in
  healthy w = true -> 1 <= page -> 1 <= limit ->
  exists w',
    list_all q w =
      (json 200
         (Page (firstn (Z.to_nat limit)
                  (skipn (Z.to_nat ((page - 1) * limit)) (sort_desc matching)))
            (Js.ceil_div (Z.of_nat (length matching)) limit)
            page (Z.of_nat (length matching))), w') /\
    docs w' = docs w.
Proof.
  intros page limit query matching Hw Hp Hl.
  unfold list_all, catch500. cbv zeta. fold page limit query.
  unfold bind at 1. unfold find_sorted. unfold bind at 1.
  destruct (round_trip_healthy Find w Hw) as [-> Hw1].
  cbn [snd] in Hw1. unfold bind at 1. cbn [get_docs docs fst snd].
  fold matching.
  assert (Hk : ((page - 1) * limit <? 0) = false) by (apply Z.ltb_ge; nia).
  rewrite Hk. unfold ret at 1. unfold countDocuments, bind.
  destruct (round_trip_healthy CountDocuments _ Hw1) as [-> _].
  cbn [get_docs docs fst snd ret]. fold matching.
  unfold take_limit.
  assert (Hz : (limit * 1 =? 0) = false) by (apply Z.eqb_neq; lia).
  rewrite Hz. replace (Z.abs (limit * 1)) with limit by lia.
  eexists. split; reflexivity.
Qed.

Lemma matches_status (qs : option string) (e : Expense) :
  matches {| by_status := if Js.truthy qs then qs else None;
             by_submittedBy := None |} e =
  match qs with
  | Some s =>
      if String.eqb s EmptyString then true else String.eqb (status e) s
  | None => true
  end.
Proof.
  unfold matches, Js.truthy. cbn [by_status by_submittedBy].
  destruct qs as [s |]; [| reflexivity].
  destruct (String.eqb s EmptyString); cbn [negb];
    [reflexivity | apply andb_true_r].
Qed.

(** C9. The listing of [GET /], which only a Manager or a Finance user
    reaches, over a healthy store and for a page and a limit from 1 on
    (page 1 and limit 10 when the query has none): the answer is 200 with
    the page, the number [total] of expenses that match, [totalPages] and
    [currentPage].  The expenses that match are all of them, or, when the
    query has a status, the ones with exactly that status; the page is cut
    from these sorted newest [submittedDate] first, after skipping
    [(page - 1) * limit] of them, and holds at most [limit]; [totalPages]
    is the least number of pages of [limit] that hold [total] expenses. *)
Theorem listing_is_filtered_sorted_paged (q : ListQuery) (w : World) :
  let page := match q_page q with Some p => p | None => 1 end in
  let limit := match q_limit q with Some l => l | None => 10 end in
  let wanted (e : Expense) : bool :=
    match q_status q with
    | Some s =>
        if String.eqb s EmptyString then true else String.eqb (status e) s
    | None => true
    end in
  let matching := filter wanted (docs w) in
  let total := Z.of_nat (length matching) in
  healthy w = true -> 1 <= page -> 1 <= limit ->
  (forall (L : Libraries) c u now fresh,
     protect c = inr u -> In (role u) ["Manager"; "Finance"] ->
     handle (GetAll c q) now fresh w = list_all q w) /\
  exists expenses totalPages w',
    list_all q w =
      (json 200 (Page expenses (Js.Num totalPages) page total), w') /\
    docs w' = docs w /\
    (exists newest,
       Permutation newest matching /\
       StronglySorted newest_first newest /\
       expenses =
         firstn (Z.to_nat limit)
           (skipn (Z.to_nat ((page - 1) * limit)) newest)) /\
    StronglySorted newest_first expenses /\
    Z.of_nat (length expenses) <= limit /\
    (forall e, In e expenses -> In e (docs w) /\ wanted e = true) /\
    (totalPages - 1) * limit < total <= totalPages * limit.
Proof.
  intros page limit wanted matching total Hw Hp Hl. split.
  { intros L c u now fresh Hc Hr. apply isIn_In in Hr.
    simpl. unfold for_roles, authorize. now rewrite Hc, Hr. }
  destruct (list_all_healthy q w Hw Hp Hl) as [w' [R D]].
  fold page limit in R.
  assert (Hm : filter (matches
                 {| by_status :=
                      if Js.truthy (q_status q) then q_status q else None;
                    by_submittedBy := None |}) (docs w) = matching).
  { unfold matching. apply filter_ext. intros e. apply matches_status. }
  rewrite Hm in R. fold total in R.
  destruct (ceil_div_bounds total limit Hl) as [Hc Hb]. rewrite Hc in R.
  exists (firstn (Z.to_nat limit)
            (skipn (Z.to_nat ((page - 1) * limit)) (sort_desc matching))),
         (- (- total / limit)), w'.
  split; [exact R |]. split; [exact D |]. split; [| split; [| split; [| split]]].
  - exists (sort_desc matching).
    split; [apply sort_desc_perm |]. split; [apply sort_desc_sorted |].
    reflexivity.
  - apply sorted_firstn, sorted_skipn, sort_desc_sorted.
  - pose proof (firstn_le_length (Z.to_nat limit)
                  (skipn (Z.to_nat ((page - 1) * limit)) (sort_desc matching))).
    lia.
  - intros e He. apply In_firstn, In_skipn in He.
    apply (Permutation_in _ (sort_desc_perm matching)) in He.
    unfold matching in He. apply filter_In in He. exact He.
  - exact Hb.
Qed.

Lemma listing_is_filtered_sorted_paged_witness :
  exists expenses totalPages w',
    list_all {| q_status := None; q_page := Some 2; q_limit := Some 2 |}
      Sample.world
    = (json 200 (Page expenses (Js.Num totalPages) 2 3), w') /\
    Z.of_nat (length expenses) <= 2 /\
    (totalPages - 1) * 2 < 3 <= totalPages * 2.
Proof.
  destruct (listing_is_filtered_sorted_paged
              {| q_status := None; q_page := Some 2; q_limit := Some 2 |}
              Sample.world eq_refl ltac:(simpl; lia) ltac:(simpl; lia))
    as [_ [expenses [totalPages [w' [R [_ [_ [_ [Hn [_ Hb]]]]]]]]]].
  exists expenses, totalPages, w'. split; [exact R |].
  split; [exact Hn | exact Hb].
Defined.

(** * Further properties of the handlers and the middleware *)

(** ** Authentication and roles on every route *)

(** X1. Whatever the route, a request whose credential [protect] refuses
    (no bearer token, a token that does not verify, a user that is not
    found, a deactivated account) is answered 401 and the handler does not
    run: the expenses and the files are the ones before, and no call on the
    Expense model is made.  The lookup of the user that [protect] makes for
    a verified token is in the Users collection; its result is part of the
    credential, and it is not among the calls the world records. *)
Theorem refused_credential_is_401 {L : Libraries} (r : Request) (now : Z)
    (fresh : string) (w : World) (resp : Response) :
  protect (credential_of r) = inl resp ->
  handle r now fresh w = (resp, w) /\ code resp = 401.
Proof.
  intros H. split.
  - destruct r; simpl in *; unfold for_roles, for_owner; now rewrite H.
  - destruct (credential_of r) as [| | [u |]]; simpl in H.
    + now inversion H.
    + now inversion H.
    + destruct (isActive u); [discriminate H | now inversion H].
    + now inversion H.
Qed.

Lemma refused_credential_is_401_witness :
  handle (L := Sample.libs)
    (PutStatus
       (Token (Some {| u_id := "m1"; role := "Manager"; isActive := false |}))
       "e1" {| r_status := Some "Approved"; r_reviewComments := None |})
    5000 "x" Sample.world
  = (json 401 (Message "Not authorized, account is deactivated"),
     Sample.world)
  /\ code (json 401 (Message "Not authorized, account is deactivated")) = 401.
Proof.
  apply (refused_credential_is_401 (L := Sample.libs)
           (PutStatus
              (Token (Some {| u_id := "m1"; role := "Manager";
                              isActive := false |}))
              "e1" {| r_status := Some "Approved"; r_reviewComments := None |})).
  reflexivity.
Defined.

(** X2. On the four routes that name roles (submission and own listing:
    Employee; full listing and status review: Manager, Finance) an
    authenticated user whose role is not named is answered 403, and the
    world is the one before: a Manager cannot submit, an Employee cannot
    review or list everything. *)
Theorem wrong_role_is_403 {L : Libraries} (r : Request) (now : Z)
    (fresh : string) (w : World) (u : User) (roles : list string) :
  protect (credential_of r) = inr u ->
  roles_of r = Some roles ->
  ~ In (role u) roles ->
  exists message,
    handle r now fresh w = (json 403 (Message message), w).
Proof.
  intros Hp Hr Hn. apply isIn_not_In in Hn.
  exists ("User role " ++ role u ++
          " is not authorized to access this resource")%string.
  destruct r; simpl in Hp, Hr; inversion Hr; subst roles; simpl;
    unfold for_roles, authorize; now rewrite Hp, Hn.
Qed.

Lemma wrong_role_is_403_witness :
  exists message,
    handle (L := Sample.libs)
      (PutStatus (Token (Some Sample.employee)) "e1"
         {| r_status := Some "Approved"; r_reviewComments := None |})
      5000 "x" Sample.world
    = (json 403 (Message message), Sample.world).
Proof.
  apply (wrong_role_is_403 (L := Sample.libs)
           (PutStatus (Token (Some Sample.employee)) "e1"
              {| r_status := Some "Approved"; r_reviewComments := None |})
           5000 "x" Sample.world Sample.employee ["Manager"; "Finance"]).
  - reflexivity.
  - reflexivity.
  - simpl. intros [H | [H | []]]; discriminate H.
Defined.

(** ** Reading one expense and its invoice *)

Lemma findById_frame (id : string) (w w1 : World)
    (res : Error + option Expense) :
  findById id w = (res, w1) ->
  docs w1 = docs w /\ files w1 = files w /\
  (forall found, res = inr found ->
     found = find (fun e => String.eqb (_id e) id) (docs w)).
Proof.
  rewrite findById_compute.
  destruct (casts (docs w) id);
    [destruct (hd false (faults w)) |];
    intros H; inversion H; subst;
    repeat split; intros found E; now inversion E.
Qed.

(** What the ownership check has established when it passes a user who is
    neither Manager nor Finance, and what it answers otherwise. *)
Lemma canAccessExpense_inv (u : User) (id : string) (w w1 : World)
    (o : Outcome) :
  role u <> "Manager" -> role u <> "Finance" ->
  canAccessExpense u id w = (o, w1) ->
  docs w1 = docs w /\ files w1 = files w /\
  ((o = Next /\
    exists e, find (fun e => String.eqb (_id e) id) (docs w) = Some e /\
              submittedBy e = u_id u) \/
   exists c m, o = Respond (json c (Message m))).
Proof.
  intros HM HF. apply String.eqb_neq in HM, HF.
  unfold canAccessExpense, guarded. cbv zeta. rewrite HM, HF.
  change (false || false) with false. cbv iota. unfold bind.
  destruct (findById id w) as [[err | found] w0] eqn:F;
    destruct (findById_frame id w w0 _ F) as [D [Fi Hf]].
  - intros H; inversion H; subst. repeat split; eauto.
  - rewrite (Hf found eq_refl).
    destruct (find _ (docs w)) as [e |] eqn:E.
    + destruct (String.eqb (submittedBy e) (u_id u)) eqn:Eo; cbn [negb];
        intros H; inversion H; subst; repeat split; auto.
      * left. split; [reflexivity |]. exists e.
        apply String.eqb_eq in Eo. auto.
      * right. eauto.
    + intros H; inversion H; subst. repeat split; eauto.
Qed.

Lemma get_one_inv (id : string) (w w' : World) (r : Response) :
  get_one id w = (r, w') ->
  docs w' = docs w /\ files w' = files w /\
  ((exists e, r = json 200 (Doc e) /\
              find (fun e => String.eqb (_id e) id) (docs w) = Some e) \/
   exists c m, r = json c (Message m)).
Proof.
  unfold get_one, catch500, bind.
  destruct (findById id w) as [[err | found] w0] eqn:F;
    destruct (findById_frame id w w0 _ F) as [D [Fi Hf]].
  - intros H; inversion H; subst. repeat split; eauto.
  - rewrite (Hf found eq_refl).
    destruct (find _ (docs w)) as [e |] eqn:E;
      intros H; inversion H; subst; repeat split; eauto.
Qed.

Lemma download_invoice_inv (id : string) (w w' : World) (r : Response) :
  download_invoice id w = (r, w') ->
  docs w' = docs w /\ files w' = files w /\
  ((exists e, r = json 200 (File (path (invoice e)) (originalName (invoice e)))
              /\ find (fun e => String.eqb (_id e) id) (docs w) = Some e
              /\ In (path (invoice e)) (files w)) \/
   exists c m, r = json c (Message m)).
Proof.
  unfold download_invoice, catch500. unfold bind at 1.
  destruct (findById id w) as [[err | found] w0] eqn:F;
    destruct (findById_frame id w w0 _ F) as [D [Fi Hf]].
  - intros H; inversion H; subst. repeat split; eauto.
  - rewrite (Hf found eq_refl).
    destruct (find _ (docs w)) as [e |] eqn:E.
    + cbv zeta. unfold bind, get_files. rewrite Fi.
      destruct (existsb _ (files w)) eqn:Ex; cbn [negb];
        intros H; inversion H; subst; repeat split; eauto.
      left. exists e. repeat split; auto.
      apply existsb_exists in Ex as [p [Hin Hp]].
      apply String.eqb_eq in Hp. now subst p.
    + intros H; inversion H; subst. repeat split; eauto.
Qed.

(** X3. Single retrieval never shows a user who is neither Manager nor
    Finance an expense of somebody else: whenever the answer to
    [GET /:id] carries an expense, that expense is stored, has the id asked
    for and was submitted by the caller.  This needs nothing of the store:
    it holds whichever round trips fail. *)
Theorem retrieval_shows_only_own {L : Libraries} (c : Credential) (u : User)
    (id : string) (now : Z) (fresh : string) (w : World) (e : Expense)
    (k : Z) :
  protect c = inr u -> role u <> "Manager" -> role u <> "Finance" ->
  fst (handle (GetOne c id) now fresh w) = json k (Doc e) ->
  submittedBy e = u_id u /\ _id e = id /\ In e (docs w).
Proof.
  intros Hp HM HF. simpl. unfold for_owner. rewrite Hp.
  destruct (canAccessExpense u id w) as [o w1] eqn:CA.
  destruct (canAccessExpense_inv u id w w1 o HM HF CA)
    as [D [_ [[-> [e0 [Hf Ho]]] | [c' [m ->]]]]].
  - destruct (get_one id w1) as [r w2] eqn:G.
    destruct (get_one_inv id w1 w2 r G) as [_ [_ [[e1 [-> Hf1]] | [c' [m ->]]]]].
    + rewrite D, Hf in Hf1. inversion Hf1; subst e1.
      simpl. intros H. inversion H; subst e.
      split; [exact Ho |]. split; [eapply find_id; eassumption |].
      now apply find_some in Hf.
    + simpl. discriminate.
  - simpl. discriminate.
Qed.

Lemma retrieval_shows_only_own_witness :
  submittedBy Sample.e1 = u_id Sample.employee /\ _id Sample.e1 = "e1" /\
  In Sample.e1 (docs Sample.world).
Proof.
  apply (retrieval_shows_only_own (L := Sample.libs)
           (Token (Some Sample.employee)) Sample.employee "e1" 5000 "x"
           Sample.world Sample.e1 200).
  - reflexivity.
  - discriminate.
  - discriminate.
  - reflexivity.
Defined.

(** X4. Invoice download never hands a user who is neither Manager nor
    Finance the file of somebody else: whenever the answer to
    [GET /:id/invoice] is a file, it is the stored path of the invoice of
    an expense the caller submitted, the path is present on disk, and the
    download is named with the original name of the upload, not with the
    stored one.  This too holds whichever round trips fail. *)
Theorem download_gives_only_own {L : Libraries} (c : Credential) (u : User)
    (id : string) (now : Z) (fresh : string) (w : World)
    (location downloadName : string) (k : Z) :
  protect c = inr u -> role u <> "Manager" -> role u <> "Finance" ->
  fst (handle (GetInvoice c id) now fresh w)
    = json k (File location downloadName) ->
  exists e,
    In e (docs w) /\ _id e = id /\ submittedBy e = u_id u /\
    location = path (invoice e) /\
    downloadName = originalName (invoice e) /\
    In location (files w).
Proof.
  intros Hp HM HF. simpl. unfold for_owner. rewrite Hp.
  destruct (canAccessExpense u id w) as [o w1] eqn:CA.
  destruct (canAccessExpense_inv u id w w1 o HM HF CA)
    as [D [Fi [[-> [e0 [Hf Ho]]] | [c' [m ->]]]]].
  - destruct (download_invoice id w1) as [r w2] eqn:G.
    destruct (download_invoice_inv id w1 w2 r G)
      as [_ [_ [[e1 [-> [Hf1 Hin]]] | [c' [m ->]]]]].
    + rewrite D, Hf in Hf1. inversion Hf1; subst e1.
      simpl. intros H. inversion H; subst. exists e0.
      split; [now apply find_some in Hf |].
      split; [eapply find_id; eassumption |].
      rewrite Fi in Hin. auto.
    + simpl. discriminate.
  - simpl. discriminate.
Qed.

Lemma download_gives_only_own_witness :
  exists e,
    In e (docs Sample.world) /\ _id e = "e1" /\
    submittedBy e = u_id Sample.employee /\
    f_path Sample.receipt = path (invoice e) /\
    "receipt.pdf" = originalName (invoice e) /\
    In (f_path Sample.receipt) (files Sample.world).
Proof.
  apply (download_gives_only_own (L := Sample.libs)
           (Token (Some Sample.employee)) Sample.employee "e1" 5000 "x"
           Sample.world (f_path Sample.receipt) "receipt.pdf" 200).
  - reflexivity.
  - discriminate.
  - discriminate.
  - reflexivity.
Defined.

Lemma get_one_healthy (id : string) (w : World) :
  healthy w = true -> casts (docs w) id = true ->
  get_one id w =
    (match find (fun e => String.eqb (_id e) id) (docs w) with
     | Some e => json 200 (Doc e)
     | None => json 404 (Message "Expense not found")
     end, after_call (FindById id) w).
Proof.
  intros Hw C. unfold get_one, catch500, bind.
  rewrite (findById_healthy id w Hw C).
  now destruct (find _ (docs w)).
Qed.

Lemma download_invoice_healthy (id : string) (w : World) :
  healthy w = true -> casts (docs w) id = true ->
  download_invoice id w =
    (match find (fun e => String.eqb (_id e) id) (docs w) with
     | Some e =>
         if existsb (String.eqb (path (invoice e))) (files w)
         then json 200 (File (path (invoice e)) (originalName (invoice e)))
         else json 404 (Message "Invoice file not found")
     | None => json 404 (Message "Expense not found")
     end, after_call (FindById id) w).
Proof.
  intros Hw C. unfold download_invoice, catch500. unfold bind at 1.
  rewrite (findById_healthy id w Hw C).
  destruct (find _ (docs w)) as [e |]; [| reflexivity].
  cbv zeta. unfold bind, get_files. cbn [files after_call].
  now destruct (existsb _ (files w)).
Qed.


Lemma existsb_eqb_In (p : string) (l : list string) :
  existsb (String.eqb p) l = true <-> In p l.
Proof.
  rewrite existsb_exists. split.
  - intros [x [Hin E]]. apply String.eqb_eq in E. now subst.
  - intros H. exists p. split; [exact H | apply String.eqb_refl].
Qed.

Lemma canAccessExpense_reviewer (u : User) (id : string) (w : World) :
  role u = "Manager" \/ role u = "Finance" ->
  canAccessExpense u id w = (Next, w).
Proof.
  intros [H | H]; unfold canAccessExpense, guarded; now rewrite H.
Qed.



(** ** Reading back what was written *)

Lemma find_app_fresh (id : string) (e : Expense) (l : list Expense) :
  (forall x, In x l -> _id x <> id) -> _id e = id ->
  find (fun x => String.eqb (_id x) id) (l ++ [e]) = Some e.
Proof.
  intros Hl He. induction l as [| y r IH]; simpl.
  - now rewrite He, String.eqb_refl.
  - assert (Hy : _id y <> id) by (apply Hl; now left).
    apply String.eqb_neq in Hy. rewrite Hy. apply IH.
    intros x Hx. apply Hl. now right.
Qed.

Lemma list_my_healthy (u : User) (w : World) :
  healthy w = true ->
  list_my u w =
    (json 200
       (Docs (sort_desc
                (filter (matches {| by_status := None;
                                    by_submittedBy := Some (u_id u) |})
                   (docs w)))),
     after_call Find w).
Proof.
  intros Hw. unfold list_my, catch500. unfold bind at 1.
  unfold find_sorted. unfold bind at 1.
  destruct (round_trip_healthy Find w Hw) as [-> _]. reflexivity.
Qed.

Lemma authorize_passes (roles : list string) (u : User) :
  In (role u) roles -> authorize roles (Some u) = None.
Proof.
  intros H. apply isIn_In in H. unfold authorize. now rewrite H.
Qed.

Lemma authorize_refuses (roles : list string) (u : User) (r : Response) :
  authorize roles (Some u) = Some r -> code r = 403.
Proof.
  unfold authorize. destruct (negb _); intros H; now inversion H.
Qed.

(** What a 201 of the submission route tells. *)
Lemma post_201_inv {L : Libraries} (c : Credential) (u : User)
    (b : SubmitBody) (file : option Upload) (now : Z) (fresh : string)
    (w w1 : World) (e : Expense) :
  protect c = inr u ->
  handle (PostExpense c b file) now fresh w = (json 201 (Doc e), w1) ->
  role u = "Employee" /\
  exists f vendorData,
    file = Some f /\
    e = build (new_expense u (submit_sanitized b) f vendorData) fresh now /\
    docs w1 = (docs w ++ [e])%list.
Proof.
  intros Hp. simpl. unfold for_roles. rewrite Hp.
  destruct (authorize ["Employee"] (Some u)) as [r |] eqn:A.
  - intros H. inversion H; subst. apply authorize_refuses in A.
    discriminate A.
  - intros H. split.
    + unfold authorize in A.
      destruct (Js.isIn ["Employee"] (role u)) eqn:I; [| discriminate A].
      apply isIn_In in I. simpl in I. destruct I as [I | []]. now symmetry.
    + destruct (submit_201_inv u b file now fresh w w1 _ H eq_refl)
        as [f [vd [Hf [_ [_ [Hr D]]]]]].
      exists f, vd. inversion Hr. auto.
Qed.

(** X6. An employee reads back what they submitted.  After a submission
    answered 201 with expense [e] under an id that no stored expense had,
    and over a store that answers, single retrieval of that id by the same
    user is answered 200 with [e], the user's own listing holds [e], and,
    the uploaded file being on disk, invoice download gives the stored
    path under the original name of the upload. *)
Theorem read_your_submission {L : Libraries} (c : Credential) (u : User)
    (b : SubmitBody) (f : Upload) (now now' : Z) (fresh fresh' : string)
    (w w1 : World) (e : Expense) :
  protect c = inr u ->
  handle (PostExpense c b (Some f)) now fresh w = (json 201 (Doc e), w1) ->
  (forall x, In x (docs w) -> _id x <> fresh) ->
  healthy w1 = true ->
  fst (handle (GetOne c fresh) now' fresh' w1) = json 200 (Doc e) /\
  (exists l,
     fst (handle (GetMy c) now' fresh' w1) = json 200 (Docs l) /\ In e l) /\
  (In (f_path f) (files w1) ->
   fst (handle (GetInvoice c fresh) now' fresh' w1)
     = json 200 (File (f_path f) (f_originalname f))).
Proof.
  intros Hp Hpost Hfresh Hw.
  destruct (post_201_inv c u b (Some f) now fresh w w1 e Hp Hpost)
    as [Hr [f0 [vd [Hf [He D]]]]].
  inversion Hf; subst f0; clear Hf.
  assert (Hid : _id e = fresh) by (now rewrite He).
  assert (Ho : submittedBy e = u_id u) by (now rewrite He).
  assert (Hi : invoice e = invoice_of f) by (now rewrite He).
  assert (Hfind : find (fun x => String.eqb (_id x) fresh) (docs w1) = Some e)
    by (rewrite D; now apply find_app_fresh).
  assert (HM : role u <> "Manager") by (rewrite Hr; discriminate).
  assert (HF : role u <> "Finance") by (rewrite Hr; discriminate).
  pose proof (find_casts _ _ _ Hfind) as Hc.
  pose proof (canAccessExpense_other u fresh w1 HM HF Hw Hc) as CA.
  rewrite Hfind, Ho, String.eqb_refl in CA. cbn [negb] in CA.
  pose proof (healthy_after_call (FindById fresh) w1 Hw) as Hw2.
  split; [| split].
  - simpl. unfold for_owner. rewrite Hp, CA.
    rewrite (get_one_healthy fresh _ Hw2 Hc). cbn [docs after_call fst].
    now rewrite Hfind.
  - simpl. unfold for_roles. rewrite Hp.
    rewrite authorize_passes by (rewrite Hr; simpl; auto).
    rewrite (list_my_healthy u w1 Hw). eexists. split; [reflexivity |].
    apply (Permutation_in _ (Permutation_sym (sort_desc_perm _))).
    apply filter_In. split.
    + rewrite D. apply in_or_app. right. now left.
    + unfold matches. cbn [by_status by_submittedBy].
      now rewrite Ho, String.eqb_refl.
  - intros Hdisk. simpl. unfold for_owner. rewrite Hp, CA.
    rewrite (download_invoice_healthy fresh _ Hw2 Hc).
    cbn [docs files after_call fst]. rewrite Hfind, Hi.
    cbn [invoice_of path originalName].
    apply existsb_eqb_In in Hdisk. now rewrite Hdisk.
Qed.

Lemma read_your_submission_witness :
  let c := Token (Some Sample.colleague) in
  let w1 := snd (handle (L := Sample.libs)
                   (PostExpense c Sample.trip (Some Sample.receipt))
                   6000 "e4" Sample.world) in
  exists e,
    fst (handle (L := Sample.libs) (GetOne c "e4") 7000 "x" w1)
      = json 200 (Doc e) /\
    submittedBy e = "u2" /\
    fst (handle (L := Sample.libs) (GetInvoice c "e4") 7000 "x" w1)
      = json 200 (File (f_path Sample.receipt) "receipt.pdf").
Proof.
  intros c w1.
  set (r := fst (handle (L := Sample.libs)
                   (PostExpense c Sample.trip (Some Sample.receipt))
                   6000 "e4" Sample.world)).
  assert (Hr : exists e, r = json 201 (Doc e) /\ submittedBy e = "u2")
    by (eexists; split; reflexivity).
  destruct Hr as [e [Hr Ho]].
  assert (Hpost : handle (L := Sample.libs)
                    (PostExpense c Sample.trip (Some Sample.receipt))
                    6000 "e4" Sample.world = (json 201 (Doc e), w1)).
  { rewrite <- Hr. unfold r, w1. now destruct (handle _ _ _ _). }
  destruct (read_your_submission (L := Sample.libs) c Sample.colleague
              Sample.trip Sample.receipt 6000 7000 "e4" "x" Sample.world w1 e
              eq_refl Hpost) as [G [_ Dl]].
  - simpl. intros x [<- | [<- | [<- | []]]]; discriminate.
  - reflexivity.
  - exists e. split; [exact G |]. split; [exact Ho |].
    apply Dl. simpl. auto.
Defined.

(** X7. The own listing [GET /my] of an employee, over a store that
    answers: the answer is 200 with exactly the stored expenses the caller
    submitted, all of them (there is no paging), newest [submittedDate]
    first; one call reaches the store and nothing is changed. *)
Theorem own_listing {L : Libraries} (c : Credential) (u : User) (now : Z)
    (fresh : string) (w : World) :
  protect c = inr u -> role u = "Employee" -> healthy w = true ->
  exists l,
    handle (GetMy c) now fresh w = (json 200 (Docs l), after_call Find w) /\
    Permutation l
      (filter (fun e => String.eqb (submittedBy e) (u_id u)) (docs w)) /\
    StronglySorted newest_first l /\
    (forall e, In e l <-> In e (docs w) /\ submittedBy e = u_id u).
Proof.
  intros Hp Hr Hw. simpl. unfold for_roles. rewrite Hp.
  rewrite authorize_passes by (rewrite Hr; simpl; auto).
  rewrite (list_my_healthy u w Hw).
  assert (E : filter (matches {| by_status := None;
                                 by_submittedBy := Some (u_id u) |}) (docs w)
              = filter (fun e => String.eqb (submittedBy e) (u_id u)) (docs w))
    by (apply filter_ext; intros e; reflexivity).
  rewrite E. eexists. split; [reflexivity |].
  split; [apply sort_desc_perm |]. split; [apply sort_desc_sorted |].
  intros e. split.
  - intros H. apply (Permutation_in _ (sort_desc_perm _)) in H.
    apply filter_In in H as [H1 H2]. apply String.eqb_eq in H2. auto.
  - intros [H1 H2].
    apply (Permutation_in _ (Permutation_sym (sort_desc_perm _))).
    apply filter_In. split; [exact H1 |]. now apply String.eqb_eq.
Qed.

Lemma own_listing_witness :
  exists l,
    handle (L := Sample.libs) (GetMy (Token (Some Sample.employee))) 5000
      "x" Sample.world = (json 200 (Docs l), after_call Find Sample.world) /\
    StronglySorted newest_first l /\
    (In Sample.e3 l <->
     In Sample.e3 (docs Sample.world) /\
     submittedBy Sample.e3 = u_id Sample.employee).
Proof.
  destruct (own_listing (L := Sample.libs) (Token (Some Sample.employee))
              Sample.employee 5000 "x" Sample.world eq_refl eq_refl eq_refl)
    as [l [R [_ [S I]]]].
  exists l. split; [exact R |]. split; [exact S | apply I].
Defined.

Lemma canAccessExpense_allowed (u : User) (id : string) (w : World)
    (e : Expense) :
  healthy w = true ->
  find (fun x => String.eqb (_id x) id) (docs w) = Some e ->
  role u = "Manager" \/ role u = "Finance" \/ submittedBy e = u_id u ->
  exists w',
    canAccessExpense u id w = (Next, w') /\ docs w' = docs w /\
    files w' = files w /\ healthy w' = true.
Proof.
  intros Hw Hf Ha.
  destruct (String.eqb (role u) "Manager") eqn:EM.
  { apply String.eqb_eq in EM. exists w.
    rewrite canAccessExpense_reviewer by auto. auto. }
  destruct (String.eqb (role u) "Finance") eqn:EF.
  { apply String.eqb_eq in EF. exists w.
    rewrite canAccessExpense_reviewer by auto. auto. }
  apply String.eqb_neq in EM, EF.
  destruct Ha as [Ha | [Ha | Ha]]; try contradiction.
  exists (after_call (FindById id) w).
  rewrite (canAccessExpense_other u id w EM EF Hw (find_casts _ _ _ Hf)),
    Hf, Ha, String.eqb_refl.
  repeat split. now apply healthy_after_call.
Qed.

(** What a 200 of the review route tells. *)
Lemma put_200_inv {L : Libraries} (c : Credential) (u : User) (id : string)
    (b : ReviewBody) (now : Z) (fresh : string) (w w1 : World)
    (r : Response) :
  protect c = inr u ->
  handle (PutStatus c id b) now fresh w = (r, w1) -> code r = 200 ->
  exists e,
    review_errors b = [] /\
    find (fun x => String.eqb (_id x) id) (docs w) = Some e /\
    r = json 200 (Doc (reviewed e u (review_sanitized b) now)) /\
    docs w1 = replace (reviewed e u (review_sanitized b) now) (docs w) /\
    files w1 = files w.
Proof.
  intros Hp. simpl. unfold for_roles. rewrite Hp.
  destruct (authorize _ (Some u)) as [r0 |] eqn:A.
  - intros H C. inversion H; subst. apply authorize_refuses in A.
    rewrite A in C. discriminate C.
  - intros H C.
    destruct (update_status_200_inv u id b now w w1 r H C)
      as [e [Hb [Hf [Hr D]]]].
    exists e. repeat split; try assumption.
    revert H. unfold update_status, catch500. rewrite Hb. cbv zeta.
    unfold bind at 1.
    destruct (findById id w) as [[err | found] w0] eqn:F;
      destruct (findById_frame id w w0 _ F) as [_ [Fi Hfo]];
      [intros H; inversion H; subst; exact Fi |].
    rewrite (Hfo found eq_refl), Hf. unfold bind at 1.
    unfold save. destruct (schema_errors _);
      [| unfold throw; intros H; inversion H; subst; exact Fi].
    unfold bind at 1.
    assert (RT : forall cl w2 res w3, round_trip cl w2 = (res, w3) ->
                   files w3 = files w2).
    { intros cl w2 res w3. unfold round_trip.
      destruct (faults w2) as [| [|] fs]; intros H; now inversion H. }
    destruct (round_trip (Save _) w0) as [[err | []] w2] eqn:R1;
      pose proof (RT _ _ _ _ R1) as F1;
      [intros H; inversion H; subst; congruence |].
    unfold bind at 1, get_docs. unfold bind at 1, put_docs.
    unfold bind.
    match goal with |- context [findById id ?w4] =>
      destruct (findById id w4) as [[err | found2] w5] eqn:F2;
      destruct (findById_frame id w4 w5 _ F2) as [_ [Fi2 _]] end;
      cbn [files] in Fi2; intros H; inversion H; subst; congruence.
Qed.

(** X8. A review is read back.  After a status review answered 200 with
    expense [e'], and over a store that answers, single retrieval of that
    id by a Manager, by a Finance user or by the submitter is answered 200
    with [e'], whose status is the target of the review. *)
Theorem read_your_review {L : Libraries} (c c2 : Credential) (u u2 : User)
    (id : string) (b : ReviewBody) (now now' : Z) (fresh fresh' : string)
    (w w1 : World) (e' : Expense) :
  protect c = inr u ->
  handle (PutStatus c id b) now fresh w = (json 200 (Doc e'), w1) ->
  healthy w1 = true ->
  protect c2 = inr u2 ->
  role u2 = "Manager" \/ role u2 = "Finance" \/ submittedBy e' = u_id u2 ->
  fst (handle (GetOne c2 id) now' fresh' w1) = json 200 (Doc e') /\
  status e' = Js.toString (r_status b).
Proof.
  intros Hp Hput Hw Hp2 Ha.
  destruct (put_200_inv c u id b now fresh w w1 _ Hp Hput eq_refl)
    as [e [Hb [Hf [Hr [D _]]]]].
  inversion Hr; subst e'; clear Hr.
  assert (Hfind : find (fun x => String.eqb (_id x) id) (docs w1)
                  = Some (reviewed e u (review_sanitized b) now)).
  { rewrite D. apply (find_replace id e); [exact Hf |].
    rewrite reviewed_id. eapply find_id; eassumption. }
  split; [| now rewrite reviewed_status].
  destruct (canAccessExpense_allowed u2 id w1 _ Hw Hfind Ha)
    as [w2 [CA [D2 [_ Hw2]]]].
  simpl. unfold for_owner. rewrite Hp2, CA.
  rewrite (get_one_healthy id w2 Hw2)
    by (rewrite D2; eapply find_casts; exact Hfind).
  cbn [fst]. now rewrite D2, Hfind.
Qed.

Lemma read_your_review_witness :
  let c := Token (Some Sample.finance) in
  let b := {| r_status := Some "Rejected"; r_reviewComments := Some "no" |} in
  let w1 := snd (handle (L := Sample.libs) (PutStatus c "e1" b) 6000 "x"
                   Sample.world) in
  exists e',
    fst (handle (L := Sample.libs) (GetOne (Token (Some Sample.employee)) "e1")
           7000 "y" w1) = json 200 (Doc e') /\
    status e' = "Rejected".
Proof.
  intros c b w1.
  set (r := fst (handle (L := Sample.libs) (PutStatus c "e1" b) 6000 "x"
                   Sample.world)).
  assert (Hr : exists e', r = json 200 (Doc e') /\ submittedBy e' = "u1")
    by (eexists; split; reflexivity).
  destruct Hr as [e' [Hr Ho]].
  assert (Hput : handle (L := Sample.libs) (PutStatus c "e1" b) 6000 "x"
                   Sample.world = (json 200 (Doc e'), w1)).
  { rewrite <- Hr. unfold r, w1. now destruct (handle _ _ _ _). }
  exists e'.
  apply (read_your_review (L := Sample.libs) c
           (Token (Some Sample.employee)) Sample.finance Sample.employee
           "e1" b 6000 7000 "x" "y" Sample.world w1 e' eq_refl Hput).
  - reflexivity.
  - reflexivity.
  - right. right. exact Ho.
Defined.

(** ** Edges of the status review *)





(** X10. Review comments are measured after trimming.  Comments of more
    than 500 characters once trimmed are refused with 400 and the world is
    the one before; comments of at most 500 characters once trimmed never
    produce the comments error, however much white space surrounds them;
    and comments that are only white space are accepted but count as
    absent: a review answered 200 with such comments leaves the stored
    [reviewComments] as they were. *)
Theorem review_comments_bounds (u : User) (id : string) (b : ReviewBody)
    (now : Z) (w : World) (c : string) :
  r_reviewComments b = Some c ->
  let comments_rule :=
    {| param := "reviewComments";
       msg := "Review comments must be less than 500 characters" |} in
  ((500 < String.length (Js.trim c))%nat ->
   In comments_rule (review_errors b) /\
   update_status u id b now w = (json 400 (Errors (review_errors b)), w)) /\
  ((String.length (Js.trim c) <= 500)%nat ->
   ~ In comments_rule (review_errors b)) /\
  (Js.trim c = EmptyString ->
   forall e e',
     find (fun x => String.eqb (_id x) id) (docs w) = Some e ->
     fst (update_status u id b now w) = json 200 (Doc e') ->
     reviewComments e' = reviewComments e).
Proof.
  intros Hc rule. split; [| split].
  - intros Hlen.
    assert (Hin : In rule (review_errors b)).
    { unfold review_errors. rewrite Hc. apply in_or_app. right.
      unfold Js.isLengthMax.
      assert (E : (String.length (Js.trim c) <=? 500)%nat = false)
        by (apply Nat.leb_gt; exact Hlen).
      rewrite E. now left. }
    split; [exact Hin |]. apply update_status_invalid.
    intros E. rewrite E in Hin. destruct Hin.
  - intros Hlen Hin. unfold review_errors in Hin. rewrite Hc in Hin.
    unfold Js.isLengthMax in Hin. apply Nat.leb_le in Hlen.
    rewrite Hlen in Hin. rewrite app_nil_r in Hin.
    destruct (Js.isIn review_statuses (Js.toString (r_status b)));
      [destruct Hin |].
    destruct Hin as [Hin | []]. discriminate Hin.
  - intros Ht e e' Hf R.
    assert (C : code (fst (update_status u id b now w)) = 200)
      by (now rewrite R).
    destruct (update_status_200 u id b now w C) as [e0 [_ [Hf0 [R0 _]]]].
    rewrite Hf in Hf0. inversion Hf0; subst e0.
    rewrite R in R0. inversion R0; subst e'.
    unfold reviewed, review_sanitized. cbn [r_reviewComments].
    rewrite Hc. cbn [option_map Js.truthy]. rewrite Ht. reflexivity.
Qed.

Lemma review_comments_bounds_witness :
  exists e',
    fst (update_status Sample.manager "e2"
           {| r_status := Some "Rejected"; r_reviewComments := Some "   " |}
           5000 Sample.world) = json 200 (Doc e') /\
    reviewComments e' = Some "seen".
Proof.
  eexists. split; [reflexivity |].
  apply (proj2 (proj2 (review_comments_bounds Sample.manager "e2"
           {| r_status := Some "Rejected"; r_reviewComments := Some "   " |}
           5000 Sample.world "   " eq_refl)) eq_refl Sample.e2 _ eq_refl
           eq_refl).
Defined.

Lemma findById_faulty (id : string) (w : World) (rest : list bool) :
  casts (docs w) id = true ->
  faults w = true :: rest ->
  findById id w =
    (inl Fault,
     {| docs := docs w; files := files w; faults := rest;
        calls := (calls w ++ [FindById id])%list |}).
Proof.
  intros C H. rewrite findById_compute, C. unfold after_call.
  now rewrite H.
Qed.

Lemma findById_sound (id : string) (w : World) (rest : list bool) :
  casts (docs w) id = true ->
  faults w = false :: rest ->
  findById id w =
    (inr (find (fun e => String.eqb (_id e) id) (docs w)),
     {| docs := docs w; files := files w; faults := rest;
        calls := (calls w ++ [FindById id])%list |}).
Proof.
  intros C H. rewrite findById_compute, C. unfold after_call.
  now rewrite H.
Qed.

(** X11. A 500 of the status review does not tell whether the review was
    stored.  The handler loads, saves, and loads again for the answer:
    when the save throws, the answer is 500 and the collection is as
    before; when the save goes through and the load after it throws, the
    answer is the same 500 although the expense is stored with the new
    status, reviewer and date. *)
Theorem review_500_is_ambiguous (u : User) (id : string) (b : ReviewBody)
    (now : Z) (w : World) (e : Expense) (rest : list bool) :
  review_errors b = [] ->
  find (fun x => String.eqb (_id x) id) (docs w) = Some e ->
  schema_errors e = [] ->
  (faults w = false :: true :: rest ->
   fst (update_status u id b now w) = json 500 (Message "Server error") /\
   docs (snd (update_status u id b now w)) = docs w) /\
  (faults w = false :: false :: true :: rest ->
   fst (update_status u id b now w) = json 500 (Message "Server error") /\
   docs (snd (update_status u id b now w)) =
     replace (reviewed e u (review_sanitized b) now) (docs w) /\
   option_map status
     (find (fun x => String.eqb (_id x) id)
        (docs (snd (update_status u id b now w))))
   = Some (Js.toString (r_status b))).
Proof.
  intros Hb Hf He.
  assert (Hst : In (Js.toString (r_status b)) review_statuses).
  { apply isIn_In. unfold review_errors in Hb.
    destruct (Js.isIn review_statuses (Js.toString (r_status b)));
      [reflexivity | discriminate Hb]. }
  pose proof (schema_errors_reviewed e u (review_sanitized b) now He Hst)
    as Hs.
  pose proof (find_casts id (docs w) e Hf) as Hc.
  assert (Hid : _id (reviewed e u (review_sanitized b) now) = id)
    by (rewrite reviewed_id; eapply find_id; eassumption).
  pose proof (find_casts id _ _ (find_replace id e _ (docs w) Hf Hid)) as Hc2.
  split.
  - intros Hfa.
    assert (R : update_status u id b now w =
                (json 500 (Message "Server error"),
                 {| docs := docs w; files := files w; faults := rest;
                    calls := (calls w ++ [FindById id] ++
                              [Save (_id (reviewed e u (review_sanitized b)
                                            now))])%list |})).
    { unfold update_status, catch500. rewrite Hb. cbv zeta.
      unfold bind at 1. rewrite (findById_sound id w _ Hc Hfa), Hf.
      unfold bind at 1. unfold save. rewrite Hs. unfold bind at 1.
      unfold round_trip. cbn [faults docs files calls tl].
      now rewrite <- app_assoc. }
    rewrite R. split; reflexivity.
  - intros Hfa.
    assert (R : update_status u id b now w =
                (json 500 (Message "Server error"),
                 {| docs := replace (reviewed e u (review_sanitized b) now)
                              (docs w);
                    files := files w; faults := rest;
                    calls := ((calls w ++ [FindById id]) ++
                              [Save (_id (reviewed e u (review_sanitized b)
                                            now))]) ++ [FindById id] |})).
    { unfold update_status, catch500. rewrite Hb. cbv zeta.
      unfold bind at 1. rewrite (findById_sound id w _ Hc Hfa), Hf.
      unfold bind at 1. unfold save. rewrite Hs. unfold bind at 1.
      unfold round_trip at 1. cbn [faults docs files calls tl].
      unfold bind at 1, get_docs. unfold bind at 1, put_docs.
      cbn [faults docs files calls tl]. unfold bind.
      erewrite findById_faulty by (cbn [docs faults]; first [exact Hc2 | reflexivity]).
      reflexivity. }
    rewrite R. cbn [fst snd docs]. split; [reflexivity |].
    split; [reflexivity |].
    rewrite (find_replace id e _ (docs w) Hf)
      by (rewrite reviewed_id; eapply find_id; eassumption).
    cbn [option_map]. now rewrite reviewed_status.
Qed.

Lemma review_500_is_ambiguous_witness :
  let w := {| docs := docs Sample.world; files := files Sample.world;
              faults := [false; false; true]; calls := [] |} in
  let b := {| r_status := Some "Approved"; r_reviewComments := None |} in
  fst (update_status Sample.manager "e1" b 5000 w)
    = json 500 (Message "Server error") /\
  option_map status
    (find (fun x => String.eqb (_id x) "e1")
       (docs (snd (update_status Sample.manager "e1" b 5000 w))))
  = Some "Approved".
Proof.
  intros w b.
  destruct (proj2 (review_500_is_ambiguous Sample.manager "e1" b 5000 w
                     Sample.e1 [] eq_refl eq_refl eq_refl) eq_refl)
    as [R [_ S]].
  split; [exact R | exact S].
Defined.

(** ** Pages of the full listing *)

Lemma firstn_plus {A : Type} (a b : nat) (l : list A) :
  firstn (a + b) l = (firstn a l ++ firstn b (skipn a l))%list.
Proof.
  revert l. induction a as [| a IH]; intros l; simpl; [reflexivity |].
  destruct l as [| x r]; simpl.
  - now destruct b.
  - now rewrite IH.
Qed.

Lemma pages_concat {A : Type} (size n : nat) (l : list A) :
  concat (map (fun p => firstn size (skipn ((p - 1) * size) l)) (seq 1 n))
  = firstn (n * size) l.
Proof.
  induction n as [| n IH]; [reflexivity |].
  rewrite seq_S, map_app, concat_app, IH. cbn [map concat].
  rewrite app_nil_r. replace (1 + n - 1)%nat with n by lia.
  replace (S n * size)%nat with (n * size + size)%nat by lia.
  symmetry. apply firstn_plus.
Qed.

(** The items of a page of the full listing over a healthy store. *)
Lemma list_all_items (q : ListQuery) (w : World) :
  let page := match q_page q with Some p => p | None => 1 end in
  let limit := match q_limit q with Some l => l | None => 10 end in
  let matching :=
    filter (fun e =>
              match q_status q with
              | Some s =>
                  if String.eqb s EmptyString then true
                  else String.eqb (status e) s
              | None => true
              end) (docs w) in
  healthy w = true -> 1 <= page -> 1 <= limit ->
  exists w',
    list_all q w =
      (json 200
         (Page (firstn (Z.to_nat limit)
                  (skipn (Z.to_nat ((page - 1) * limit)) (sort_desc matching)))
            (Js.Num (- (- Z.of_nat (length matching) / limit)))
            page (Z.of_nat (length matching))), w') /\
    docs w' = docs w.
Proof.
  intros page limit matching Hw Hp Hl.
  destruct (list_all_healthy q w Hw Hp Hl) as [w' [R D]].
  fold page limit in R.
  assert (Hm : filter (matches
                 {| by_status :=
                      if Js.truthy (q_status q) then q_status q else None;
                    by_submittedBy := None |}) (docs w) = matching).
  { unfold matching. apply filter_ext. intros e. apply matches_status. }
  rewrite Hm in R.
  destruct (ceil_div_bounds (Z.of_nat (length matching)) limit Hl) as [Hc _].
  rewrite Hc in R. exists w'. auto.
Qed.

(** X12. How many expenses a page of the full listing holds, over a store
    that answers and for a page and a limit from 1 on: [limit] of them on
    every page before the last, the remainder (at least one) on page
    [totalPages], and none on the pages after it, which are answered 200
    with an empty list all the same. *)
Theorem page_lengths (q : ListQuery) (w : World) :
  let page := match q_page q with Some p => p | None => 1 end in
  let limit := match q_limit q with Some l => l | None => 10 end in
  healthy w = true -> 1 <= page -> 1 <= limit ->
  exists expenses totalPages total w',
    list_all q w =
      (json 200 (Page expenses (Js.Num totalPages) page total), w') /\
    Z.of_nat (length expenses)
      = Z.min limit (Z.max 0 (total - (page - 1) * limit)) /\
    (page < totalPages -> Z.of_nat (length expenses) = limit) /\
    (page = totalPages -> 1 <= Z.of_nat (length expenses) <= limit) /\
    (totalPages < page -> expenses = []).
Proof.
  intros page limit Hw Hp Hl.
  destruct (list_all_items q w Hw Hp Hl) as [w' [R _]].
  fold page limit in R.
  match type of R with
  | context [sort_desc ?m] => set (matching := m) in *
  end.
  set (total := Z.of_nat (length matching)) in *.
  destruct (ceil_div_bounds total limit Hl) as [_ Hb].
  set (tp := - (- total / limit)) in *.
  set (items := firstn (Z.to_nat limit)
                  (skipn (Z.to_nat ((page - 1) * limit)) (sort_desc matching))).
  assert (Hlen : Z.of_nat (length items)
                 = Z.min limit (Z.max 0 (total - (page - 1) * limit))).
  { unfold items. rewrite length_firstn, length_skipn.
    rewrite (Permutation_length (sort_desc_perm matching)).
    unfold total. nia. }
  exists items, tp, total, w'. split; [exact R |]. split; [exact Hlen |].
  split; [| split].
  - intros H. rewrite Hlen. nia.
  - intros H. rewrite Hlen. nia.
  - intros H. apply length_zero_iff_nil. nia.
Qed.

Lemma page_lengths_witness :
  exists expenses totalPages total w',
    list_all {| q_status := None; q_page := Some 2; q_limit := Some 2 |}
      Sample.world
    = (json 200 (Page expenses (Js.Num totalPages) 2 total), w') /\
    Z.of_nat (length expenses) = Z.min 2 (Z.max 0 (total - (2 - 1) * 2)).
Proof.
  destruct (page_lengths
              {| q_status := None; q_page := Some 2; q_limit := Some 2 |}
              Sample.world eq_refl ltac:(simpl; lia) ltac:(simpl; lia))
    as [expenses [tp [total [w' [R [Hn _]]]]]].
  exists expenses, tp, total, w'. split; [exact R | exact Hn].
Defined.

(** X13. The pages of the full listing tile it.  Over a store that
    answers and for a limit from 1 on, there is one list, the matching
    expenses newest first, of which the answers to pages 1, 2, ..., n,
    put end to end, are the first [n * limit] elements: no expense is
    skipped or repeated between pages, and once [n * limit] reaches the
    total the pages together are the whole list. *)
Theorem pages_tile (q : ListQuery) (w : World) :
  let limit := match q_limit q with Some l => l | None => 10 end in
  let matching :=
    filter (fun e =>
              match q_status q with
              | Some s =>
                  if String.eqb s EmptyString then true
                  else String.eqb (status e) s
              | None => true
              end) (docs w) in
  healthy w = true -> 1 <= limit ->
  exists newest,
    Permutation newest matching /\
    StronglySorted newest_first newest /\
    forall n : nat,
      let pages :=
        concat
          (map (fun p =>
                  expenses_of (fst (list_all (at_page q (Z.of_nat p)) w)))
             (seq 1 n)) in
      pages = firstn (n * Z.to_nat limit) newest /\
      (Z.of_nat (length matching) <= Z.of_nat n * limit -> pages = newest).
Proof.
  intros limit matching Hw Hl.
  exists (sort_desc matching).
  split; [apply sort_desc_perm |]. split; [apply sort_desc_sorted |].
  intros n pages.
  assert (E : pages = firstn (n * Z.to_nat limit) (sort_desc matching)).
  { unfold pages. rewrite <- pages_concat. f_equal.
    apply map_ext_in. intros p Hin. apply in_seq in Hin.
    destruct (list_all_items (at_page q (Z.of_nat p)) w Hw) as [w' [R _]];
      [simpl; lia | exact Hl |].
    rewrite R. cbn [fst expenses_of body json q_page q_limit q_status at_page].
    fold limit. fold matching.
    replace (Z.to_nat ((Z.of_nat p - 1) * limit))
      with ((p - 1) * Z.to_nat limit)%nat by nia.
    reflexivity. }
  split; [exact E |].
  intros Hn. rewrite E. apply firstn_all2.
  rewrite (Permutation_length (sort_desc_perm matching)). nia.
Qed.

Lemma pages_tile_witness :
  exists newest,
    Permutation newest (docs Sample.world) /\
    concat
      (map (fun p =>
              expenses_of
                (fst (list_all
                        (at_page {| q_status := None; q_page := None;
                                    q_limit := Some 2 |} (Z.of_nat p))
                        Sample.world)))
         (seq 1 2)) = newest.
Proof.
  destruct (pages_tile {| q_status := None; q_page := None;
                          q_limit := Some 2 |} Sample.world eq_refl
              ltac:(simpl; lia)) as [newest [P [_ T]]].
  exists newest. split; [exact P |].
  apply (proj2 (T 2%nat)). simpl. lia.
Defined.

Lemma valid_status (e : Expense) :
  schema_errors e = [] -> In (status e) statuses.
Proof.
  intros He. apply isIn_In. unfold schema_errors in He.
  repeat match type of He with
  | ((if ?c then _ else _) ++ _)%list = [] =>
      destruct c; [cbn [app] in He | discriminate He]
  end.
  destruct (Js.isIn statuses (status e)); [reflexivity | discriminate He].
Qed.

Lemma filter_unknown_status (l : list Expense) (s : string) :
  Forall (fun e => schema_errors e = []) l -> ~ In s statuses ->
  filter (fun e => String.eqb (status e) s) l = [].
Proof.
  intros Hv Hout. induction Hv as [| e r He Hr IH]; [reflexivity |].
  simpl. rewrite IH.
  destruct (String.eqb (status e) s) eqn:Es; [| reflexivity].
  apply String.eqb_eq in Es. exfalso. apply Hout. rewrite <- Es.
  now apply valid_status.
Qed.

(** X14. The status of the query is not validated.  Over a store that
    answers and a collection of valid documents, for a page and a limit of
    at least 1 (1 and 10 when the query leaves them out), a full listing
    asked with a status that is none of Pending, Approved, Rejected and
    Under Review (and is not empty) is answered 200 with no expense, a
    total of 0 and 0 pages, not with an error. *)
Theorem unknown_status_lists_nothing (q : ListQuery) (w : World)
    (s : string) :
  let page := match q_page q with Some p => p | None => 1 end in
  let limit := match q_limit q with Some l => l | None => 10 end in
  healthy w = true -> 1 <= page -> 1 <= limit ->
  valid_docs w ->
  q_status q = Some s -> s <> EmptyString -> ~ In s statuses ->
  exists w',
    list_all q w = (json 200 (Page [] (Js.Num 0) page 0), w').
Proof.
  intros page limit Hw Hp Hl Hv Hs Hne Hout.
  destruct (list_all_items q w Hw Hp Hl) as [w' [R _]].
  fold page limit in R. rewrite Hs in R.
  apply String.eqb_neq in Hne. rewrite Hne in R.
  pose proof (filter_unknown_status (docs w) s Hv Hout) as E.
  rewrite E in R. cbn [sort_desc length Z.of_nat] in R.
  rewrite skipn_nil, firstn_nil in R.
  change (- (- 0 / limit)) with (- (0 / limit)) in R.
  rewrite Z.div_0_l in R by lia. exists w'. exact R.
Qed.

Lemma unknown_status_lists_nothing_witness :
  exists w',
    list_all {| q_status := Some "pending"; q_page := None; q_limit := None |}
      Sample.world = (json 200 (Page [] (Js.Num 0) 1 0), w').
Proof.
  apply (unknown_status_lists_nothing
           {| q_status := Some "pending"; q_page := None; q_limit := None |}
           Sample.world "pending").
  - reflexivity.
  - simpl. lia.
  - simpl. lia.
  - unfold valid_docs. simpl. repeat constructor.
  - reflexivity.
  - discriminate.
  - simpl. intros H. repeat (destruct H as [H | H]; [discriminate H |]).
    exact H.
Defined.

(** ** What a history of requests keeps *)

Lemma submit_shape {L : Libraries} (u : User) (b : SubmitBody)
    (file : option Upload) (now : Z) (fresh : string) (w w' : World)
    (r : Response) :
  submit u b file now fresh w = (r, w') ->
  docs w' = docs w \/
  exists n,
    docs w' = (docs w ++ [build n fresh now])%list /\
    schema_errors (build n fresh now) = [].
Proof.
  unfold submit, catch500.
  destruct (submit_errors b); [| intros H; inversion H; now left].
  destruct file as [f |]; [| intros H; inversion H; now left]. cbv zeta.
  destruct (parse_vendor _) as [vd |]; [| intros H; inversion H; now left].
  unfold bind.
  destruct (create _ fresh now w) as [[err | e] w1] eqn:C;
    intros H; inversion H; subst.
  - left. eapply create_inl; eassumption.
  - right. pose proof (create_inr_valid _ _ _ _ _ _ C) as V.
    apply create_inr in C as [-> D]. eauto.
Qed.

Lemma update_status_shape (u : User) (id : string) (b : ReviewBody)
    (now : Z) (w w' : World) (r : Response) :
  update_status u id b now w = (r, w') ->
  docs w' = docs w \/
  exists e0,
    find (fun x => String.eqb (_id x) id) (docs w) = Some e0 /\
    docs w' = replace (reviewed e0 u (review_sanitized b) now) (docs w) /\
    schema_errors (reviewed e0 u (review_sanitized b) now) = [] /\
    In (status (reviewed e0 u (review_sanitized b) now)) review_statuses.
Proof.
  unfold update_status, catch500.
  destruct (review_errors b) eqn:Hb;
    [| intros H; inversion H; now left].
  assert (Hst : In (Js.toString (r_status b)) review_statuses).
  { apply isIn_In. unfold review_errors in Hb.
    destruct (Js.isIn review_statuses (Js.toString (r_status b)));
      [reflexivity | discriminate Hb]. }
  cbv zeta. unfold bind at 1.
  destruct (findById id w) as [[err | found] w1] eqn:F1;
    destruct (findById_frame id w w1 _ F1) as [D1 [_ Hfo]];
    [intros H; inversion H; subst; now left |].
  rewrite (Hfo found eq_refl).
  destruct (find _ (docs w)) as [e |] eqn:Hf;
    [| intros H; inversion H; subst; now left].
  unfold bind at 1.
  destruct (save _ w1) as [[err | []] w2] eqn:S.
  - apply save_inl in S. intros H; inversion H; subst. left. congruence.
  - apply save_inr in S as [V D2]. unfold bind.
    pose proof (reads_findById id w2) as D3.
    destruct (findById id w2) as [[err | found2] w3]; simpl in D3;
      intros H; inversion H; subst; right; exists e;
      (split; [reflexivity | split; [congruence | split; [exact V |]]]);
      now rewrite reviewed_status.
Qed.

(** The three things a request can do to the collection. *)
Lemma handle_shape {L : Libraries} (r : Request) (now : Z) (fresh : string)
    (w : World) :
  let w' := snd (handle r now fresh w) in
  docs w' = docs w \/
  (exists n,
     docs w' = (docs w ++ [build n fresh now])%list /\
     schema_errors (build n fresh now) = []) \/
  (exists id e0 u b,
     find (fun x => String.eqb (_id x) id) (docs w) = Some e0 /\
     docs w' = replace (reviewed e0 u b now) (docs w) /\
     schema_errors (reviewed e0 u b now) = [] /\
     In (status (reviewed e0 u b now)) review_statuses).
Proof.
  destruct r as [c b file | c | c q | c id | c id b | c id]; simpl;
    unfold for_roles, for_owner;
    (destruct (protect c) as [resp | u]; [now left |]).
  - destruct (authorize _ _); [now left |].
    destruct (submit u b file now fresh w) as [resp w'] eqn:R.
    destruct (submit_shape u b file now fresh w w' resp R) as [D | D];
      simpl; auto.
  - destruct (authorize _ _); [now left |].
    left. unfold list_my. apply catch500_reads. repeat reads_step.
  - destruct (authorize _ _); [now left |].
    left. unfold list_all. apply catch500_reads. repeat reads_step.
  - pose proof (canAccessExpense_reads u id w) as D.
    destruct (canAccessExpense u id w) as [[| resp] w1]; simpl in D;
      [| now left].
    left. unfold get_one. rewrite catch500_reads; [exact D |].
    repeat reads_step.
  - destruct (authorize _ _); [now left |].
    destruct (update_status u id b now w) as [resp w'] eqn:R.
    destruct (update_status_shape u id b now w w' resp R)
      as [D | [e0 [Hf [D [V S]]]]]; simpl; [now left |].
    right. right. exists id, e0, u, (review_sanitized b). auto.
  - pose proof (canAccessExpense_reads u id w) as D.
    destruct (canAccessExpense u id w) as [[| resp] w1]; simpl in D;
      [| now left].
    left. unfold download_invoice. rewrite catch500_reads; [exact D |].
    repeat reads_step.
Qed.

Lemma same_submission_refl (e : Expense) : same_submission e e.
Proof. unfold same_submission. repeat split. Qed.

Lemma same_submission_trans (a b c : Expense) :
  same_submission a b -> same_submission b c -> same_submission a c.
Proof.
  unfold same_submission. intros H1 H2.
  decompose [and] H1. decompose [and] H2. repeat split; congruence.
Qed.

Lemma same_submission_reviewed (e : Expense) (u : User) (b : ReviewBody)
    (now : Z) :
  same_submission e (reviewed e u b now).
Proof.
  unfold same_submission, reviewed.
  destruct (Js.truthy _); repeat split.
Qed.

Lemma nth_error_replace_found (id : string) (e0 e2 : Expense)
    (l : list Expense) (i : nat) (x : Expense) :
  find (fun y => String.eqb (_id y) id) l = Some e0 -> _id e2 = id ->
  nth_error l i = Some x ->
  exists x',
    nth_error (replace e2 l) i = Some x' /\ (x' = x \/ (x' = e2 /\ x = e0)).
Proof.
  intros Hf Hid. revert i. induction l as [| y r IH]; intros i H.
  - destruct i; discriminate H.
  - simpl in Hf |- *. rewrite Hid.
    destruct (String.eqb (_id y) id) eqn:E.
    + inversion Hf; subst y. destruct i as [| i]; simpl in *.
      * inversion H; subst x. eauto.
      * eauto.
    + destruct i as [| i]; simpl in *; [eauto |]. now apply IH.
Qed.

Lemma handle_same {L : Libraries} (r : Request) (now : Z) (fresh : string)
    (w : World) (i : nat) (e : Expense) :
  nth_error (docs w) i = Some e ->
  exists e',
    nth_error (docs (snd (handle r now fresh w))) i = Some e' /\
    same_submission e e'.
Proof.
  intros H.
  destruct (handle_shape r now fresh w)
    as [D | [[n [D _]] | [id [e0 [u [b [Hf [D _]]]]]]]]; rewrite D.
  - exists e. split; [exact H | apply same_submission_refl].
  - exists e. split; [| apply same_submission_refl].
    rewrite nth_error_app1; [exact H |]. apply nth_error_Some. congruence.
  - destruct (nth_error_replace_found id e0 (reviewed e0 u b now) (docs w)
                i e Hf) as [x' [Hn [-> | [-> ->]]]];
      [rewrite reviewed_id; eapply find_id; eassumption | exact H | |].
    + exists e. split; [exact Hn | apply same_submission_refl].
    + eexists. split; [exact Hn | apply same_submission_reviewed].
Qed.

(** X15. Nothing is deleted and a submission is never edited.  Along any
    history of requests, an expense stored at some position is still
    stored there, with the same id, title, category, amount, currency,
    description, vendor, invoice, submitter, submission date, expense date
    and creation time; the collection never gets shorter. *)
Theorem submissions_are_kept {L : Libraries}
    (h : list (Request * Z * string)) (w : World) :
  (forall i e,
     nth_error (docs w) i = Some e ->
     exists e',
       nth_error (docs (run h w)) i = Some e' /\ same_submission e e') /\
  (length (docs w) <= length (docs (run h w)))%nat.
Proof.
  assert (K : forall h w i e,
            nth_error (docs w) i = Some e ->
            exists e',
              nth_error (docs (run h w)) i = Some e' /\ same_submission e e').
  { clear h w. induction h as [| [[r now] fresh] h IH]; intros w i e H; simpl.
    - exists e. split; [exact H | apply same_submission_refl].
    - destruct (handle_same r now fresh w i e H) as [e1 [H1 S1]].
      destruct (IH _ i e1 H1) as [e' [H' S']].
      exists e'. split; [exact H' |].
      eapply same_submission_trans; eassumption. }
  split; [apply K |].
  destruct (Nat.le_gt_cases (length (docs w)) (length (docs (run h w))))
    as [Hle | Hgt]; [exact Hle |].
  exfalso.
  destruct (nth_error (docs w) (length (docs (run h w)))) as [e |] eqn:E.
  - destruct (K h w _ e E) as [e' [H' _]].
    assert (N : nth_error (docs (run h w)) (length (docs (run h w))) = None)
      by (apply nth_error_None; lia).
    congruence.
  - apply nth_error_None in E. lia.
Qed.

Lemma submissions_are_kept_witness :
  let h :=
    [(PutStatus (Token (Some Sample.manager)) "e1"
        {| r_status := Some "Rejected"; r_reviewComments := Some "no" |},
      4000, "x");
     (PostExpense (Token (Some Sample.employee)) Sample.trip
        (Some Sample.receipt), 5000, "e4")] in
  exists e',
    nth_error (docs (run (L := Sample.libs) h Sample.world)) 0 = Some e' /\
    same_submission Sample.e1 e'.
Proof.
  intros h.
  apply (proj1 (submissions_are_kept (L := Sample.libs) h Sample.world)
           0%nat Sample.e1).
  reflexivity.
Defined.

Lemma schema_errors_nil_inv (e : Expense) :
  schema_errors e = [] ->
  (Js.notEmpty (title e) && Js.isLengthMax 100 (title e) = true) /\
  Js.isIn categories (category e) = true /\
  Qle_bool min_amount (amount e) = true /\
  Js.isIn currencies (currency e) = true /\
  (Js.notEmpty (description e) && Js.isLengthMax 500 (description e) = true) /\
  Js.notEmpty (name (vendor e)) = true /\
  Js.notEmpty (filename (invoice e)) = true /\
  Js.notEmpty (originalName (invoice e)) = true /\
  Js.notEmpty (path (invoice e)) = true /\
  Js.notEmpty (mimetype (invoice e)) = true /\
  Js.isIn statuses (status e) = true.
Proof.
  intros He. unfold schema_errors in He.
  repeat match type of He with
  | ((if ?c then _ else _) ++ _)%list = [] =>
      destruct c eqn:?; [cbn [app] in He | discriminate He]
  end.
  destruct (Js.isIn statuses (status e)) eqn:?; [| discriminate He].
  repeat split; reflexivity.
Qed.

(** X16. Every stored expense satisfies the schema, always.  From a
    collection of valid documents (the empty one to begin with) and along
    any history of requests, every stored expense has a status among
    Pending, Approved, Rejected and Under Review, a category and a currency
    of their enumerations, an amount of at least 0.01, a title of 1 to 100
    characters, a description of 1 to 500, a vendor name and the four
    strings of its invoice: what fails the schema is never written. *)
Theorem stored_documents_stay_valid {L : Libraries}
    (h : list (Request * Z * string)) (w : World) (e : Expense) :
  valid_docs w ->
  In e (docs (run h w)) ->
  In (status e) statuses /\ In (category e) categories /\
  In (currency e) currencies /\ (min_amount <= amount e)%Q /\
  (1 <= String.length (title e) <= 100)%nat /\
  (1 <= String.length (description e) <= 500)%nat /\
  name (vendor e) <> EmptyString /\
  filename (invoice e) <> EmptyString /\
  originalName (invoice e) <> EmptyString /\
  path (invoice e) <> EmptyString /\
  mimetype (invoice e) <> EmptyString.
Proof.
  intros Hv Hin. pose proof (run_valid h w Hv) as V.
  unfold valid_docs in V. rewrite Forall_forall in V.
  destruct (schema_errors_nil_inv e (V e Hin))
    as (Ht & Hc & Ha & Hcu & Hd & Hn & H1 & H2 & H3 & H4 & Hs).
  apply andb_prop in Ht as [Ht1 Ht2]. apply andb_prop in Hd as [Hd1 Hd2].
  apply notEmpty_length in Ht1, Hd1.
  unfold Js.isLengthMax in Ht2, Hd2. apply Nat.leb_le in Ht2, Hd2.
  assert (NE : forall s, Js.notEmpty s = true -> s <> EmptyString).
  { intros s H E. subst s. discriminate H. }
  repeat split; try (now apply isIn_In); try (now apply NE); try assumption.
  now apply Qle_bool_iff.
Qed.

Lemma stored_documents_stay_valid_witness :
  let h :=
    [(PostExpense (Token (Some Sample.employee)) Sample.trip
        (Some Sample.receipt), 1000, "e1");
     (PutStatus (Token (Some Sample.manager)) "e1"
        {| r_status := Some "Approved"; r_reviewComments := None |},
      2000, "x")] in
  exists e,
    In e (docs (run (L := Sample.libs) h Sample.empty)) /\
    In (status e) statuses /\ (min_amount <= amount e)%Q.
Proof.
  intros h. eexists. split; [left; reflexivity |].
  match goal with |- In (status ?e) _ /\ _ =>
    destruct (stored_documents_stay_valid (L := Sample.libs) h Sample.empty e)
      as (Hs & _ & _ & Ha & _)
  end.
  - unfold valid_docs. simpl. constructor.
  - left. reflexivity.
  - split; [exact Hs | exact Ha].
Defined.

Lemma handle_paired {L : Libraries} (r : Request) (now : Z) (fresh : string)
    (w : World) :
  Forall review_fields_paired (docs w) ->
  Forall review_fields_paired (docs (snd (handle r now fresh w))).
Proof.
  intros H.
  destruct (handle_shape r now fresh w)
    as [D | [[n [D _]] | [id [e0 [u [b [Hf [D [_ S]]]]]]]]]; rewrite D.
  - exact H.
  - apply Forall_app. split; [exact H |]. constructor; [| constructor].
    unfold review_fields_paired, build. cbn. repeat split; reflexivity.
  - apply Forall_replace; [exact H |].
    unfold review_fields_paired.
    assert (NP : status (reviewed e0 u b now) <> "Pending").
    { intros E. rewrite E in S. simpl in S.
      destruct S as [S | [S | [S | []]]]; discriminate S. }
    assert (RB : reviewedBy (reviewed e0 u b now) = Some (u_id u))
      by (unfold reviewed; now destruct (Js.truthy _)).
    assert (RD : reviewedDate (reviewed e0 u b now) = Some now)
      by (unfold reviewed; now destruct (Js.truthy _)).
    rewrite RB, RD. repeat split; intros; congruence.
Qed.

(** X17. Pending means unreviewed.  From a collection in which it holds
    (the empty one to begin with) and along any history of requests, a
    stored expense has status Pending exactly when it has no [reviewedBy],
    and has a [reviewedBy] exactly when it has a [reviewedDate]: the two
    are written together, by the review alone, and a review never leaves
    the status Pending. *)
Theorem pending_means_unreviewed {L : Libraries}
    (h : list (Request * Z * string)) (w : World) (e : Expense) :
  Forall review_fields_paired (docs w) ->
  In e (docs (run h w)) ->
  (status e = "Pending" <-> reviewedBy e = None) /\
  (reviewedBy e = None <-> reviewedDate e = None).
Proof.
  intros H Hin.
  assert (K : Forall review_fields_paired (docs (run h w))).
  { clear Hin. revert w H.
    induction h as [| [[r now] fresh] h IH]; intros w H; simpl;
      [exact H |].
    apply IH. now apply handle_paired. }
  rewrite Forall_forall in K. exact (K e Hin).
Qed.

Lemma pending_means_unreviewed_witness :
  let h :=
    [(PostExpense (Token (Some Sample.employee)) Sample.trip
        (Some Sample.receipt), 1000, "e1");
     (PutStatus (Token (Some Sample.manager)) "e1"
        {| r_status := Some "Under Review"; r_reviewComments := None |},
      2000, "x")] in
  exists e,
    In e (docs (run (L := Sample.libs) h Sample.empty)) /\
    (status e = "Pending" <-> reviewedBy e = None) /\
    (reviewedBy e = None <-> reviewedDate e = None).
Proof.
  intros h. eexists. split; [left; reflexivity |].
  apply (pending_means_unreviewed (L := Sample.libs) h Sample.empty).
  - simpl. constructor.
  - left. reflexivity.
Defined.

(** ** What a created expense holds *)

Lemma create_inr_cast (n : NewExpense) (id : string) (now : Z)
    (w w' : World) (e : Expense) :
  create n id now w = (inr e, w') -> cast_errors n = [].
Proof.
  unfold create.
  destruct (cast_errors n ++ schema_errors (build n id now))%list eqn:E;
    [| discriminate].
  intros _. now apply app_eq_nil in E.
Qed.

(** X18. What is stored is the sanitized body.  The expense of a
    submission answered 201 has the fresh id; its title, description and
    vendor name are the ones of the body trimmed (so trimming them again
    changes nothing), its category is the one of the body, its amount is
    what [parseFloat] reads from the body's amount and its expense date
    what [new Date] reads from the body's date, its currency is the one of
    the body or USD, and its vendor came as fields. *)
Theorem created_fields_come_from_body {L : Libraries} (u : User)
    (b : SubmitBody) (file : option Upload) (now : Z) (fresh : string)
    (w w' : World) (e : Expense) :
  submit u b file now fresh w = (json 201 (Doc e), w') ->
  _id e = fresh /\
  title e = Js.trim (Js.toString (b_title b)) /\
  Js.trim (title e) = title e /\
  description e = Js.trim (Js.toString (b_description b)) /\
  b_category b = Some (category e) /\
  currency e = match b_currency b with Some c => c | None => "USD" end /\
  (exists a, b_amount b = Some a /\ parseFloat a = Some (amount e)) /\
  (exists d, b_expenseDate b = Some d /\ newDate d = Some (expenseDate e)) /\
  (exists n c a,
     b_vendor b = Some (VendorFields n c a) /\
     name (vendor e) = Js.trim (Js.toString n) /\
     contact (vendor e) = option_map Js.trim c /\
     address (vendor e) = option_map Js.trim a).
Proof.
  intros H.
  destruct (submit_201_inv u b file now fresh w w' _ H eq_refl)
    as [f [vd [-> [Hb [Pv [Hr _]]]]]].
  inversion Hr as [He]. clear Hr.
  assert (Hcast : cast_errors (new_expense u (submit_sanitized b) f vd) = []).
  { revert H. unfold submit, catch500. rewrite Hb. cbv zeta. rewrite Pv.
    unfold bind.
    destruct (create _ fresh now w) as [[err | e1] w1] eqn:C;
      [intros H; inversion H |].
    intros _. eapply create_inr_cast; eassumption. }
  destruct (submit_errors_nil b Hb) as (_ & Hc & _ & _ & Hv & _).
  destruct (b_vendor b) as [[s | n ct ad] |] eqn:Ev;
    try (cbv in Hv; discriminate Hv).
  assert (Evd : vd = VendorObj (Some (Js.trim (Js.toString n))) ct ad).
  { revert Pv. unfold submit_sanitized. cbn. rewrite Ev.
    intros Pv. now inversion Pv. }
  subst vd.
  unfold cast_errors, new_expense, submit_sanitized in Hcast.
  cbn -[Js.trim] in Hcast.
  destruct (b_amount b) as [am |] eqn:Ea; [| discriminate Hcast].
  destruct (parseFloat am) as [q |] eqn:Eq; [| discriminate Hcast].
  destruct (b_expenseDate b) as [d |] eqn:Ed; [| discriminate Hcast].
  destruct (newDate d) as [t |] eqn:Et; [| discriminate Hcast].
  unfold build, new_expense, submit_sanitized.
  cbn -[Js.trim]. rewrite Ea, Eq, Ed, Et. cbn -[Js.trim].
  rewrite !trim_idem.
  repeat split; eauto.
  - destruct (b_category b) as [cat |]; [reflexivity |].
    cbv in Hc. discriminate Hc.
  - exists n, ct, ad. repeat split.
Qed.

Lemma created_fields_come_from_body_witness :
  exists e w',
    submit (L := Sample.libs) Sample.employee Sample.trip
      (Some Sample.receipt) 1000 "e1" Sample.empty = (json 201 (Doc e), w') /\
    title e = "Taxi to airport" /\ currency e = "USD".
Proof.
  eexists. eexists. split; [reflexivity |].
  destruct (created_fields_come_from_body (L := Sample.libs) Sample.employee
              Sample.trip (Some Sample.receipt) 1000 "e1" Sample.empty _ _
              eq_refl) as (_ & Ht & _ & _ & _ & Hc & _).
  split; [exact Ht | exact Hc].
Defined.

(** ** Two reviews in a row *)

(** X19. A later review overwrites the decision but not the comments.
    When two status reviews of the same expense are both answered 200, the
    expense after the second has the second target as status, the second
    caller as [reviewedBy] and the second time as [reviewedDate]; when the
    second request has no comments, the comments of the first decision
    stay attached to the second; nothing else differs. *)
Theorem later_review_keeps_comments {L : Libraries} (c1 c2 : Credential)
    (u1 u2 : User) (id : string) (b1 b2 : ReviewBody) (now1 now2 : Z)
    (fresh1 fresh2 : string) (w w1 w2 : World) (e1 e2 : Expense) :
  protect c1 = inr u1 -> protect c2 = inr u2 ->
  handle (PutStatus c1 id b1) now1 fresh1 w = (json 200 (Doc e1), w1) ->
  handle (PutStatus c2 id b2) now2 fresh2 w1 = (json 200 (Doc e2), w2) ->
  status e2 = Js.toString (r_status b2) /\
  reviewedBy e2 = Some (u_id u2) /\
  reviewedDate e2 = Some now2 /\
  (r_reviewComments b2 = None -> reviewComments e2 = reviewComments e1) /\
  same_submission e1 e2.
Proof.
  intros Hp1 Hp2 H1 H2.
  destruct (put_200_inv c1 u1 id b1 now1 fresh1 w w1 _ Hp1 H1 eq_refl)
    as [e [_ [Hf [Hr [D _]]]]].
  inversion Hr as [He1]. clear Hr.
  assert (Hfind : find (fun x => String.eqb (_id x) id) (docs w1) = Some e1).
  { rewrite D, He1. apply (find_replace id e); [exact Hf |].
    rewrite reviewed_id. eapply find_id; eassumption. }
  destruct (put_200_inv c2 u2 id b2 now2 fresh2 w1 w2 _ Hp2 H2 eq_refl)
    as [e' [_ [Hf' [Hr' _]]]].
  rewrite Hfind in Hf'. inversion Hf'; subst e'.
  inversion Hr' as [He2]. clear Hr'. try rewrite He2. rewrite <- ?He1.
  split; [now rewrite reviewed_status |].
  split; [unfold reviewed; now destruct (Js.truthy _) |].
  split; [unfold reviewed; now destruct (Js.truthy _) |].
  split; [| apply same_submission_reviewed].
  intros Hn. unfold reviewed, review_sanitized. cbn [r_reviewComments].
  rewrite Hn. reflexivity.
Qed.

Lemma later_review_keeps_comments_witness :
  let c1 := Token (Some Sample.manager) in
  let c2 := Token (Some Sample.finance) in
  let b1 := {| r_status := Some "Rejected";
               r_reviewComments := Some "receipt missing" |} in
  let b2 := {| r_status := Some "Approved"; r_reviewComments := None |} in
  let w1 := snd (handle (L := Sample.libs) (PutStatus c1 "e1" b1) 4000 "x"
                   Sample.world) in
  exists e2,
    fst (handle (L := Sample.libs) (PutStatus c2 "e1" b2) 5000 "y" w1)
      = json 200 (Doc e2) /\
    status e2 = "Approved" /\ reviewedBy e2 = Some "f1" /\
    reviewComments e2 = Some "receipt missing".
Proof.
  intros c1 c2 b1 b2 w1.
  assert (R1 : exists e1,
            handle (L := Sample.libs) (PutStatus c1 "e1" b1) 4000 "x"
              Sample.world = (json 200 (Doc e1), w1) /\
            reviewComments e1 = Some "receipt missing")
    by (eexists; split; reflexivity).
  destruct R1 as [e1 [R1 C1]].
  assert (R2 : exists e2 w2,
            handle (L := Sample.libs) (PutStatus c2 "e1" b2) 5000 "y" w1
              = (json 200 (Doc e2), w2))
    by (eexists; eexists; reflexivity).
  destruct R2 as [e2 [w2 R2]].
  destruct (later_review_keeps_comments (L := Sample.libs) c1 c2
              Sample.manager Sample.finance "e1" b1 b2 4000 5000 "x" "y"
              Sample.world w1 w2 e1 e2 eq_refl eq_refl R1 R2)
    as (S & B & _ & K & _).
  exists e2. split; [now rewrite R2 |]. split; [exact S |].
  split; [exact B |]. rewrite (K eq_refl). exact C1.
Defined.

(** ** The names of stored files *)

Section StoredNames.
Import Uploads.
Context {P : Node}.

Lemma append_inv_head (a x y : string) :
  (a ++ x)%string = (a ++ y)%string -> x = y.
Proof.
  induction a as [| c r IH]; simpl; intros H; [exact H |].
  inversion H. auto.
Qed.

Lemma append_empty_r (a : string) : (a ++ EmptyString)%string = a.
Proof. induction a as [| c r IH]; simpl; [reflexivity | now rewrite IH]. Qed.

Lemma all_digits_decimal (n : N) : all_digits (decimal n) = true.
Proof.
  unfold decimal. induction (N.to_uint n) as [| d IH | d IH | d IH | d IH
    | d IH | d IH | d IH | d IH | d IH | d IH]; simpl; auto.
Qed.

Lemma decimal_inj (n m : N) : decimal n = decimal m -> n = m.
Proof.
  unfold decimal. intros H. apply DecimalN.Unsigned.to_uint_inj.
  pose proof (DecimalString.NilEmpty.usu (N.to_uint n)) as Hn.
  pose proof (DecimalString.NilEmpty.usu (N.to_uint m)) as Hm.
  rewrite H in Hn. congruence.
Qed.

(** Two runs of digits, each followed by a character that is not one. *)
Lemma digits_then (a1 a2 : string) (c1 c2 : ascii) (x1 x2 : string) :
  all_digits a1 = true -> all_digits a2 = true ->
  is_digit c1 = false -> is_digit c2 = false ->
  (a1 ++ String c1 x1)%string = (a2 ++ String c2 x2)%string ->
  a1 = a2 /\ c1 = c2 /\ x1 = x2.
Proof.
  revert a2. induction a1 as [| d1 r1 IH]; intros a2 H1 H2 N1 N2 E.
  - destruct a2 as [| d2 r2]; simpl in *.
    + inversion E. auto.
    + inversion E; subst. apply andb_prop in H2 as [H2 _]. congruence.
  - destruct a2 as [| d2 r2]; simpl in *.
    + inversion E; subst. apply andb_prop in H1 as [H1 _]. congruence.
    + inversion E; subst. apply andb_prop in H1 as [_ H1].
      apply andb_prop in H2 as [_ H2].
      destruct (IH r2 H1 H2 N1 N2 H3) as [-> [-> ->]]. auto.
Qed.

(** A run of digits is not a run of digits followed by something else. *)
Lemma digits_only (a1 a2 : string) (c : ascii) (x : string) :
  all_digits a1 = true -> is_digit c = false ->
  a1 <> (a2 ++ String c x)%string.
Proof.
  revert a2. induction a1 as [| d r IH]; intros a2 H N E.
  - destruct a2; discriminate E.
  - simpl in H. apply andb_prop in H as [Hd Hr].
    destruct a2 as [| d2 r2]; simpl in E; inversion E; subst.
    + congruence.
    + now apply (IH r2 Hr N).
Qed.

(** X20. When two stored file names coincide.  For one field name, the
    names [filename] gives two uploads are equal exactly when the uploads
    have the same [Date.now()], the same random draw and the same
    extension: a different millisecond or a different draw gives a
    different name whatever the original names, and nothing but the
    extension of the original name enters the stored one. *)
Theorem stored_names_coincide (fieldname : string) (now1 rnd1 now2 rnd2 : N)
    (original1 original2 : string) :
  filename fieldname now1 rnd1 original1
    = filename fieldname now2 rnd2 original2
  <->
  now1 = now2 /\ rnd1 = rnd2 /\ extname original1 = extname original2.
Proof.
  split.
  - unfold filename. cbv zeta. intros H.
    apply append_inv_head in H. simpl in H. inversion H as [H1]. clear H.
    assert (A : forall a b c : string,
              ((a ++ b) ++ c)%string = (a ++ (b ++ c))%string).
    { intros a b c. induction a as [| ch r IH]; simpl;
        [reflexivity | now rewrite IH]. }
    rewrite !A in H1. simpl in H1.
    apply digits_then in H1 as [Hn [_ H2]];
      try apply all_digits_decimal; try reflexivity.
    apply decimal_inj in Hn. split; [exact Hn |].
    destruct (extname_shape original1) as [E1 | [x1 E1]];
      destruct (extname_shape original2) as [E2 | [x2 E2]];
      rewrite E1, E2 in H2 |- *.
    + rewrite !append_empty_r in H2. apply decimal_inj in H2. auto.
    + rewrite append_empty_r in H2. exfalso.
      exact (digits_only (decimal rnd1) (decimal rnd2) "."%char x2
               (all_digits_decimal rnd1) eq_refl H2).
    + rewrite append_empty_r in H2. exfalso. symmetry in H2.
      exact (digits_only (decimal rnd2) (decimal rnd1) "."%char x1
               (all_digits_decimal rnd2) eq_refl H2).
    + apply digits_then in H2 as [Hr [_ Hx]];
        try apply all_digits_decimal; try reflexivity.
      apply decimal_inj in Hr. subst. auto.
  - intros [-> [-> E]]. unfold filename. now rewrite E.
Qed.

End StoredNames.

Example stored_name_of_receipt :
  Uploads.filename (P := Sample.node) "invoice" 1710460800000 123456789
    "receipt.pdf"
  = f_filename Sample.receipt.
Proof. reflexivity. Qed.

(** ** What the routes leave alone *)

Lemma keeps_files_ret {A : Type} (a : A) : keeps_files (ret a).
Proof. intros w. reflexivity. Qed.

Lemma keeps_files_throw {A : Type} (e : Error) : keeps_files (@throw A e).
Proof. intros w. reflexivity. Qed.

Lemma keeps_files_bind {A B : Type} (m : M A) (k : A -> M B) :
  keeps_files m -> (forall a, keeps_files (k a)) -> keeps_files (bind m k).
Proof.
  intros Hm Hk w. unfold bind. specialize (Hm w).
  destruct (m w) as [[e | a] w']; simpl in *; [assumption |].
  now rewrite Hk.
Qed.

Lemma keeps_files_round_trip (c : Call) : keeps_files (round_trip c).
Proof.
  intros w. unfold round_trip. now destruct (faults w) as [| [|] fs].
Qed.

Lemma keeps_files_get_docs : keeps_files get_docs.
Proof. intros w. reflexivity. Qed.

Lemma keeps_files_get_files : keeps_files get_files.
Proof. intros w. reflexivity. Qed.

Lemma keeps_files_put_docs (l : list Expense) : keeps_files (put_docs l).
Proof. intros w. reflexivity. Qed.

Create HintDb files.
#[local] Hint Resolve keeps_files_ret keeps_files_throw keeps_files_round_trip
  keeps_files_get_docs keeps_files_get_files keeps_files_put_docs : files.

Ltac files_step :=
  first [ solve [auto with files]
        | apply keeps_files_bind; [| intros ?]
        | match goal with
          | |- keeps_files (match ?x with _ => _ end) => destruct x
          end
        | match goal with
          | |- keeps_files (if ?x then _ else _) => destruct x
          end ].

Lemma keeps_files_findById (id : string) : keeps_files (findById id).
Proof. unfold findById. repeat files_step. Qed.

Lemma keeps_files_find_sorted (f : Filter) (n k : option Z) :
  keeps_files (find_sorted f n k).
Proof. unfold find_sorted. repeat files_step. Qed.

Lemma keeps_files_countDocuments (f : Filter) :
  keeps_files (countDocuments f).
Proof. unfold countDocuments. repeat files_step. Qed.

Lemma keeps_files_create (n : NewExpense) (id : string) (now : Z) :
  keeps_files (create n id now).
Proof. unfold create. repeat files_step. Qed.

Lemma keeps_files_save (e : Expense) : keeps_files (save e).
Proof. unfold save. repeat files_step. Qed.

#[local] Hint Resolve keeps_files_findById keeps_files_find_sorted
  keeps_files_countDocuments keeps_files_create keeps_files_save : files.

Lemma catch500_keeps_files (message : string) (m : M Response) (w : World) :
  keeps_files m -> files (snd (catch500 message m w)) = files w.
Proof.
  intros H. unfold catch500. specialize (H w).
  now destruct (m w) as [[e | r] w'].
Qed.

Lemma canAccessExpense_keeps_files (u : User) (id : string) (w : World) :
  files (snd (canAccessExpense u id w)) = files w.
Proof.
  unfold canAccessExpense, guarded.
  assert (K : keeps_files
                (let userId := u_id u in
                 let userRole := role u in
                 if String.eqb userRole "Manager"
                    || String.eqb userRole "Finance"
                 then ret Next
                 else
                   bind (findById id)
                     (fun expense =>
                        match expense with
                        | None =>
                            ret (Respond (json 404
                                   (Message "Expense not found")))
                        | Some e =>
                            if negb (String.eqb (submittedBy e) userId)
                            then ret (Respond (json 403
                                   (Message
                                      "Not authorized to access this expense")))
                            else ret Next
                        end)))
    by (cbv zeta; repeat files_step).
  specialize (K w). cbv zeta in K |- *.
  now destruct (_ w) as [[e | o] w'].
Qed.

(** X21. The four GET routes change nothing that is stored, and the
    status review touches no file.  Whatever the credential and the round
    trips that fail, after the own listing, the full listing, single
    retrieval and invoice download both the collection and the files are
    the ones before, and after a status review the files are. *)
Theorem reading_changes_nothing {L : Libraries} (r : Request) (now : Z)
    (fresh : string) (w : World) :
  match r with
  | PostExpense _ _ _ => True
  | PutStatus _ _ _ => files (snd (handle r now fresh w)) = files w
  | _ =>
      files (snd (handle r now fresh w)) = files w /\
      docs (snd (handle r now fresh w)) = docs w
  end.
Proof.
  assert (F : files (snd (handle r now fresh w)) = files w).
  { destruct r as [c b file | c | c q | c id | c id b | c id]; simpl;
      unfold for_roles, for_owner;
      (destruct (protect c) as [resp | u]; [reflexivity |]);
      try (destruct (authorize _ _); [reflexivity |]).
    + unfold submit. apply catch500_keeps_files. repeat files_step.
    + unfold list_my. apply catch500_keeps_files. repeat files_step.
    + unfold list_all. apply catch500_keeps_files. repeat files_step.
    + pose proof (canAccessExpense_keeps_files u id w) as F.
      destruct (canAccessExpense u id w) as [[| resp] w1]; simpl in F;
        [| exact F].
      unfold get_one. rewrite catch500_keeps_files; [exact F |].
      repeat files_step.
    + unfold update_status. apply catch500_keeps_files. repeat files_step.
    + pose proof (canAccessExpense_keeps_files u id w) as F.
      destruct (canAccessExpense u id w) as [[| resp] w1]; simpl in F;
        [| exact F].
      unfold download_invoice. rewrite catch500_keeps_files; [exact F |].
      repeat files_step. }
  destruct r as [c b file | c | c q | c id | c id b | c id];
    try exact I; try exact F; (split; [exact F |]).
  - simpl. unfold for_roles.
    destruct (protect c); [reflexivity |].
    destruct (authorize _ _); [reflexivity |].
    unfold list_my. apply catch500_reads. repeat reads_step.
  - simpl. unfold for_roles.
    destruct (protect c); [reflexivity |].
    destruct (authorize _ _); [reflexivity |].
    unfold list_all. apply catch500_reads. repeat reads_step.
  - simpl. unfold for_owner. destruct (protect c) as [| u]; [reflexivity |].
    pose proof (canAccessExpense_reads u id w) as D.
    destruct (canAccessExpense u id w) as [[| resp] w1]; simpl in D;
      [| exact D].
    unfold get_one. rewrite catch500_reads; [exact D |].
    repeat reads_step.
  - simpl. unfold for_owner. destruct (protect c) as [| u]; [reflexivity |].
    pose proof (canAccessExpense_reads u id w) as D.
    destruct (canAccessExpense u id w) as [[| resp] w1]; simpl in D;
      [| exact D].
    unfold download_invoice. rewrite catch500_reads; [exact D |].
    repeat reads_step.
Qed.

(** A submission that is not answered 201 has stored nothing. *)
Lemma submit_not_201 {L : Libraries} (u : User) (b : SubmitBody)
    (file : option Upload) (now : Z) (fresh : string) (w w' : World)
    (r : Response) :
  submit u b file now fresh w = (r, w') -> code r <> 201 ->
  docs w' = docs w.
Proof.
  unfold submit, catch500.
  destruct (submit_errors b); [| intros H; now inversion H].
  destruct file as [f |]; [| intros H; now inversion H]. cbv zeta.
  destruct (parse_vendor _) as [vd |]; [| intros H; now inversion H].
  unfold bind.
  destruct (create _ fresh now w) as [[err | e] w1] eqn:C;
    intros H; inversion H; subst.
  - intros _. eapply create_inl; eassumption.
  - intros N. now destruct N.
Qed.

(** X22. A submission is all or nothing.  Whatever the caller, the body,
    the file and the round trips that fail, the route [POST /] answers 201
    and has appended exactly the expense it answers with, or answers
    something else and has left the collection as it was: no answer other
    than 201 leaves a record behind. *)
Theorem submission_is_all_or_nothing {L : Libraries} (c : Credential)
    (b : SubmitBody) (file : option Upload) (now : Z) (fresh : string)
    (w : World) :
  let r := fst (handle (PostExpense c b file) now fresh w) in
  let w' := snd (handle (PostExpense c b file) now fresh w) in
  (exists e, r = json 201 (Doc e) /\ docs w' = (docs w ++ [e])%list) \/
  (code r <> 201 /\ docs w' = docs w).
Proof.
  simpl. unfold for_roles.
  destruct (protect c) as [resp | u] eqn:Hp.
  - right. split; [| reflexivity].
    destruct c as [| | [u |]]; simpl in Hp.
    + inversion Hp. discriminate.
    + inversion Hp. discriminate.
    + destruct (isActive u); inversion Hp. discriminate.
    + inversion Hp. discriminate.
  - destruct (authorize _ (Some u)) as [resp |] eqn:A.
    + right. split; [| reflexivity]. apply authorize_refuses in A.
      simpl. rewrite A. discriminate.
    + destruct (submit u b file now fresh w) as [r w'] eqn:R. simpl.
      destruct (Z.eq_dec (code r) 201) as [C | C].
      * left.
        destruct (submit_201_inv u b file now fresh w w' r R C)
          as [f [vd [_ [_ [_ [Hr D]]]]]].
        eauto.
      * right. split; [exact C |]. eapply submit_not_201; eassumption.
Qed.

(** ** The bounds of the submission's fields *)

Lemma rule_reported {L : Libraries} (b : SubmitBody)
    (rule : SubmitBody -> bool) (err : FieldError) :
  In (rule, err) submit_rules ->
  (forall rule', In (rule', err) submit_rules -> rule' = rule) ->
  (In err (submit_errors b) <-> rule b = false).
Proof.
  intros Hin Huniq. rewrite submit_errors_In. split.
  - intros [rule' [H1 H2]]. now rewrite <- (Huniq rule' H1).
  - intros H. eauto.
Qed.

Ltac only_rule :=
  let r := fresh "r" in
  let H := fresh "H" in
  intros r H; simpl in H;
  repeat (destruct H as [H | H];
          [inversion H; try reflexivity;
           match goal with E : _ = _ |- _ => discriminate E end |]);
  destruct H.

(** X23. When each field of a submission is reported.  The title is
    reported exactly when, once trimmed, it does not have 1 to 100
    characters, and the description when it does not have 1 to 500: white
    space around them does not count, and a field of white space alone is
    missing.  The category is reported exactly when it is not one of the
    ten of the list, the vendor name when it is empty once trimmed, the
    amount and the date when their validators reject them. *)
Theorem submission_field_bounds {L : Libraries} (b : SubmitBody) :
  (In title_rule (submit_errors b) <->
   ~ (1 <= String.length (Js.trim (Js.toString (b_title b))) <= 100)%nat) /\
  (In description_rule (submit_errors b) <->
   ~ (1 <= String.length (Js.trim (Js.toString (b_description b))) <= 500)%nat)
  /\
  (In category_rule (submit_errors b) <->
   ~ In (Js.toString (b_category b)) categories) /\
  (In vendor_rule (submit_errors b) <->
   Js.trim (Js.toString (vendor_name (b_vendor b))) = EmptyString) /\
  (In amount_rule (submit_errors b) <->
   isFloat_min (Js.toString (b_amount b)) = false) /\
  (In date_rule (submit_errors b) <->
   isISO8601 (Js.toString (b_expenseDate b)) = false).
Proof.
  assert (Len : forall n s,
            Js.isLength 1 n s = false <-> ~ (1 <= String.length s <= n)%nat).
  { intros n s. unfold Js.isLength. rewrite andb_false_iff.
    rewrite !Nat.leb_gt. lia. }
  repeat split.
  - intros H. apply Len.
    apply (rule_reported b
             (fun b => Js.isLength 1 100 (Js.trim (Js.toString (b_title b))))
             title_rule); [simpl; auto | only_rule | exact H].
  - intros H. apply Len in H.
    apply (rule_reported b
             (fun b => Js.isLength 1 100 (Js.trim (Js.toString (b_title b))))
             title_rule); [simpl; auto | only_rule | exact H].
  - intros H. apply Len.
    apply (rule_reported b
             (fun b =>
                Js.isLength 1 500 (Js.trim (Js.toString (b_description b))))
             description_rule); [simpl; auto 6 | only_rule | exact H].
  - intros H. apply Len in H.
    apply (rule_reported b
             (fun b =>
                Js.isLength 1 500 (Js.trim (Js.toString (b_description b))))
             description_rule); [simpl; auto 6 | only_rule | exact H].
  - intros H. apply isIn_not_In.
    apply (rule_reported b
             (fun b => Js.isIn categories (Js.toString (b_category b)))
             category_rule); [simpl; auto | only_rule | exact H].
  - intros H. apply isIn_not_In in H.
    apply (rule_reported b
             (fun b => Js.isIn categories (Js.toString (b_category b)))
             category_rule); [simpl; auto | only_rule | exact H].
  - intros H.
    apply (rule_reported b
             (fun b =>
                Js.notEmpty (Js.trim (Js.toString (vendor_name (b_vendor b)))))
             vendor_rule) in H; [| simpl; auto 6 | only_rule].
    unfold Js.notEmpty in H. apply negb_false_iff in H.
    now apply String.eqb_eq in H.
  - intros H.
    apply (rule_reported b
             (fun b =>
                Js.notEmpty (Js.trim (Js.toString (vendor_name (b_vendor b)))))
             vendor_rule); [simpl; auto 6 | only_rule |].
    unfold Js.notEmpty. rewrite H. reflexivity.
  - intros H.
    apply (rule_reported b
             (fun b => isFloat_min (Js.toString (b_amount b))) amount_rule);
      [simpl; auto | only_rule | exact H].
  - intros H.
    apply (rule_reported b
             (fun b => isFloat_min (Js.toString (b_amount b))) amount_rule);
      [simpl; auto | only_rule | exact H].
  - intros H.
    apply (rule_reported b
             (fun b => isISO8601 (Js.toString (b_expenseDate b))) date_rule);
      [simpl; auto 7 | only_rule | exact H].
  - intros H.
    apply (rule_reported b
             (fun b => isISO8601 (Js.toString (b_expenseDate b))) date_rule);
      [simpl; auto 7 | only_rule | exact H].
Qed.
